(** * job_matcher_mcp: a shallow embedding of the request pipeline

    The development follows the JavaScript sources of the repository:

    - [rateLimiter.js]      the sliding-window limiter ([RateLimiter]);
    - [src/worker.js]       the edge-worker limiter and handlers;
    - [validator.js]        [validateInputs] and its helpers;
    - [tools.js]            [validateToolParameters];
    - [index.js], [start-http.js]   the stdio and HTTP handlers;
    - [markdownFormatter.js]        the response transformer and renderer.

    JavaScript strings are sequences of UTF-16 code units, so a string
    is a [list N] here; numbers that hold timestamps and counters are
    integers ([Z]); the similarity score is an IEEE-754 binary64 value
    ([spec_float] with precision 53). *)

From Stdlib Require Import ZArith NArith Lia Ascii String List Bool.
From Stdlib Require Import Floats.SpecFloat.
From stdpp Require Import base gmap list option.

Import ListNotations.

(** ** JavaScript strings *)

Abbreviation jsstring := (list N).

Module JsString.

(** Code points of a UTF-8 byte sequence (the encoding of the literals
    in this file); malformed tails are dropped. *)
Fixpoint codePoints (bytes : list N) : list N :=
  match bytes with
  | [] => []
  | b1 :: rest1 =>
      if (b1 <? 128)%N then b1 :: codePoints rest1
      else match rest1 with
      | [] => []
      | b2 :: rest2 =>
          if (b1 <? 224)%N then
            ((b1 mod 32) * 64 + b2 mod 64)%N :: codePoints rest2
          else match rest2 with
          | [] => []
          | b3 :: rest3 =>
              if (b1 <? 240)%N then
                ((b1 mod 16) * 4096 + (b2 mod 64) * 64 + b3 mod 64)%N
                  :: codePoints rest3
              else match rest3 with
              | [] => []
              | b4 :: rest4 =>
                  ((b1 mod 8) * 262144 + (b2 mod 64) * 4096
                   + (b3 mod 64) * 64 + b4 mod 64)%N :: codePoints rest4
              end
          end
      end
  end.

(** UTF-16 code units of one code point. *)
Definition codeUnits (cp : N) : list N :=
  if (cp <? 65536)%N then [cp]
  else [(55296 + (cp - 65536) / 1024)%N; (56320 + (cp - 65536) mod 1024)%N].

(** The JavaScript string denoted by a literal of this file. *)
Definition lit (s : string) : jsstring :=
  flat_map codeUnits (codePoints (map N_of_ascii (list_ascii_of_string s))).

#[global] Arguments lit : simpl never.

(** [Array.prototype.join]. *)
Fixpoint join (sep : jsstring) (parts : list jsstring) : jsstring :=
  match parts with
  | [] => []
  | [p] => p
  | p :: rest => p ++ sep ++ join sep rest
  end.

(** Decimal digits of a non-negative integer, most significant first. *)
Fixpoint digitsFuel (fuel : nat) (n : N) (acc : jsstring) : jsstring :=
  match fuel with
  | O => acc
  | S fuel' =>
      let acc' := (48 + n mod 10)%N :: acc in
      if (n / 10 =? 0)%N then acc' else digitsFuel fuel' (n / 10)%N acc'
  end.

(** [String(z)] for an integer [z]. *)
Definition ofZ (z : Z) : jsstring :=
  let n := Z.to_N (Z.abs z) in
  let ds := digitsFuel (S (N.to_nat (N.log2 n))) n [] in
  if (z <? 0)%Z then 45%N :: ds else ds.

Definition eqb (a b : jsstring) : bool := bool_decide (a = b).

(** The characters matched by [\s]: WhiteSpace and LineTerminator. *)
Definition isWhiteSpace (c : N) : bool :=
  ((9 <=? c) && (c <=? 13) || (c =? 32) || (c =? 160) || (c =? 5760)
   || (8192 <=? c) && (c <=? 8202) || (c =? 8232) || (c =? 8233)
   || (c =? 8239) || (c =? 8287) || (c =? 12288) || (c =? 65279))%N.

(** The characters that [.] does not match. *)
Definition isLineTerminator (c : N) : bool :=
  ((c =? 10) || (c =? 13) || (c =? 8232) || (c =? 8233))%N.

Definition isDigit (c : N) : bool := ((48 <=? c) && (c <=? 57))%N.

Fixpoint dropWhile (p : N → bool) (s : jsstring) : jsstring :=
  match s with
  | [] => []
  | c :: rest => if p c then dropWhile p rest else s
  end.

Fixpoint takeWhile (p : N → bool) (s : jsstring) : jsstring :=
  match s with
  | [] => []
  | c :: rest => if p c then c :: takeWhile p rest else []
  end.

(** *** [Number::toString] for an integer

    A number is written with the fewest digits that read back as the
    same double.  An integer below [2^53] is its own double and is
    written with all its digits.  From [2^53] on the doubles are
    [ulp] apart; the digits are those of the shortest decimal that
    rounds to the number, followed by zeros below [10^21] and written
    in exponent notation from [10^21] on. *)

(** The distance between the doubles at [m], for [2^53 <= m]. *)
Definition ulp (m : Z) : Z := (2 ^ (Z.log2 m - 52))%Z.

(** [v] rounds to the double [m]: it is within half the distance to
    the next double on its side of [m] (below a power of two the
    doubles are half as far apart), the half-way points included
    when the significand of [m] is even. *)
Definition readsAs (m v : Z) : bool :=
  let above := ulp m in
  let below := if (m =? 2 ^ Z.log2 m)%Z then (above / 2)%Z else above in
  let even := Z.even (m / above) in
  if (v <? m)%Z
  then (2 * (m - v) <? below)%Z || even && (2 * (m - v) =? below)%Z
  else (2 * (v - m) <? above)%Z || even && (2 * (v - m) =? above)%Z.

(** The decimal with the fewest significant digits that rounds to
    [m]: the multiples of [10 ^ fuel] on either side of [m] are
    tried for [fuel] counting down; of two that round to [m] the
    nearer is taken, and the one with an even last digit when they
    are as near. *)
Fixpoint shortestFrom (m : Z) (fuel : nat) : Z :=
  match fuel with
  | O => m
  | S fuel' =>
      let step := (10 ^ Z.of_nat fuel)%Z in
      let low := (m / step * step)%Z in
      let high := (low + step)%Z in
      match readsAs m low, readsAs m high with
      | true, true =>
          if (m - low <? high - m)%Z then low
          else if (high - m <? m - low)%Z then high
          else if Z.even (low / step) then low else high
      | true, false => low
      | false, true => high
      | false, false => shortestFrom m fuel'
      end
  end.

Definition shortest (m : Z) : Z := shortestFrom m (length (ofZ m) - 1).

(** [d.ddde+x]: the digits of [v] without the zeros at the end, a
    point after the first when more follow, and the exponent. *)
Definition exponential (v : Z) : jsstring :=
  let digits := ofZ v in
  let significand := rev (dropWhile (N.eqb 48) (rev digits)) in
  take 1 significand
  ++ (if decide (1 < length significand)%nat then 46%N :: drop 1 significand
      else [])
  ++ lit "e+" ++ ofZ (Z.of_nat (length digits) - 1).

(** [String(n)] for a number whose value is the integer [n]. *)
Definition ofNumber (n : Z) : jsstring :=
  if (Z.abs n <? 2 ^ 53)%Z then ofZ n
  else
    let v := shortest (Z.abs n) in
    (if (n <? 0)%Z then [45%N] else [])
    ++ (if (v <? 10 ^ 21)%Z then ofZ v else exponential v).

Definition trimStart (s : jsstring) : jsstring := dropWhile isWhiteSpace s.
Definition trimEnd (s : jsstring) : jsstring :=
  rev (dropWhile isWhiteSpace (rev s)).

(** [s.trim()] *)
Definition trim (s : jsstring) : jsstring := trimEnd (trimStart s).

(** [s.replace(/X+/g, r)] for a character class [X] and a code unit
    [r]: every maximal run of [X] becomes one [r].  [inRun] tells
    that the previous character was in the class. *)
Fixpoint replaceRunsFrom (inClass : N → bool) (r : N) (inRun : bool)
    (s : jsstring) : jsstring :=
  match s with
  | [] => []
  | c :: rest =>
      if inClass c
      then (if inRun then replaceRunsFrom inClass r true rest
            else r :: replaceRunsFrom inClass r true rest)
      else c :: replaceRunsFrom inClass r false rest
  end.

Definition replaceRuns (inClass : N → bool) (r : N) (s : jsstring) : jsstring :=
  replaceRunsFrom inClass r false s.

(** [s.replace(/\s+/g, ' ')] *)
Definition collapseWhitespace (s : jsstring) : jsstring :=
  replaceRuns isWhiteSpace 32 s.

(** [s.split(/X+/)]: the pieces between the maximal runs of [X]; a
    run at either end leaves an empty piece there.  [cur] is the
    piece being read, reversed. *)
Fixpoint splitRunsFrom (inClass : N → bool) (cur : jsstring) (inRun : bool)
    (s : jsstring) : list jsstring :=
  match s with
  | [] => [rev cur]
  | c :: rest =>
      if inClass c
      then (if inRun then splitRunsFrom inClass [] true rest
            else rev cur :: splitRunsFrom inClass [] true rest)
      else splitRunsFrom inClass (c :: cur) false rest
  end.

Definition splitRuns (inClass : N → bool) (s : jsstring) : list jsstring :=
  splitRunsFrom inClass [] false s.

(** [s.split(/\s+/)] *)
Definition splitWhitespace (s : jsstring) : list jsstring :=
  splitRuns isWhiteSpace s.

(** [s.split(sep)] for a separator of one code unit. *)
Fixpoint splitCharFrom (sep : N) (cur : jsstring) (s : jsstring)
  : list jsstring :=
  match s with
  | [] => [rev cur]
  | c :: rest =>
      if (c =? sep)%N then rev cur :: splitCharFrom sep [] rest
      else splitCharFrom sep (c :: cur) rest
  end.

Definition splitChar (sep : N) (s : jsstring) : list jsstring :=
  splitCharFrom sep [] s.

(** [/(.)\1{20,}/.test(s)]: some character other than a line
    terminator is followed by at least [n] copies of itself
    ([n = 20] in the source). *)
Fixpoint hasRepeatedRun (n : nat) (s : jsstring) : bool :=
  match s with
  | [] => false
  | c :: rest =>
      (negb (isLineTerminator c)
       && bool_decide (n ≤ length (takeWhile (N.eqb c) rest))%nat)
      || hasRepeatedRun n rest
  end.

(** Lower case of one code unit: the ASCII letters, and the Kelvin
    sign, the one other character whose lower case is an ASCII letter. *)
Definition lowerUnit (c : N) : N :=
  if ((65 <=? c) && (c <=? 90))%N then (c + 32)%N
  else if (c =? 8490)%N then 107%N else c.

(** [s.toLowerCase()], on strings of ASCII characters; the comparisons
    made with its result are against ASCII words. *)
Definition toLowerCase (s : jsstring) : jsstring := map lowerUnit s.

(** Value of a string of decimal digits. *)
Definition digitsValue (s : jsstring) : Z :=
  fold_left (λ acc c, acc * 10 + (Z.of_N c - 48))%Z s 0%Z.

Definition hexValue (c : N) : option Z :=
  if isDigit c then Some (Z.of_N c - 48)%Z
  else if ((97 <=? c) && (c <=? 102))%N then Some (Z.of_N c - 87)%Z
  else if ((65 <=? c) && (c <=? 70))%N then Some (Z.of_N c - 55)%Z
  else None.

(** [parseInt(s)] without a radix; [None] is [NaN].  Leading
    whitespace and a sign are skipped, [0x] selects base 16, and the
    longest prefix of digits is read. *)
Definition parseInt (s : jsstring) : option Z :=
  let s1 := trimStart s in
  let '(negative, s2) :=
    match s1 with
    | 45%N :: r => (true, r)
    | 43%N :: r => (false, r)
    | _ => (false, s1)
    end in
  let magnitude :=
    match s2 with
    | 48%N :: (120%N | 88%N) :: r =>
        let ds := takeWhile (λ c, bool_decide (is_Some (hexValue c))) r in
        if decide (ds = []) then None
        else Some (fold_left (λ acc c, acc * 16 + default 0 (hexValue c))%Z ds 0%Z)
    | _ =>
        let ds := takeWhile isDigit s2 in
        if decide (ds = []) then None else Some (digitsValue ds)
    end in
  (λ m : Z, if negative then (- m)%Z else m) <$> magnitude.

(** [s.includes(t)] *)
Fixpoint includes (s t : jsstring) : bool :=
  bool_decide (t `prefix_of` s)
  || match s with
     | [] => false
     | _ :: rest => includes rest t
     end.

(** The double-quote character used in the messages. *)
Definition quote : jsstring := [34%N].

End JsString.

Notation "'js' s" := (JsString.lit s%string) (at level 9, s at level 0, only parsing).

(** ** The sliding-window limiter of [rateLimiter.js] *)

Module RateLimiter.

Local Open Scope Z_scope.

(** [{ requests: [], resetTime: timestamp }] *)
Record UserData := mkUserData {
  requests : list Z;
  resetTime : Z
}.

(** The fields set by the constructor. *)
Record t := mk {
  requestsPerMinute : Z;
  windowSizeMs : Z;
  users : gmap jsstring UserData
}.

(** [new RateLimiter(requestsPerMinute, windowSizeMs)] *)
Definition new (requestsPerMinute windowSizeMs : Z) : t :=
  mk requestsPerMinute windowSizeMs ∅.

(** The exported singleton: [new RateLimiter(10, 60000)]. *)
Definition rateLimiter : t := new 10 60000.

(** The object returned by [checkLimit]. *)
Record Result := mkResult {
  allowed : bool;
  remaining : Z;
  resultResetTime : Z;
  requestCount : Z;
  limit : Z
}.

(** [getUserData]: the record of the session, created on first use.
    The map holds the record that the caller then mutates. *)
Definition getUserData (now : Z) (sessionId : jsstring) (this : t)
  : UserData * t :=
  match users this !! sessionId with
  | Some userData => (userData, this)
  | None =>
      let userData := mkUserData [] (now + windowSizeMs this) in
      (userData,
       mk (requestsPerMinute this) (windowSizeMs this)
          (<[sessionId := userData]> (users this)))
  end.

(** [cleanOldRequests]: keeps the timestamps with [timestamp > cutoff]
    and moves the reset time when none is left. *)
Definition cleanOldRequests (this : t) (userData : UserData) (now : Z)
  : UserData :=
  let cutoff := now - windowSizeMs this in
  let kept := filter (λ timestamp, cutoff < timestamp) (requests userData) in
  mkUserData kept
    (if decide (length kept = 0%nat)
     then now + windowSizeMs this else resetTime userData).

(** Writes the mutated record of [sessionId] back into the map. *)
Definition store (sessionId : jsstring) (userData : UserData) (this : t) : t :=
  mk (requestsPerMinute this) (windowSizeMs this)
     (<[sessionId := userData]> (users this)).

(** [checkLimit(sessionId)] at time [now = Date.now()]. *)
Definition checkLimit (now : Z) (sessionId : jsstring) (this : t)
  : Result * t :=
  let '(userData0, this1) := getUserData now sessionId this in
  let userData := cleanOldRequests this1 userData0 now in
  if decide (requestsPerMinute this1 <= Z.of_nat (length (requests userData)))
  then
    (mkResult false 0 (resetTime userData)
       (Z.of_nat (length (requests userData))) (requestsPerMinute this1),
     store sessionId userData this1)
  else
    let requests' := requests userData ++ [now] in
    let userData' := mkUserData requests' (now + windowSizeMs this1) in
    (mkResult true
       (requestsPerMinute this1 - Z.of_nat (length requests'))
       (resetTime userData')
       (Z.of_nat (length requests')) (requestsPerMinute this1),
     store sessionId userData' this1).

(** The timestamps recorded for a session ([[]] when it has none). *)
Definition sessionRequests (this : t) (sessionId : jsstring) : list Z :=
  match users this !! sessionId with
  | Some userData => requests userData
  | None => []
  end.

(** Successive [checkLimit] calls of one session, at the given times. *)
Fixpoint checkMany (times : list Z) (sessionId : jsstring) (this : t)
  : list Result * t :=
  match times with
  | [] => ([], this)
  | now :: later =>
      let '(r, this1) := checkLimit now sessionId this in
      let '(rs, this2) := checkMany later sessionId this1 in
      (r :: rs, this2)
  end.

(** The object returned by [getStatus]. *)
Record Status := mkStatus {
  statusRequestCount : Z;
  statusRemaining : Z;
  statusResetTime : Z;
  statusLimit : Z;
  statusWindowSizeMs : Z
}.

(** [getStatus(sessionId)]: like [checkLimit] it creates the record
    of a new session and prunes the record it reads. *)
Definition getStatus (now : Z) (sessionId : jsstring) (this : t)
  : Status * t :=
  let '(userData0, this1) := getUserData now sessionId this in
  let userData := cleanOldRequests this1 userData0 now in
  (mkStatus
     (Z.of_nat (length (requests userData)))
     (requestsPerMinute this1 - Z.of_nat (length (requests userData)))
     (resetTime userData) (requestsPerMinute this1) (windowSizeMs this1),
   store sessionId userData this1).

(** [resetUser(sessionId)] *)
Definition resetUser (sessionId : jsstring) (this : t) : t :=
  if decide (is_Some (users this !! sessionId))
  then mk (requestsPerMinute this) (windowSizeMs this)
          (delete sessionId (users this))
  else this.

(** [resetAll()] *)
Definition resetAll (this : t) : t :=
  mk (requestsPerMinute this) (windowSizeMs this) ∅.

(** The object returned by [getStats]; the last two fields are its
    [configuration]. *)
Record Stats := mkStats {
  totalUsers : Z;
  activeUsers : Z;
  totalRequests : Z;
  usersAtLimit : Z;
  configRequestsPerMinute : Z;
  configWindowSizeMs : Z
}.

(** The body of the loop of [getStats], for one entry of the map. *)
Definition countUser (this : t) (now : Z) (userData : UserData)
    (stats : Stats) : Stats :=
  let cleaned := cleanOldRequests this userData now in
  let count := Z.of_nat (length (requests cleaned)) in
  if decide (0 < count)
  then mkStats (totalUsers stats) (activeUsers stats + 1)
         (totalRequests stats + count)
         (if decide (requestsPerMinute this <= count)
          then usersAtLimit stats + 1 else usersAtLimit stats)
         (configRequestsPerMinute stats) (configWindowSizeMs stats)
  else stats.

(** [getStats()]: the loop visits every entry once, prunes it and
    adds to the counters; the sums do not depend on the order of the
    visits. *)
Definition getStats (now : Z) (this : t) : Stats * t :=
  (map_fold (λ _ userData stats, countUser this now userData stats)
     (mkStats (Z.of_nat (size (users this))) 0 0 0
        (requestsPerMinute this) (windowSizeMs this))
     (users this),
   mk (requestsPerMinute this) (windowSizeMs this)
      ((λ userData, cleanOldRequests this userData now) <$> users this)).

(** [cleanup()]: every entry is pruned, and deleted when it is left
    without requests and its reset time has passed. *)
Definition cleanup (now : Z) (this : t) : t :=
  mk (requestsPerMinute this) (windowSizeMs this)
     (filter
        (λ entry : jsstring * UserData,
           ¬ (length (requests entry.2) = 0%nat ∧ resetTime entry.2 < now))
        ((λ userData, cleanOldRequests this userData now) <$> users this)).

(** [wouldAllow(sessionId)]: the record is read through
    [getUserData], which creates it for a new session, and pruned on
    a copy. *)
Definition wouldAllow (now : Z) (sessionId : jsstring) (this : t)
  : Result * t :=
  let '(userData, this1) := getUserData now sessionId this in
  let tempUserData := cleanOldRequests this1 userData now in
  let count := Z.of_nat (length (requests tempUserData)) in
  (mkResult (bool_decide (count < requestsPerMinute this1))
     (Z.max 0 (requestsPerMinute this1 - count))
     (resetTime tempUserData) count (requestsPerMinute this1),
   this1).

(** [getTimeUntilReset(sessionId)] *)
Definition getTimeUntilReset (now : Z) (sessionId : jsstring) (this : t)
  : Z * t :=
  let '(status, this1) := wouldAllow now sessionId this in
  (if allowed status then 0 else Z.max 0 (resultResetTime status - now),
   this1).

(** [Math.ceil(a / b)] for integers [a] and [b > 0]. *)
Definition ceilDiv (a b : Z) : Z := - ((- a) / b).

(** [getTimeUntilResetFormatted(sessionId)] *)
Definition getTimeUntilResetFormatted (now : Z) (sessionId : jsstring)
    (this : t) : jsstring * t :=
  let '(timeMs, this1) := getTimeUntilReset now sessionId this in
  (if decide (timeMs = 0) then js "Available now"
   else
     let seconds := ceilDiv timeMs 1000 in
     if decide (seconds < 60)
     then JsString.ofZ seconds ++ js " second"
          ++ (if decide (seconds = 1) then [] else js "s")
     else
       let minutes := ceilDiv seconds 60 in
       JsString.ofZ minutes ++ js " minute"
       ++ (if decide (minutes = 1) then [] else js "s"),
   this1).

End RateLimiter.

(** ** The limiter of the edge worker ([src/worker.js]) *)

Module WorkersRateLimiter.

Local Open Scope Z_scope.

(** A JavaScript number that is an integer or [Infinity]
    ([Math.min()] of no arguments is [Infinity]). *)
Inductive number :=
| Finite (z : Z)
| Infinity.

Definition plus (x : number) (d : Z) : number :=
  match x with
  | Finite z => Finite (z + d)
  | Infinity => Infinity
  end.

(** [Math.min(...xs)] *)
Definition Math_min (xs : list Z) : number :=
  match xs with
  | [] => Infinity
  | x :: rest => Finite (fold_left Z.min rest x)
  end.

Record t := mk {
  limitPerMinute : Z;
  requests : gmap jsstring (list Z)
}.

(** [new WorkersRateLimiter(limitPerMinute)] *)
Definition new (limitPerMinute : Z) : t := mk limitPerMinute ∅.

Record Result := mkResult {
  allowed : bool;
  remaining : Z;
  resetTime : number;
  total : Z
}.

(** [checkLimit(sessionId)] at time [now = Date.now()]. *)
Definition checkLimit (now : Z) (sessionId : jsstring) (this : t)
  : Result * t :=
  let windowStart := now - 60 * 1000 in
  let sessionRequests := default [] (requests this !! sessionId) in
  let recentRequests :=
    filter (λ timestamp, windowStart < timestamp) sessionRequests in
  if decide (limitPerMinute this <= Z.of_nat (length recentRequests))
  then
    let oldestRequest := Math_min recentRequests in
    let resetTime := plus oldestRequest (60 * 1000) in
    (mkResult false 0 resetTime (limitPerMinute this), this)
  else
    let recentRequests' := recentRequests ++ [now] in
    (mkResult true
       (limitPerMinute this - Z.of_nat (length recentRequests'))
       (Finite (now + 60 * 1000)) (limitPerMinute this),
     mk (limitPerMinute this)
        (<[sessionId := recentRequests']> (requests this))).

End WorkersRateLimiter.

(** ** JavaScript values of the argument and response objects *)

Module Value.

(** The primitive values that JSON carries (numbers are integers),
    and [undefined] for a missing property. *)
Inductive t :=
| VUndefined
| VNull
| VBool (b : bool)
| VNumber (n : Z)
| VString (s : jsstring).

#[global] Instance eq_dec : EqDecision t.
Proof. solve_decision. Defined.

(** A plain object, as the ordered list of its own properties. *)
Abbreviation object := (list (jsstring * t)).

(** [o[key]] *)
Fixpoint get (o : object) (key : jsstring) : t :=
  match o with
  | [] => VUndefined
  | (k, v) :: rest => if decide (k = key) then v else get rest key
  end.

(** [key in o] *)
Definition has (o : object) (key : jsstring) : bool :=
  bool_decide (key ∈ map fst o).

(** The names of the properties that an object literal inherits from
    [Object.prototype].  The value of each is a function, or the
    prototype itself for [__proto__]: a truthy value that has none of
    the properties named in the tool table. *)
Definition prototypeKeys : list jsstring :=
  [js "constructor"; js "__defineGetter__"; js "__defineSetter__";
   js "hasOwnProperty"; js "__lookupGetter__"; js "__lookupSetter__";
   js "isPrototypeOf"; js "propertyIsEnumerable"; js "toString";
   js "valueOf"; js "__proto__"; js "toLocaleString"].

(** ToBoolean *)
Definition truthy (v : t) : bool :=
  match v with
  | VUndefined | VNull => false
  | VBool b => b
  | VNumber n => negb (n =? 0)%Z
  | VString s => negb (JsString.eqb s [])
  end.

Definition isString (v : t) : bool :=
  match v with VString _ => true | _ => false end.

(** ToString *)
Definition toString (v : t) : jsstring :=
  match v with
  | VUndefined => js "undefined"
  | VNull => js "null"
  | VBool true => js "true"
  | VBool false => js "false"
  | VNumber n => JsString.ofNumber n
  | VString s => s
  end.

(** [parseInt(v)]: the argument is converted to a string first. *)
Definition parseInt (v : t) : option Z := JsString.parseInt (toString v).

(** [v || fallback] *)
Definition orElse (v fallback : t) : t := if truthy v then v else fallback.

End Value.

(** ** Dates *)

Module Date.

Local Open Scope Z_scope.

Definition msPerDay : Z := 1000 * 60 * 60 * 24.

(** Days since 1970-01-01 of a proleptic Gregorian date. *)
Definition daysFromCivil (y m d : Z) : Z :=
  let y' := if m <=? 2 then y - 1 else y in
  let era := y' / 400 in
  let yoe := y' - era * 400 in
  let doy := (153 * (if 2 <? m then m - 3 else m + 9) + 2) / 5 + d - 1 in
  let doe := yoe * 365 + yoe / 4 - yoe / 100 + doy in
  era * 146097 + doe - 719468.

(** Year, month (1 to 12) and day of a day number. *)
Definition civilFromDays (days : Z) : Z * Z * Z :=
  let z := days + 719468 in
  let era := z / 146097 in
  let doe := z - era * 146097 in
  let yoe := (doe - doe / 1460 + doe / 36524 - doe / 146096) / 365 in
  let doy := doe - (365 * yoe + yoe / 4 - yoe / 100) in
  let mp := (5 * doy + 2) / 153 in
  let d := doy - (153 * mp + 2) / 5 + 1 in
  let m := if mp <? 10 then mp + 3 else mp - 9 in
  ((if m <=? 2 then yoe + era * 400 + 1 else yoe + era * 400), m, d).

Definition getUTCFullYear (t : Z) : Z := (civilFromDays (t / msPerDay)).1.1.
(** Months count from 0, as in JavaScript. *)
Definition getUTCMonth (t : Z) : Z := (civilFromDays (t / msPerDay)).1.2 - 1.
Definition getUTCDate (t : Z) : Z := (civilFromDays (t / msPerDay)).2.

(** What the [Date] object of the runtime decides: the parser of
    date strings ([None] is an invalid date), the local time zone and
    the locale formats.  Time values are milliseconds since the epoch. *)
Record Host := mkHost {
  parse : jsstring → option Z;
  (** [new Date(year, monthIndex, day).getTime()] *)
  local : Z → Z → Z → Z;
  getFullYear : Z → Z;
  toLocaleDateString : option Z → jsstring;
  toLocaleTimeString : option Z → jsstring;
  (** [Number.prototype.toLocaleString] *)
  numberToLocaleString : Z → jsstring
}.

(** [new Date(v)] for a primitive [v]; [None] is an invalid date. *)
Definition ofValue (host : Host) (v : Value.t) : option Z :=
  match v with
  | Value.VString s => parse host s
  | Value.VNumber n =>
      if (Z.abs n <=? 8640000000000000) then Some n else None
  | Value.VBool b => Some (if b then 1 else 0)
  | Value.VNull => Some 0
  | Value.VUndefined => None
  end.

(** A host in the UTC time zone whose parser reads [YYYY-MM-DD],
    optionally followed by [T00:00:00.000Z], accepts days up to 31 in
    every month (a day past the end of the month rolls over) and
    rejects everything else. *)
Module Utc.

Definition twoDigits (n : Z) : jsstring :=
  if n <? 10 then 48%N :: JsString.ofZ n else JsString.ofZ n.

Definition isoDate (t : Z) : jsstring :=
  let '(y, m, d) := civilFromDays (t / msPerDay) in
  JsString.ofZ y ++ js "-" ++ twoDigits m ++ js "-" ++ twoDigits d.

Definition parse (s : jsstring) : option Z :=
  match s with
  | y1 :: y2 :: y3 :: y4 :: 45%N :: m1 :: m2 :: 45%N :: d1 :: d2 :: rest =>
      if forallb JsString.isDigit [y1; y2; y3; y4; m1; m2; d1; d2]
         && (JsString.eqb rest [] || JsString.eqb rest (js "T00:00:00.000Z"))
      then
        let y := JsString.digitsValue [y1; y2; y3; y4] in
        let m := JsString.digitsValue [m1; m2] in
        let d := JsString.digitsValue [d1; d2] in
        if (1 <=? m) && (m <=? 12) && (1 <=? d) && (d <=? 31)
        then Some ((daysFromCivil y m 1 + d - 1) * msPerDay)
        else None
      else None
  | _ => None
  end.

Definition host : Host := {|
  Date.parse := parse;
  local := λ y m d, (daysFromCivil y (m + 1) 1 + d - 1) * msPerDay;
  getFullYear := getUTCFullYear;
  toLocaleDateString := λ t,
    match t with Some t => isoDate t | None => js "Invalid Date" end;
  toLocaleTimeString := λ t,
    match t with
    | Some t => JsString.ofZ (t mod msPerDay)
    | None => js "Invalid Date"
    end;
  numberToLocaleString := JsString.ofZ
|}.

End Utc.

End Date.

(** ** [validator.js]: validation of the tool arguments *)

Module Validator.

Import Value.
Local Open Scope Z_scope.

(** [{ valid, errors }] *)
Record Validation := mkValidation {
  valid : bool;
  errors : list jsstring
}.

(** [{ valid: errors.length === 0, errors }] *)
Definition report (errors : list jsstring) : Validation :=
  mkValidation (bool_decide (length errors = 0%nat)) errors.

Module CONFIG.
Definition MIN_RESUME_LENGTH : Z := 500.
Definition MAX_RESUME_LENGTH : Z := 15000.
(** [/^\d{4}-\d{2}-\d{2}$/.test(s)] *)
Definition DATE_REGEX (s : jsstring) : bool :=
  match s with
  | [y1; y2; y3; y4; 45%N; m1; m2; 45%N; d1; d2] =>
      forallb JsString.isDigit [y1; y2; y3; y4; m1; m2; d1; d2]
  | _ => false
  end.
Definition VALID_SORT_OPTIONS : list jsstring := [js "similarity"; js "date"].
End CONFIG.

Definition len (s : jsstring) : Z := Z.of_nat (length s).

Definition validateRequiredParameters (args : object) : Validation :=
  let resume_text := get args (js "resume_text") in
  report
    (if negb (truthy resume_text) || bool_decide (resume_text = VString [])
     then [js "Resume text is required"]
     else if negb (isString resume_text)
     then [js "Resume text must be provided as a string"]
     else []).

Definition tooShort : jsstring :=
  js "Resume text is too short. Minimum " ++ JsString.ofZ CONFIG.MIN_RESUME_LENGTH
  ++ js " characters required".

Definition tooLong : jsstring :=
  js "Resume text is too long. Maximum " ++ JsString.ofZ CONFIG.MAX_RESUME_LENGTH
  ++ js " characters allowed".

Definition validateMeaningfulContent (text : jsstring) : Validation :=
  let normalizedText := JsString.trim (JsString.collapseWhitespace text) in
  if decide (len normalizedText < CONFIG.MIN_RESUME_LENGTH)
  then mkValidation false
         [js "Resume text contains insufficient content (too much whitespace)"]
  else
    let words :=
      filter (λ word, (0 < length word)%nat)
             (JsString.splitWhitespace normalizedText) in
    report
      ((if JsString.hasRepeatedRun 20 text
        then [js "Resume text contains suspicious repeated characters"]
        else [])
       ++ (if decide (length words < 10)%nat
           then [js "Resume text must contain at least 10 words"]
           else [])).

(** A value that is not a string has no [length] and no [replace]:
    the length tests are false and the content check throws, which
    the [catch] of this function turns into one message. *)
Definition validateResumeText (resumeText : t) : Validation :=
  match resumeText with
  | VString text =>
      report
        ((if decide (len text < CONFIG.MIN_RESUME_LENGTH) then [tooShort] else [])
         ++ (if decide (CONFIG.MAX_RESUME_LENGTH < len text) then [tooLong] else [])
         ++ (let meaningfulValidation := validateMeaningfulContent text in
             if valid meaningfulValidation then []
             else errors meaningfulValidation))
  | _ => report [js "Unable to validate resume text content"]
  end.

Definition validateUserExperience (experience : t) : Validation :=
  match experience with
  | VString _ =>
      report
        match parseInt experience with
        | None => [js "User experience must be a valid number"]
        | Some experienceNum =>
            if decide (experienceNum < 0)
            then [js "User experience cannot be negative"]
            else if decide (50 < experienceNum)
            then [js "User experience seems unusually high (maximum 50 years)"]
            else []
        end
  | _ => mkValidation false [js "User experience must be a string"]
  end.

(** The trimmed, non-empty items of a comma-separated list. *)
Definition items (s : jsstring) : list jsstring :=
  filter (λ k, (0 < length k)%nat) (map JsString.trim (JsString.splitChar 44 s)).

Definition validateKeywords (keywords : t) : Validation :=
  match keywords with
  | VString s =>
      let keywordList := items s in
      report
        ((if decide (500 < len s)
          then [js "Keywords string is too long (maximum 500 characters)"] else [])
         ++ (if decide (length keywordList = 0)%nat
             then [js "At least one keyword is required when keywords parameter is provided"]
             else if decide (50 < length keywordList)%nat
             then [js "Too many keywords (maximum 50)"] else [])
         ++ flat_map (λ keyword,
              if decide (len keyword < 2)
              then [js "Keyword " ++ JsString.quote ++ keyword ++ JsString.quote
                    ++ js " is too short (minimum 2 characters)"]
              else if decide (50 < len keyword)
              then [js "Keyword " ++ JsString.quote ++ keyword ++ JsString.quote
                    ++ js " is too long (maximum 50 characters)"]
              else []) keywordList)
  | _ => mkValidation false [js "Keywords must be a string"]
  end.

Definition validateLocation (location : t) : Validation :=
  match location with
  | VString s =>
      let locationList := items s in
      report
        ((if decide (5000 < len s)
          then [js "Location string is too long (maximum 5000 characters)"] else [])
         ++ (if decide (length locationList = 0)%nat
             then [js "At least one location is required when location parameter is provided"]
             else if decide (100 < length locationList)%nat
             then [js "Too many locations (maximum 100)"] else [])
         ++ flat_map (λ loc,
              if decide (len loc < 2)
              then [js "Location " ++ JsString.quote ++ loc ++ JsString.quote
                    ++ js " is too short (minimum 2 characters)"]
              else if decide (50 < len loc)
              then [js "Location " ++ JsString.quote ++ loc ++ JsString.quote
                    ++ js " is too long (maximum 50 characters)"]
              else []) locationList)
  | _ => mkValidation false [js "Location must be a string"]
  end.

Definition validatePage (page : t) : Validation :=
  report
    match parseInt page with
    | None => [js "Page must be a valid number"]
    | Some pageNum =>
        if decide (pageNum < 1) then [js "Page must be 1 or greater"]
        else if decide (1000 < pageNum)
        then [js "Page number is too high (maximum 1000)"]
        else []
    end.

Definition validateSortBy (sortBy : t) : Validation :=
  match sortBy with
  | VString s =>
      report
        (if bool_decide (JsString.toLowerCase s ∈ CONFIG.VALID_SORT_OPTIONS)
         then []
         else [js "Sort_by must be one of: "
               ++ JsString.join (js ", ") CONFIG.VALID_SORT_OPTIONS])
  | _ => mkValidation false [js "Sort_by must be a string"]
  end.

Section WithDate.

(** The [Date] of the runtime and the time of the call. *)
Variable host : Date.Host.
Variable now : Z.

Definition validateDate (dateString : t) (fieldName : jsstring) : Validation :=
  match dateString with
  | VString s =>
      if negb (CONFIG.DATE_REGEX s)
      then mkValidation false
             [fieldName ++ js " must be in YYYY-MM-DD format (e.g., "
              ++ JsString.quote ++ js "2025-01-15" ++ JsString.quote ++ js ")"]
      else
        let date := Date.parse host (s ++ js "T00:00:00.000Z") in
        let year := JsString.digitsValue (take 4 s) in
        let month := JsString.digitsValue (take 2 (drop 5 s)) in
        let day := JsString.digitsValue (take 2 (drop 8 s)) in
        let minDate := Date.local host 2020 0 1 in
        let maxDate := Date.local host (Date.getFullYear host now + 2) 11 31 in
        report
          (match date with
           | None => [fieldName ++ js " is not a valid date"]
           | Some time =>
               if bool_decide (Date.getUTCFullYear time ≠ year)
                  || bool_decide (Date.getUTCMonth time ≠ month - 1)
                  || bool_decide (Date.getUTCDate time ≠ day)
               then [fieldName ++ js " is not a valid date"] else []
           end
           ++ match date with
              | None => []
              | Some time =>
                  if decide (time < minDate)
                  then [fieldName ++ js " is too far in the past (minimum: 2020-01-01)"]
                  else if decide (maxDate < time)
                  then [fieldName ++ js " is too far in the future (maximum: "
                        ++ JsString.ofZ (Date.getFullYear host maxDate) ++ js "-12-31)"]
                  else []
              end)
  | _ => mkValidation false [fieldName ++ js " must be a string"]
  end.

(** Comparisons with an invalid date are false; the span in days
    exceeds 365 exactly when the span in milliseconds exceeds
    [365 * msPerDay]. *)
Definition validateDateRange (startDate endDate : t) : Validation :=
  let start := Date.ofValue host startDate in
  let end_ := Date.ofValue host endDate in
  report
    (match start, end_ with
     | Some a, Some b =>
         (if decide (b <= a) then [js "Start date must be before end date"] else [])
         ++ (if decide (365 * Date.msPerDay < b - a)
             then [js "Date range is too long (maximum 1 year)"] else [])
     | _, _ => []
     end).

(** [v !== undefined && v !== ''] *)
Definition provided (v : t) : bool :=
  negb (bool_decide (v = VUndefined)) && negb (bool_decide (v = VString [])).

(** The errors of a check that runs under a condition. *)
Definition errorsWhen (condition : bool) (validation : Validation)
  : list jsstring :=
  if condition then (if valid validation then [] else errors validation)
  else [].

Definition validateOptionalParameters (args : object) : Validation :=
  let user_experience := get args (js "user_experience") in
  let keywords := get args (js "keywords") in
  let location := get args (js "location") in
  let start_date := get args (js "start_date") in
  let end_date := get args (js "end_date") in
  let page := get args (js "page") in
  let sort_by := get args (js "sort_by") in
  report
    (errorsWhen (provided user_experience) (validateUserExperience user_experience)
     ++ errorsWhen (provided keywords) (validateKeywords keywords)
     ++ errorsWhen (provided location) (validateLocation location)
     ++ errorsWhen (provided start_date) (validateDate start_date (js "start_date"))
     ++ errorsWhen (provided end_date) (validateDate end_date (js "end_date"))
     ++ errorsWhen (truthy start_date && truthy end_date
                    && negb (bool_decide (start_date = VString []))
                    && negb (bool_decide (end_date = VString [])))
          (validateDateRange start_date end_date)
     ++ errorsWhen (negb (bool_decide (page = VUndefined))) (validatePage page)
     ++ errorsWhen (provided sort_by) (validateSortBy sort_by)).

(** [validateInputs(args)]; [args] is [None] when the caller passed
    no object, and the property access then throws into the [catch]. *)
Definition validateInputs (args : option object) : Validation :=
  match args with
  | Some args =>
      report
        (errorsWhen true (validateRequiredParameters args)
         ++ errorsWhen (truthy (get args (js "resume_text")))
              (validateResumeText (get args (js "resume_text")))
         ++ errorsWhen true (validateOptionalParameters args))
  | None => mkValidation false [js "Internal validation error occurred"]
  end.

End WithDate.

End Validator.

(** ** [tools.js]: the tool table and the schema check *)

Module Tools.

Import Value.
Local Open Scope Z_scope.

Inductive schemaType := TString | TInteger.

(** The keys of a property schema that [validateToolParameters] reads. *)
Record PropSchema := mkProp {
  type : schemaType;
  pattern : option jsstring;
  enum : option (list jsstring);
  minimum : option Z;
  maximum : option Z
}.

Record InputSchema := mkSchema {
  properties : list (jsstring * PropSchema);
  required : list jsstring;
  additionalProperties : bool
}.

Definition stringProp : PropSchema := mkProp TString None None None None.

Definition datePattern : jsstring :=
  js "^" ++ [92%N] ++ js "d{4}-" ++ [92%N] ++ js "d{2}-" ++ [92%N] ++ js "d{2}$".

Definition dateProp : PropSchema :=
  mkProp TString (Some datePattern) None None None.

(** The input schema shared by [match_resume] and
    [match_jobs_to_apply]. *)
Definition inputSchema : InputSchema := {|
  properties :=
    [(js "resume_text", stringProp);
     (js "user_experience", stringProp);
     (js "keywords", stringProp);
     (js "location", stringProp);
     (js "start_date", dateProp);
     (js "end_date", dateProp);
     (js "sort_by",
       mkProp TString None (Some [js "similarity"; js "date"]) None None)];
  required := [js "resume_text"];
  additionalProperties := false
|}.

(** [tools]: the names of the table and their schema. *)
Definition tools : list (jsstring * InputSchema) :=
  [(js "match_resume", inputSchema); (js "match_jobs_to_apply", inputSchema)].

Fixpoint lookup {A} (table : list (jsstring * A)) (key : jsstring) : option A :=
  match table with
  | [] => None
  | (k, a) :: rest => if decide (k = key) then Some a else lookup rest key
  end.

(** What [table[key]] yields on an object literal: an own property,
    a property inherited from [Object.prototype], or [undefined]. *)
Inductive property (A : Type) :=
| Own (a : A)
| Inherited
| Absent.
Arguments Own {A} a.
Arguments Inherited {A}.
Arguments Absent {A}.

Definition read {A} (table : list (jsstring * A)) (key : jsstring)
  : property A :=
  match lookup table key with
  | Some a => Own a
  | None => if bool_decide (key ∈ prototypeKeys) then Inherited else Absent
  end.

(** [new RegExp(pattern).test(value)]; the one pattern of the table
    is the date pattern. *)
Definition patternTest (pattern value : jsstring) : bool :=
  Validator.CONFIG.DATE_REGEX value.

(** The outcome of a call that may throw. *)
Inductive completion (A : Type) :=
| Normal (a : A)
| Throw.
Arguments Normal {A} a.
Arguments Throw {A}.

(** [params.k && params.k.trim() !== ''], read as a condition; a
    truthy value that is not a string has no [trim], and the call
    throws. *)
Definition hasDate (v : t) : completion bool :=
  if truthy v then
    match v with
    | VString s => Normal (negb (JsString.eqb (JsString.trim s) []))
    | _ => Throw
    end
  else Normal false.

Definition startRequiresEnd : jsstring :=
  js "When start_date is provided, end_date must also be provided to create a complete date range".
Definition endRequiresStart : jsstring :=
  js "When end_date is provided, start_date must also be provided to create a complete date range".
Definition startBeforeEnd : jsstring := js "start_date must be before end_date".

Section WithDate.

Variable host : Date.Host.

(** The block that checks the logical dependencies of the date range. *)
Definition dateDependencies (params : object) : completion (list jsstring) :=
  match hasDate (get params (js "start_date")) with
  | Throw => Throw
  | Normal hasStartDate =>
      match hasDate (get params (js "end_date")) with
      | Throw => Throw
      | Normal hasEndDate =>
          Normal
            ((if hasStartDate && negb hasEndDate then [startRequiresEnd] else [])
             ++ (if hasEndDate && negb hasStartDate then [endRequiresStart] else [])
             ++ (if hasStartDate && hasEndDate then
                   match Date.ofValue host (get params (js "start_date")),
                         Date.ofValue host (get params (js "end_date")) with
                   | Some startDate, Some endDate =>
                       if decide (endDate <= startDate) then [startBeforeEnd] else []
                   | _, _ => []
                   end
                 else []))
      end
  end.

(** The body of the loop over [Object.entries(params)].  For a key
    that [schema.properties] inherits, [propSchema] is truthy and its
    [type] is [undefined]: no case of the [switch] applies. *)
Definition checkEntry (schema : InputSchema) (entry : jsstring * t)
  : list jsstring :=
  let '(key, value) := entry in
  if bool_decide (value = VUndefined) || bool_decide (value = VNull)
     || bool_decide (value = VString [])
  then []
  else
    match read (properties schema) key with
    | Absent =>
        if additionalProperties schema then []
        else [js "Unknown parameter: " ++ key]
    | Inherited => []
    | Own propSchema =>
        match type propSchema with
        | TString =>
            match value with
            | VString s =>
                match pattern propSchema with
                | Some p =>
                    if patternTest p s then []
                    else [js "Parameter " ++ key
                          ++ js " format is invalid. Expected format: " ++ p]
                | None => []
                end
                ++ match enum propSchema with
                   | Some options =>
                       if bool_decide (s ∈ options) then []
                       else [js "Parameter " ++ key ++ js " must be one of: "
                             ++ JsString.join (js ", ") options]
                   | None => []
                   end
            | _ => [js "Parameter " ++ key ++ js " must be a string"]
            end
        | TInteger =>
            match parseInt value with
            | None => [js "Parameter " ++ key ++ js " must be an integer"]
            | Some intValue =>
                match minimum propSchema with
                | Some m =>
                    if decide (intValue < m)
                    then [js "Parameter " ++ key ++ js " must be at least "
                          ++ JsString.ofZ m] else []
                | None => []
                end
                ++ match maximum propSchema with
                   | Some m =>
                       if decide (m < intValue)
                       then [js "Parameter " ++ key ++ js " must be at most "
                             ++ JsString.ofZ m] else []
                   | None => []
                   end
            end
        end
    end.

(** [validateToolParameters(toolName, params)].  For a name that
    [tools] inherits, [tool] is truthy and has no [inputSchema]:
    reading [schema.required] throws. *)
Definition validateToolParameters (toolName : jsstring) (params : object)
  : completion Validator.Validation :=
  match read tools toolName with
  | Absent =>
      Normal (Validator.mkValidation false [js "Unknown tool: " ++ toolName])
  | Inherited => Throw
  | Own schema =>
      let missing :=
        flat_map (λ name,
          if negb (has params name)
             || bool_decide (get params name = VUndefined)
             || bool_decide (get params name = VNull)
          then [js "Missing required parameter: " ++ name] else [])
          (required schema) in
      match
        (if bool_decide (toolName = js "match_resume")
            || bool_decide (toolName = js "match_jobs_to_apply")
         then dateDependencies params else Normal [])
      with
      | Throw => Throw
      | Normal dateErrors =>
          Normal (Validator.report
                    (missing ++ dateErrors
                     ++ flat_map (checkEntry schema) params))
      end
  end.

End WithDate.

End Tools.

(** ** JavaScript numbers: IEEE-754 binary64 *)

Module Number.

Local Open Scope Z_scope.

Abbreviation t := spec_float.

Definition prec : Z := 53.
Definition emax : Z := 1024.

(** The number nearest to an integer. *)
Definition ofZ (z : Z) : t := binary_normalize prec emax z 0 false.

(** The number written [m / 10^k] in decimal, for [m] and [10^k]
    that are exact as numbers: the quotient rounded to nearest. *)
Definition ofDecimal (m : Z) (k : Z) : t :=
  SFdiv prec emax (ofZ m) (ofZ (10 ^ k)).

Definition mul (x y : t) : t := SFmul prec emax x y.

(** [x >= y] *)
Definition geb (x y : t) : bool := SFleb y x.

(** ToBoolean: [NaN] and the zeros are falsy. *)
Definition truthy (x : t) : bool :=
  match x with
  | S754_nan | S754_zero _ => false
  | _ => true
  end.

(** [Math.round(x)]: the integer nearest to [x], the larger one on a
    tie; a result of zero keeps the sign of [x]. *)
Definition Math_round (x : t) : t :=
  match x with
  | S754_finite s m e =>
      if 0 <=? e then x
      else
        let signed := if s then Z.neg m else Z.pos m in
        let n := (2 * signed + 2 ^ (- e)) / 2 ^ (1 - e) in
        if n =? 0 then S754_zero s else ofZ n
  | _ => x
  end.

(** The integer value of a number that is an integer. *)
Definition toZ (x : t) : option Z :=
  match x with
  | S754_zero _ => Some 0
  | S754_finite s m e =>
      if 0 <=? e then Some ((if s then Z.neg m else Z.pos m) * 2 ^ e)
      else
        let d := 2 ^ (- e) in
        if Z.pos m mod d =? 0
        then Some ((if s then Z.neg m else Z.pos m) / d) else None
  | _ => None
  end.

(** [String(x)] for the results of [Math.round]: an integer in plain
    decimal notation (JavaScript switches to exponent notation from
    [10^21] on), [Infinity] or [NaN]. *)
Definition toString (x : t) : jsstring :=
  match x with
  | S754_nan => js "NaN"
  | S754_infinity false => js "Infinity"
  | S754_infinity true => js "-Infinity"
  | _ => match toZ x with
         | Some z => JsString.ofZ z
         | None => js "NaN"
         end
  end.

End Number.

(** ** [markdownFormatter.js]: transformation and rendering *)

Module Formatter.

Definition nl : jsstring := [10%N].
Definition backtick : jsstring := [96%N].

(** *** The backend data *)

(** A job of the backend response.  A text property is [None] when
    it is absent. *)
Module JobMatch.
Record t := mk {
  job_title : option jsstring;
  company_name : option jsstring;
  location : option jsstring;
  locations : Value.t;
  work_location : Value.t;
  office_locations : Value.t;
  remote_friendly : Value.t;
  location_type : Value.t;
  geographic_region : Value.t;
  similarity_score : option Number.t;
  job_link : option jsstring;
  first_published : Value.t;
  min_experience_years : Value.t;
  experience_details : option jsstring;
  salary : option jsstring;
  job_type : option jsstring;
  chunk_text : option jsstring
}.
End JobMatch.

Module ResumeProcessing.
Record t := mk {
  filename : Value.t;
  parsing_method : Value.t;
  enhancement_used : bool;
  original_length : option Z;
  enhanced_length : option Z
}.
End ResumeProcessing.

(** The response of the backend, with the defaults of the
    destructuring patterns applied to absent properties. *)
Module BackendData.
Record t := mk {
  matches : list JobMatch.t;
  total_matches : Z;
  page : Z;
  total_pages : Z;
  has_more : bool;
  extracted_skills : list jsstring;
  user_experience : Value.t;
  resume_processing : option ResumeProcessing.t;
  keywords : Value.t
}.
End BackendData.

(** *** The transformed data *)

Module Job.
Record t := mk {
  id : jsstring;
  title : jsstring;
  company : jsstring;
  location : jsstring;
  locations : Value.t;
  workLocation : Value.t;
  officeLocations : Value.t;
  remoteFriendly : Value.t;
  locationType : Value.t;
  geographicRegion : Value.t;
  match_ : Number.t;
  url : jsstring;
  posted : jsstring;
  firstPublishedAt : jsstring;
  experience : jsstring;
  experienceDetails : jsstring;
  salary : jsstring;
  jobType : jsstring;
  description : jsstring
}.
End Job.

Module Meta.
Record t := mk {
  total : Z;
  page : Z;
  totalPages : Z;
  hasMore : bool;
  skills : list jsstring;
  experience : Value.t;
  quota : option Z;
  keywords : Value.t
}.
End Meta.

Module Processing.
Record t := mk {
  filename : Value.t;
  method : Value.t;
  enhanced : bool;
  originalLength : option Z;
  enhancedLength : option Z
}.
End Processing.

Module Transformed.
Record t := mk {
  jobs : list Job.t;
  meta : Meta.t;
  processing : option Processing.t
}.
End Transformed.

(** [text || fallback] *)
Definition orDefault (text : option jsstring) (fallback : jsstring) : jsstring :=
  match text with
  | Some ((_ :: _) as s) => s
  | _ => fallback
  end.

(** The text of an interpolated property; an absent one prints as
    [undefined]. *)
Definition textOf (text : option jsstring) : jsstring :=
  match text with
  | Some s => s
  | None => js "undefined"
  end.

(** [v || null] *)
Definition orNull (v : Value.t) : Value.t := Value.orElse v Value.VNull.

(** *** Pattern searches *)

(** Canonical form of a code unit under the [i] flag. *)
Definition upperUnit (c : N) : N :=
  if ((97 <=? c) && (c <=? 122))%N then (c - 32)%N else c.

(** [label] at the start of [s], ignoring case when [ignoreCase]. *)
Definition startsWith (ignoreCase : bool) (label s : jsstring) : bool :=
  let canon := if ignoreCase then map upperUnit else (λ x, x) in
  bool_decide (canon (take (length label) s) = canon label).

(** The group of [\s*(X+)] at the start of [rest], for a character
    class [X]: the whitespace run gives characters back, from [k]
    taken down to none, until a character of the class follows. *)
Fixpoint captureFrom (inClass : N → bool) (k : nat) (rest : jsstring)
  : option jsstring :=
  match drop k rest with
  | (c :: _) as tail =>
      if inClass c then Some (JsString.takeWhile inClass tail)
      else match k with
           | O => None
           | S k' => captureFrom inClass k' rest
           end
  | [] => match k with
          | O => None
          | S k' => captureFrom inClass k' rest
          end
  end.

(** The group of [/label\s*(X+)/i] matched at the start of [s]. *)
Definition captureAt (label : jsstring) (inClass : N → bool) (s : jsstring)
  : option jsstring :=
  if startsWith true label s then
    let rest := drop (length label) s in
    captureFrom inClass (length (JsString.takeWhile JsString.isWhiteSpace rest)) rest
  else None.

(** [s.match(/label\s*(X+)/i)]: the group of the leftmost match. *)
Fixpoint firstCapture (label : jsstring) (inClass : N → bool) (s : jsstring)
  : option jsstring :=
  match captureAt label inClass s with
  | Some group => Some group
  | None =>
      match s with
      | [] => None
      | _ :: rest => firstCapture label inClass rest
      end
  end.

(** Length of [Point\d+:] at the start of [s]. *)
Definition pointHeader (ignoreCase : bool) (s : jsstring) : option nat :=
  if startsWith ignoreCase (js "Point") s then
    let digits := JsString.takeWhile JsString.isDigit (drop 5 s) in
    match digits, drop (5 + length digits) s with
    | _ :: _, 58%N :: _ => Some (5 + length digits + 1)
    | _, _ => None
    end
  else None.

(** The lookahead [(?=\s*Point\d+:|$)]. *)
Definition pointAhead (s : jsstring) : bool :=
  bool_decide (is_Some (pointHeader false (JsString.dropWhile JsString.isWhiteSpace s)))
  || bool_decide (s = []).

(** The lazy [[^]*?]: the shortest prefix after which the lookahead
    holds. *)
Fixpoint lazyBody (s : jsstring) : jsstring :=
  if pointAhead s then []
  else match s with
       | [] => []
       | c :: rest => c :: lazyBody rest
       end.

(** The text of [/Point\d+:\s*[^]*?(?=\s*Point\d+:|$)/] matched at
    the start of [s]. *)
Definition pointAt (s : jsstring) : option jsstring :=
  match pointHeader false s with
  | Some n =>
      let after := drop n s in
      let spaces := JsString.takeWhile JsString.isWhiteSpace after in
      Some (take n s ++ spaces
            ++ lazyBody (JsString.dropWhile JsString.isWhiteSpace after))
  | None => None
  end.

(** [s.match(/Point\d+:.../g)]: the successive matches, left to
    right; [skip] characters belong to the match found last.  The
    empty list stands for [null]. *)
Fixpoint pointMatchesFrom (skip : nat) (s : jsstring) : list jsstring :=
  match s with
  | [] => []
  | _ :: rest =>
      match skip with
      | S skip' => pointMatchesFrom skip' rest
      | O =>
          match pointAt s with
          | Some text => text :: pointMatchesFrom (length text - 1) rest
          | None => pointMatchesFrom 0 rest
          end
      end
  end.

Definition pointMatches (s : jsstring) : list jsstring := pointMatchesFrom 0 s.

(** [point.replace(/Point\d+:\s*/i, '')]: the leftmost match is cut out. *)
Fixpoint removePointPrefix (s : jsstring) : jsstring :=
  match pointHeader true s with
  | Some n => JsString.dropWhile JsString.isWhiteSpace (drop n s)
  | None =>
      match s with
      | [] => []
      | c :: rest => c :: removePointPrefix rest
      end
  end.

Definition isSentenceEnd (c : N) : bool :=
  ((c =? 46) || (c =? 33) || (c =? 63))%N.

(** *** Utility functions *)

(** [a.split('/').pop()] *)
Definition lastSegment (link : jsstring) : jsstring :=
  List.last (JsString.splitChar 47 link) [].

Definition generateJobId (job : JobMatch.t) (index : nat) : jsstring :=
  let baseId :=
    match JobMatch.job_link job with
    | Some ((_ :: _) as link) => lastSegment link
    | _ =>
        JsString.toLowerCase
          (JsString.replaceRuns JsString.isWhiteSpace 95
             (textOf (JobMatch.company_name job) ++ js "_"
              ++ textOf (JobMatch.job_title job)))
    end in
  js "job_" ++ baseId ++ js "_" ++ JsString.ofZ (Z.of_nat index).

Section WithDate.

Variable host : Date.Host.
Variable now : Z.

Definition formatDate (dateString : Value.t) : jsstring :=
  if negb (Value.truthy dateString) then js "Recently posted"
  else
    match Date.ofValue host dateString with
    | Some date =>
        let diffTime := Z.abs (now - date) in
        let diffDays := (diffTime / (1000 * 60 * 60 * 24))%Z in
        if decide (diffDays = 0)%Z then js "Today"
        else if decide (diffDays = 1)%Z then js "Yesterday"
        else if decide (diffDays < 7)%Z
        then (JsString.ofZ diffDays ++ js " days ago")
        else if decide (diffDays < 30)%Z
        then (JsString.ofZ (diffDays / 7)%Z ++ js " weeks ago")
        else if decide (diffDays < 365)%Z
        then (JsString.ofZ (diffDays / 30)%Z ++ js " months ago")
        else Date.toLocaleDateString host (Some date)
    | None =>
        (* every comparison with [NaN] is false *)
        Date.toLocaleDateString host None
    end.

Definition extractRequiredSkills (chunkText : jsstring) : list jsstring :=
  if decide (chunkText = []) then []
  else
    match firstCapture (js "Required Skills:") (λ c, negb (c =? 10)%N) chunkText with
    | Some line =>
        filter (λ skill, 0 < length skill ∧ length skill < 50)
               (map JsString.trim (JsString.splitChar 44 line))
    | None => []
    end.

Definition extractJobSummary (chunkText : jsstring) : list jsstring :=
  if decide (chunkText = []) then []
  else
    match firstCapture (js "Job Summary:")
            (λ c, negb (JsString.isLineTerminator c)) chunkText with
    | Some summaryText =>
        match pointMatches summaryText with
        | (_ :: _) as found =>
            filter (λ cleanPoint, 0 < length cleanPoint)
                   (map (λ point, JsString.trim (removePointPrefix point)) found)
        | [] =>
            take 5
              (filter (λ sentence, 10 < length sentence)
                 (map JsString.trim
                    (JsString.splitRuns isSentenceEnd summaryText)))
        end
    | None => []
    end.

Definition transformJob (job : JobMatch.t) (index : nat) : Job.t := {|
  Job.id := generateJobId job index;
  Job.title := orDefault (JobMatch.job_title job) (js "Job Title Not Available");
  Job.company := orDefault (JobMatch.company_name job) (js "Company Not Specified");
  Job.location := orDefault (JobMatch.location job) (js "Location Not Specified");
  Job.locations := orNull (JobMatch.locations job);
  Job.workLocation := orNull (JobMatch.work_location job);
  Job.officeLocations := orNull (JobMatch.office_locations job);
  Job.remoteFriendly :=
    match JobMatch.remote_friendly job with
    | Value.VUndefined => Value.VNull
    | v => v
    end;
  Job.locationType := orNull (JobMatch.location_type job);
  Job.geographicRegion := orNull (JobMatch.geographic_region job);
  Job.match_ :=
    Number.Math_round
      (Number.mul
         (match JobMatch.similarity_score job with
          | Some score => if Number.truthy score then score else Number.ofZ 0
          | None => Number.ofZ 0
          end)
         (Number.ofZ 100));
  Job.url := orDefault (JobMatch.job_link job) (js "#");
  Job.posted := formatDate (JobMatch.first_published job);
  Job.firstPublishedAt := formatDate (JobMatch.first_published job);
  Job.experience :=
    if Value.truthy (JobMatch.min_experience_years job)
    then Value.toString (JobMatch.min_experience_years job) ++ js " years"
    else js "Not specified";
  Job.experienceDetails :=
    orDefault (JobMatch.experience_details job) (js "No experience details available");
  Job.salary := orDefault (JobMatch.salary job) (js "Salary not specified");
  Job.jobType := orDefault (JobMatch.job_type job) (js "Job type not specified");
  Job.description :=
    orDefault (JobMatch.chunk_text job) (js "No description available")
|}.

Definition transformJobData (backendData : BackendData.t)
    (remainingQuota : option Z) : Transformed.t := {|
  Transformed.jobs :=
    imap (λ index job, transformJob job index) (BackendData.matches backendData);
  Transformed.meta := {|
    Meta.total := BackendData.total_matches backendData;
    Meta.page := BackendData.page backendData;
    Meta.totalPages := BackendData.total_pages backendData;
    Meta.hasMore := BackendData.has_more backendData;
    Meta.skills := BackendData.extracted_skills backendData;
    Meta.experience := BackendData.user_experience backendData;
    Meta.quota := remainingQuota;
    Meta.keywords := BackendData.keywords backendData
  |};
  Transformed.processing :=
    match BackendData.resume_processing backendData with
    | Some p => Some {|
        Processing.filename := ResumeProcessing.filename p;
        Processing.method := ResumeProcessing.parsing_method p;
        Processing.enhanced := ResumeProcessing.enhancement_used p;
        Processing.originalLength := ResumeProcessing.original_length p;
        Processing.enhancedLength := ResumeProcessing.enhanced_length p
      |}
    | None => None
    end
|}.

(** The indicator of the index table of the table-only document. *)
Definition matchColor (match_ : Number.t) : jsstring :=
  if Number.geb match_ (Number.ofZ 70) then js "🟢"
  else if Number.geb match_ (Number.ofZ 40) then js "🟡"
  else js "🟠".

(** The indicator of the index table of the full document. *)
Definition matchColorFullIndex (match_ : Number.t) : jsstring :=
  if Number.geb match_ (Number.ofZ 70) then js "🟢"
  else if Number.geb match_ (Number.ofZ 40) then js "�"
  else js "🟠".

(** The indicator of the detailed listings of the full document. *)
Definition matchColorFullDetail (match_ : Number.t) : jsstring :=
  if Number.geb match_ (Number.ofZ 70) then js "�"
  else if Number.geb match_ (Number.ofZ 40) then js "🟡"
  else js "🟠".

(** [if (processing.originalLength && processing.enhancedLength)] *)
Definition bothLengths (processing : Processing.t) : option (Z * Z) :=
  match Processing.originalLength processing,
        Processing.enhancedLength processing with
  | Some originalLength, Some enhancedLength =>
      if negb (originalLength =? 0)%Z && negb (enhancedLength =? 0)%Z
      then Some (originalLength, enhancedLength) else None
  | _, _ => None
  end.

Definition generateJobMatcherMarkdown (data : Transformed.t) : jsstring :=
  let jobs := Transformed.jobs data in
  let meta := Transformed.meta data in
  concat [
    (js "# 🎯 Job Search Results Dashboard" ++ nl ++ nl);
    (js "## 📊 Search Summary" ++ nl ++ nl);
    (js "| **Metric** | **Value** |" ++ nl);
    (js "|------------|-----------|" ++ nl);
    (js "| 🎯 **Total Matches** | **" ++ Date.numberToLocaleString host (Meta.total meta) ++ js " Job Opportunities** |" ++ nl);
    if Value.truthy (Meta.experience meta) then (js "| 👨‍💼 **Experience Level** | " ++ Value.toString (Meta.experience meta) ++ js " years |" ++ nl) else [];
    match Meta.skills meta with
    | _ :: _ =>
        let skillBadges :=
          JsString.join (js " ")
            (map (λ skill, (backtick ++ skill ++ backtick)) (Meta.skills meta)) in
        (js "| 🛠️ **Detected Skills** | " ++ skillBadges ++ js " |" ++ nl)
    | [] => []
    end;
    (nl);
    match jobs with
    | _ :: _ =>
        (js "## 📑 Job Opportunities Index" ++ nl ++ nl)
        ++ (js "| **#** | **Company** | **Position** | **Score** | **Location** | **Experience** | **First Published At** | **Apply** |" ++ nl)
        ++ (js "|-------|-------------|--------------|-----------|--------------|----------------|---------------------|-----------|" ++ nl)
        ++ concat (imap (λ index job,
             let matchColor := matchColorFullIndex (Job.match_ job) in
             (js "| " ++ JsString.ofZ (Z.of_nat index + 1)%Z ++ js " | 🏢 **" ++ Job.company job ++ js "** | " ++ Job.title job ++ js " | " ++ matchColor ++ js " **" ++ Number.toString (Job.match_ job) ++ js "%** | " ++ Job.location job ++ js " | " ++ Job.experience job ++ js " | [� **Apply**](" ++ Job.url job ++ js ") |" ++ nl)) jobs)
        ++ (nl ++ js "---" ++ nl ++ nl)
    | [] => []
    end;
    concat (imap (λ index job,
      let matchColor := matchColorFullDetail (Job.match_ job) in
      (js "## " ++ JsString.ofZ (Z.of_nat index + 1)%Z ++ js ". 🏢 " ++ Job.company job ++ js " - " ++ Job.title job ++ nl ++ nl)
      ++ (js "| **Detail** | **Information** |" ++ nl)
      ++ (js "|------------|------------------|" ++ nl)
      ++ (js "| 🎯 **Match Score** | " ++ matchColor ++ js " **" ++ Number.toString (Job.match_ job) ++ js "%** |" ++ nl)
      ++ (js "| 💼 **Experience Required** | " ++ Job.experience job ++ js " |" ++ nl)
      ++ (js "| 📍 **Location** | " ++ Job.location job ++ js " |" ++ nl)
      ++ (js "| 📅 **First Published At** | " ++ Job.firstPublishedAt job ++ js " |" ++ nl)
      ++ (js "| 🔗 **Apply** | [**Apply Now**](" ++ Job.url job ++ js ") |" ++ nl ++ nl)
      ++ match extractRequiredSkills (Job.description job) with
         | (_ :: _) as skillsFromDescription =>
             let skillBadges :=
               JsString.join (js " ")
                 (map (λ skill, (backtick ++ JsString.trim skill ++ backtick)) skillsFromDescription) in
             (js "### 🛠️ Required Skills" ++ nl ++ skillBadges ++ nl ++ nl)
         | [] => []
         end
      ++ match extractJobSummary (Job.description job) with
         | (_ :: _) as jobSummary =>
             (js "### 📋 Job Highlights" ++ nl)
             ++ concat (map (λ point, (js "- ✅ " ++ point ++ nl)) jobSummary)
             ++ (nl)
         | [] => []
         end
      ++ (js "---" ++ nl ++ nl)) jobs);
    match Transformed.processing data with
    | Some processing =>
        (js "## 📊 Resume Processing Summary" ++ nl ++ nl)
        ++ (js "| Processing Info | Details |" ++ nl)
        ++ (js "|----------------|----------|" ++ nl)
        ++ (js "| **📄 File** | " ++ Value.toString (Processing.filename processing) ++ js " |" ++ nl)
        ++ (js "| **⚙️ Method** | " ++ Value.toString (Processing.method processing) ++ js " |" ++ nl)
        ++ (js "| **✨ Enhancement** | " ++ (if Processing.enhanced processing then js "✅ Enhanced" else js "⚠️ Standard") ++ js " |" ++ nl)
        ++ match bothLengths processing with
           | Some (originalLength, enhancedLength) =>
               (js "| **📏 Original Length** | " ++ Date.numberToLocaleString host originalLength ++ js " characters |" ++ nl)
               ++ (js "| **📏 Enhanced Length** | " ++ Date.numberToLocaleString host enhancedLength ++ js " characters |" ++ nl)
           | None => []
           end
        ++ (nl)
    | None => []
    end;
    (js "## 🚀 Backend Response Metadata" ++ nl ++ nl);
    (js "> ### 📡 **API Response Details**" ++ nl);
    (js "> " ++ nl);
    (js "> | Metadata | Value |" ++ nl);
    (js "> |----------|-------|" ++ nl);
    (js "> | **📊 Total Matches** | " ++ Date.numberToLocaleString host (Meta.total meta) ++ js " opportunities |" ++ nl);
    (js "> | ** Has More Results** | " ++ (if Meta.hasMore meta then js "Yes" else js "No") ++ js " |" ++ nl);
    if Value.truthy (Meta.experience meta) then (js "> | **👨‍💼 Experience Level** | " ++ Value.toString (Meta.experience meta) ++ js " years |" ++ nl) else [];
    match Meta.skills meta with
    | _ :: _ => (js "> | **🎯 Skills Detected** | " ++ JsString.ofZ (Z.of_nat (length (Meta.skills meta))) ++ js " skills identified |" ++ nl)
    | [] => []
    end;
    (js "> " ++ nl);
    (js "> *🔧 Powered by Backend API - Real-time job matching*" ++ nl ++ nl);
    (js "---" ++ nl ++ nl);
    (js "*Job Matcher v1.0 - Enhanced Backend Integration*")
  ].

Definition generateJobIndexTableMarkdown (data : Transformed.t) : jsstring :=
  let jobs := Transformed.jobs data in
  let meta := Transformed.meta data in
  concat [
    (js "# 🎯 Job Opportunities to Apply" ++ nl ++ nl);
    (js "## 📊 Search Summary" ++ nl ++ nl);
    (js "| **Metric** | **Value** |" ++ nl);
    (js "|------------|-----------|" ++ nl);
    (js "| 🎯 **Total Matches** | **" ++ Date.numberToLocaleString host (Meta.total meta) ++ js " Job Opportunities** |" ++ nl);
    if Value.truthy (Meta.experience meta) then (js "| 👨‍💼 **Experience Level** | " ++ Value.toString (Meta.experience meta) ++ js " years |" ++ nl) else [];
    match Meta.skills meta with
    | _ :: _ =>
        let skillBadges :=
          JsString.join (js " ")
            (map (λ skill, (backtick ++ skill ++ backtick)) (Meta.skills meta)) in
        (js "| 🛠️ **Detected Skills** | " ++ skillBadges ++ js " |" ++ nl)
    | [] => []
    end;
    (nl);
    match jobs with
    | _ :: _ =>
        (js "## 📋 Jobs Ready to Apply" ++ nl ++ nl)
        ++ (js "| **#** | **Company** | **Position** | **Score** | **Location** | **Experience** | **First Published At** | **Apply** |" ++ nl)
        ++ (js "|-------|-------------|--------------|-----------|--------------|----------------|---------------------|-----------|" ++ nl)
        ++ concat (imap (λ index job,
             let matchColor := matchColor (Job.match_ job) in
             (js "| " ++ JsString.ofZ (Z.of_nat index + 1)%Z ++ js " | 🏢 **" ++ Job.company job ++ js "** | " ++ Job.title job ++ js " | " ++ matchColor ++ js " **" ++ Number.toString (Job.match_ job) ++ js "%** | " ++ Job.location job ++ js " | " ++ Job.experience job ++ js " | " ++ Job.firstPublishedAt job ++ js " | [🚀 **Apply Now**](" ++ Job.url job ++ js ") |" ++ nl)) jobs)
        ++ (nl)
    | [] => []
    end;
    match Transformed.processing data with
    | Some processing =>
        (js "## 📊 Resume Processing Summary" ++ nl ++ nl)
        ++ (js "| Processing Info | Details |" ++ nl)
        ++ (js "|----------------|----------|" ++ nl)
        ++ (js "| **📄 File** | " ++ Value.toString (Processing.filename processing) ++ js " |" ++ nl)
        ++ (js "| **⚙️ Method** | " ++ Value.toString (Processing.method processing) ++ js " |" ++ nl)
        ++ (js "| **✨ Enhancement** | " ++ (if Processing.enhanced processing then js "✅ Enhanced" else js "⚠️ Standard") ++ js " |" ++ nl)
        ++ match bothLengths processing with
           | Some (originalLength, enhancedLength) =>
               (js "| **📏 Original Length** | " ++ Date.numberToLocaleString host originalLength ++ js " characters |" ++ nl)
               ++ (js "| **📏 Enhanced Length** | " ++ Date.numberToLocaleString host enhancedLength ++ js " characters |" ++ nl)
           | None => []
           end
        ++ (nl)
    | None => []
    end;
    (js "## 🚀 Backend Response Metadata" ++ nl ++ nl);
    (js "> ### 📡 **API Response Details**" ++ nl);
    (js "> " ++ nl);
    (js "> | Metadata | Value |" ++ nl);
    (js "> |----------|-------|" ++ nl);
    (js "> | **📊 Total Matches** | " ++ Date.numberToLocaleString host (Meta.total meta) ++ js " opportunities |" ++ nl);
    (js "> | ** Has More Results** | " ++ (if Meta.hasMore meta then js "Yes" else js "No") ++ js " |" ++ nl);
    if Value.truthy (Meta.experience meta) then (js "> | **👨‍💼 Experience Level** | " ++ Value.toString (Meta.experience meta) ++ js " years |" ++ nl) else [];
    match Meta.skills meta with
    | _ :: _ => (js "> | **🎯 Skills Detected** | " ++ JsString.ofZ (Z.of_nat (length (Meta.skills meta))) ++ js " skills identified |" ++ nl)
    | [] => []
    end;
    (js "> " ++ nl);
    (js "> *🔧 Powered by Backend API - Ready-to-Apply Job Index*" ++ nl ++ nl);
    (js "---" ++ nl ++ nl);
    (js "*Job Index Table v1.0 - Quick Apply Mode*")
  ].

Definition generateNoMatchesMarkdown (data : Transformed.t) : jsstring :=
  let meta := Transformed.meta data in
  concat [
    (js "# 🔍 No Job Matches Found" ++ nl ++ nl);
    (js "Unfortunately, no job opportunities match your current search criteria." ++ nl ++ nl);
    match Meta.quota meta with
    | Some quota => (js "**API Requests Remaining:** " ++ JsString.ofZ quota ++ nl ++ nl)
    | None => []
    end;
    match Meta.skills meta with
    | _ :: _ =>
        (js "## 🌟 Skills Detected in Your Resume" ++ nl ++ nl)
        ++ (JsString.join (js ", ") (Meta.skills meta) ++ nl ++ nl)
    | [] => []
    end;
    (js "---" ++ nl ++ nl);
    (js "## ⚠️ Possible Issues" ++ nl ++ nl);
    (js "- Very specific location filters" ++ nl);
    (js "- Narrow date range constraints" ++ nl);
    (js "- Highly specialized skill requirements" ++ nl);
    (js "- Resume optimization may be needed" ++ nl ++ nl);
    (js "## 💡 Troubleshooting Tips" ++ nl ++ nl);
    (js "- ✓ Expand to nearby locations" ++ nl);
    (js "- ✓ Remove restrictive filters" ++ nl);
    (js "- ✓ Try different keywords" ++ nl);
    (js "- ✓ Consider related job titles" ++ nl);
    (js "- ✓ Broaden your search criteria" ++ nl ++ nl);
    match Transformed.processing data with
    | Some processing =>
        (js "## 📊 Resume Processing Details" ++ nl ++ nl)
        ++ (js "**File:** " ++ Value.toString (Processing.filename processing) ++ nl ++ nl)
        ++ (js "**Processing Method:** " ++ Value.toString (Processing.method processing) ++ nl ++ nl)
        ++ (js "**Enhancement Used:** " ++ (if Processing.enhanced processing then js "✅ Enhanced" else js "⚠️ Standard") ++ nl ++ nl)
        ++ match bothLengths processing with
           | Some (originalLength, enhancedLength) =>
               (js "**Original Length:** " ++ JsString.ofZ originalLength ++ js " characters" ++ nl ++ nl)
               ++ (js "**Enhanced Length:** " ++ JsString.ofZ enhancedLength ++ js " characters" ++ nl ++ nl)
           | None => []
           end
    | None => []
    end;
    (js "## 🚀 Coming Soon: Auto-Apply Feature" ++ nl ++ nl);
    (js "We're developing an exciting new feature that will allow you to:" ++ nl ++ nl);
    (js "- ✨ Apply to multiple opportunities with one click when new matches are found" ++ nl);
    (js "- 🤖 AI-powered application templates" ++ nl);
    (js "- 📝 Customized cover letters" ++ nl);
    (js "- ⚡ Automated application submission" ++ nl ++ nl);
    (js "*Feature currently in development*" ++ nl ++ nl);
    (js "---" ++ nl ++ nl);
    (js "*Job Matcher v1.0 - Powered by MCP Server*")
  ].

(** *** The artifact envelope *)

(** The properties of the envelope that vary; its other properties
    are constants, and the source returns the envelope as a JSON
    text. *)
Record Metadata := mkMetadata {
  md_total_matches : Z;
  md_page : Z;
  md_total_pages : Z;
  md_has_more : bool;
  md_timestamp : Z;
  md_source : jsstring
}.

Record Artifact := mkArtifact {
  artifact_id : jsstring;
  artifact_title : jsstring;
  content : jsstring;
  metadata : option Metadata
}.

Definition formatMarkdownResponse (data : BackendData.t)
    (remainingQuota : option Z) : Artifact :=
  let matches := BackendData.matches data in
  let total_matches := BackendData.total_matches data in
  let transformedData := transformJobData data remainingQuota in
  let markdownContent :=
    if decide (length matches = 0)
    then generateNoMatchesMarkdown transformedData
    else generateJobMatcherMarkdown transformedData in
  let timestamp := now in
  let artifactId := js "job-matches-markdown-" ++ JsString.ofZ timestamp in
  let title :=
    if decide (length matches = 0)
    then js "Job Search Results - No Matches"
    else js "Job Match Results - " ++ JsString.ofZ total_matches
         ++ js " opportunities found" in
  {| artifact_id := artifactId;
     artifact_title := title;
     content := markdownContent;
     metadata := Some {|
       md_total_matches := total_matches;
       md_page := Meta.page (Transformed.meta transformedData);
       md_total_pages := Meta.totalPages (Transformed.meta transformedData);
       md_has_more := Meta.hasMore (Transformed.meta transformedData);
       md_timestamp := timestamp;
       md_source := js "MCP Job Matcher Server v1.0.0 - Artifact-Only Edition"
     |} |}.

Definition formatTableOnlyMarkdownResponse (data : BackendData.t)
    (remainingQuota : option Z) : Artifact :=
  let matches := BackendData.matches data in
  let total_matches := BackendData.total_matches data in
  let transformedData := transformJobData data remainingQuota in
  let markdownContent :=
    if decide (length matches = 0)
    then generateNoMatchesMarkdown transformedData
    else generateJobIndexTableMarkdown transformedData in
  let timestamp := now in
  let artifactId := js "job-table-markdown-" ++ JsString.ofZ timestamp in
  let title :=
    if decide (length matches = 0)
    then js "Job Search Results - No Matches"
    else js "Job Index Table - " ++ JsString.ofZ total_matches
         ++ js " opportunities to apply" in
  {| artifact_id := artifactId;
     artifact_title := title;
     content := markdownContent;
     metadata := Some {|
       md_total_matches := total_matches;
       md_page := Meta.page (Transformed.meta transformedData);
       md_total_pages := Meta.totalPages (Transformed.meta transformedData);
       md_has_more := Meta.hasMore (Transformed.meta transformedData);
       md_timestamp := timestamp;
       md_source := js "MCP Job Matcher Server v1.0.0 - Table-Only Edition"
     |} |}.

End WithDate.

End Formatter.

(** ** The backend call *)

Module Backend.

Import Value.

(** The fields of the multipart form posted to the backend. *)
Record Request := mkRequest {
  file : jsstring;
  user_experience : jsstring;
  keywords : jsstring;
  location : jsstring;
  start_date : jsstring;
  end_date : jsstring;
  page : jsstring;
  sort_by : jsstring
}.

(** The [detail] of an error body, as the two texts that the error
    document shows: [String(detail)] and
    [JSON.stringify(detail, null, 2)]. *)
Record Detail := mkDetail {
  asText : jsstring;
  asJson : jsstring
}.

(** What the call yields: the parsed body of a 2xx response, the
    status and the truthy [detail] (if any) of another response, or
    a failure of the transport. *)
Inductive Reply :=
| Ok (data : Formatter.BackendData.t)
| Status (status : Z) (detail : option Detail)
| Failed.

(** What a handler catches. *)
Inductive Error :=
| BackendError (status : Z) (detail : option Detail)
| OtherError.

(** [args.k || fallback], appended to the form as a string. *)
Definition field (args : object) (key fallback : jsstring) : jsstring :=
  toString (orElse (get args key) (VString fallback)).

(** The form built by [callBackendAPI]. *)
Definition formData (args : object) : Request := {|
  file := toString (get args (js "resume_text"));
  user_experience := field args (js "user_experience") [];
  keywords := field args (js "keywords") [];
  location := field args (js "location") [];
  start_date := field args (js "start_date") [];
  end_date := field args (js "end_date") [];
  page := toString (orElse (get args (js "page")) (VNumber 1));
  sort_by := field args (js "sort_by") (js "similarity")
|}.

End Backend.

(** ** [index.js]: the stdio server *)

Module StdioServer.

Import Formatter.

(** The module-level limiter and the log of the backend calls made
    so far, most recent last. *)
Record State := mkState {
  rateLimiter : RateLimiter.t;
  backendCalls : list Backend.Request
}.

Definition initial : State := mkState RateLimiter.rateLimiter [].

Definition getSessionId : jsstring := js "claude-desktop-session".

Section Server.

Variable host : Date.Host.
(** [CONFIG.RATE_LIMIT_PER_MINUTE] *)
Variable RATE_LIMIT_PER_MINUTE : Z.
(** The job-matching service. *)
Variable backend : Backend.Request → Backend.Reply.

Definition formatRateLimitError (now : Z) (rateLimitResult : RateLimiter.Result)
  : Artifact :=
  let quota := JsString.ofZ RATE_LIMIT_PER_MINUTE in
  let resetTime :=
    Date.toLocaleTimeString host
      (Date.ofValue host
         (Value.VNumber (RateLimiter.resultResetTime rateLimitResult))) in
  let remaining := JsString.ofZ (RateLimiter.remaining rateLimitResult) in
  {| artifact_id := js "rate-limit-error-" ++ JsString.ofZ now;
     artifact_title := js "Rate Limit Exceeded";
     content := 
       js "# â±ï¸ Rate Limit Exceeded" ++ nl ++ nl
       ++ js "You've reached the maximum number of requests allowed per minute. Please wait a moment before trying again." ++ nl ++ nl
       ++ js "## Rate Limit Information" ++ nl ++ nl
       ++ js "**Quota:** " ++ quota ++ js " requests per minute" ++ nl ++ js "**Reset Time:** " ++ resetTime ++ nl ++ js "**Remaining:** " ++ remaining ++ nl ++ nl
       ++ js "Please try again after the reset time." ++ nl ++ nl
       ++ js "---" ++ nl ++ nl
       ++ js "*Job Matcher v1.0 - Powered by MCP Server*";
     metadata := None |}.

Definition formatValidationError (now : Z) (errors : list jsstring) : Artifact :=
  {| artifact_id := js "validation-error-" ++ JsString.ofZ now;
     artifact_title := js "Input Validation Failed";
     content := 
       js "# âŒ Input Validation Failed" ++ nl ++ nl
       ++ js "Please fix the following issues and try again:" ++ nl ++ nl
       ++ js "## Validation Errors" ++ nl ++ nl
       ++ JsString.join nl (map (λ error, js "- " ++ error) errors) ++ nl ++ nl
       ++ js "Please correct these issues and retry your request." ++ nl ++ nl
       ++ js "---" ++ nl ++ nl
       ++ js "*Job Matcher v1.0 - Powered by MCP Server*";
     metadata := None |}.

(** The title, message, suggestions and technical details that the
    [switch] of [formatError] selects. *)
Definition errorParts (error : Backend.Error)
  : jsstring * jsstring * list jsstring * jsstring :=
  let default :=
    (js "Request Failed",
     js "An unexpected error occurred while processing your request.",
     @nil jsstring, @nil N) in
  match error with
  | Backend.BackendError status detail =>
      if (status =? 401)%Z then
        (js "Authentication Error",
         js "Invalid API authentication. Please check your configuration.",
         [js "Contact support if this issue persists"], [])
      else if (status =? 400)%Z then
        (js "File Processing Error",
         match detail with
         | Some d => Backend.asText d
         | None => js "Unable to process the uploaded file."
         end,
         [js "Try uploading a different file format (PDF, DOCX, DOC, TXT)";
          js "Ensure your file is not corrupted"], [])
      else if (status =? 413)%Z then
        (js "File Too Large",
         js "The uploaded file exceeds the maximum size limit of 10MB.",
         [js "Try compressing your resume"; js "Use a different file format"], [])
      else if (status =? 422)%Z then
        (js "Invalid Parameters", js "Some parameters are invalid.", [],
         match detail with
         | Some d => Backend.asJson d
         | None => []
         end)
      else if (status =? 500)%Z then
        (js "Server Error", js "The backend server encountered an error.",
         [js "Please try again in a few moments";
          js "Contact support if the issue persists"], [])
      else default
  | Backend.OtherError => default
  end.

Definition formatError (now : Z) (error : Backend.Error) : Artifact :=
  let '(title, message, suggestions, technicalDetails) := errorParts error in
  let status :=
    match error with
    | Backend.BackendError status _ => JsString.ofZ status
    | Backend.OtherError => js "unknown"
    end in
  {| artifact_id := js "error-" ++ JsString.ofZ now;
     artifact_title := title;
     content :=
       (js "# âš ï¸ " ++ title ++ nl ++ nl)
       ++ (message ++ nl ++ nl)
       ++ match suggestions with
          | _ :: _ =>
              (js "## ðŸ’¡ Troubleshooting Tips" ++ nl ++ nl)
              ++ concat (map (λ suggestion, (js "- âœ“ " ++ suggestion ++ nl)) suggestions)
              ++ (nl)
          | [] => []
          end
       ++ match technicalDetails with
          | _ :: _ =>
              (js "## ðŸ”§ Technical Details" ++ nl ++ nl)
              ++ (backtick ++ backtick ++ backtick ++ nl ++ technicalDetails ++ nl ++ backtick ++ backtick ++ backtick ++ nl ++ nl)
          | [] => []
          end
       ++ (js "**Status Code:** " ++ status ++ nl ++ nl)
       ++ (js "---" ++ nl ++ nl)
       ++ (js "*Job Matcher v1.0 - Powered by MCP Server*");
     metadata := None |}.

(** [callBackendAPI(args)]: one request, logged, and its outcome. *)
Definition callBackendAPI (args : Value.object) (st : State)
  : Backend.Reply * State :=
  let request := Backend.formData args in
  (backend request,
   mkState (rateLimiter st) (backendCalls st ++ [request])).

(** The steps shared by the two handlers, which differ in the
    formatter of the success document. *)
Definition handleCall
    (format : Z → BackendData.t → option Z → Artifact)
    (now : Z) (args : option Value.object) (st : State) : Artifact * State :=
  let sessionId := getSessionId in
  (* Apply rate limiting *)
  let '(rateLimitResult, limiter) :=
    RateLimiter.checkLimit now sessionId (rateLimiter st) in
  let st1 := mkState limiter (backendCalls st) in
  if negb (RateLimiter.allowed rateLimitResult)
  then (formatRateLimitError now rateLimitResult, st1)
  else
    (* Validate inputs *)
    let validation := Validator.validateInputs host now args in
    if negb (Validator.valid validation)
    then (formatValidationError now (Validator.errors validation), st1)
    else
      (* Call backend API *)
      let '(reply, st2) := callBackendAPI (default [] args) st1 in
      match reply with
      | Backend.Ok backendResponse =>
          (format now backendResponse
             (Some (RateLimiter.remaining rateLimitResult)), st2)
      | Backend.Status status detail =>
          (formatError now (Backend.BackendError status detail), st2)
      | Backend.Failed => (formatError now Backend.OtherError, st2)
      end.

Definition handleMatchResumeCall :=
  handleCall (formatMarkdownResponse host).

Definition handleMatchJobsToApplyCall :=
  handleCall (formatTableOnlyMarkdownResponse host).

(** The handler of tool calls; [None] when it throws
    [Unknown tool]. *)
Definition callTool (now : Z) (name : jsstring) (args : option Value.object)
    (st : State) : option Artifact * State :=
  if decide (name = js "match_resume")
  then let '(r, st') := handleMatchResumeCall now args st in (Some r, st')
  else if decide (name = js "match_jobs_to_apply")
  then let '(r, st') := handleMatchJobsToApplyCall now args st in (Some r, st')
  else (None, st).

End Server.

End StdioServer.

(** ** [start-http.js]: the HTTP server *)

Module HttpServer.

Import Formatter.

(** The message of an error reply: a text of the program, or the
    text that the engine gives to a [TypeError]. *)
Inductive Message :=
| Text (message : jsstring)
| EngineTypeError.

Inductive RestBody :=
| UnknownTool
| ValidationFailed (details : list jsstring)
| RateLimited (result : Artifact) (remaining : Z)
| Result (result : Artifact) (rateLimitRemaining : Z)
| ExecutionFailed (details : Message).

(** The replies of the two routes that run a tool. *)
Inductive Response :=
| RpcResult (result : Artifact)
| RpcError (message : Message)
| Rest (status : Z) (body : RestBody).

Section Server.

Variable host : Date.Host.
Variable RATE_LIMIT_PER_MINUTE : Z.
Variable backend : Backend.Request → Backend.Reply.

(** [Object.keys(tools).join(', ')] *)
Definition toolNames : jsstring :=
  JsString.join (js ", ") (map fst Tools.tools).

(** [req.ip || req.connection.remoteAddress || 'http-client'] *)
Definition sessionOf (peer : option jsstring) : jsstring :=
  orDefault peer (js "http-client").

(** The [tools/call] case of [handleMCPRequest], the handler of
    [POST /].  The state is the one of the stdio server: the route
    uses the same limiter and the same [JobMatcherMCPServer]. *)
Definition toolsCall (now : Z) (peer : option jsstring) (name : jsstring)
    (args : option Value.object) (st : StdioServer.State)
  : Response * StdioServer.State :=
  match Tools.read Tools.tools name with
  | Tools.Absent =>
      (RpcError (Text (js "Unknown tool: " ++ name ++ js ". Available tools: "
                       ++ toolNames)), st)
  | _ =>
      match Tools.validateToolParameters host name (default [] args) with
      | Tools.Throw => (RpcError EngineTypeError, st)
      | Tools.Normal validation =>
          if negb (Validator.valid validation)
          then (RpcError (Text (js "Tool validation failed: "
                                ++ JsString.join (js ", ")
                                     (Validator.errors validation))), st)
          else
            (* Rate limiting check (use IP as session ID for HTTP) *)
            let sessionId := sessionOf peer in
            let '(rateLimitResult, limiter) :=
              RateLimiter.checkLimit now sessionId (StdioServer.rateLimiter st) in
            let st1 := StdioServer.mkState limiter (StdioServer.backendCalls st) in
            if negb (RateLimiter.allowed rateLimitResult)
            then (RpcResult
                    (StdioServer.formatRateLimitError host RATE_LIMIT_PER_MINUTE
                       now rateLimitResult), st1)
            else if decide (name = js "match_resume")
            then
              let '(toolResult, st2) :=
                StdioServer.handleMatchResumeCall host RATE_LIMIT_PER_MINUTE
                  backend now args st1 in
              (RpcResult toolResult, st2)
            else (RpcError (Text (js "Tool execution not implemented for: "
                                  ++ name)), st1)
      end
  end.

(** The handler of [POST /mcp/tools/call]. *)
Definition restToolsCall (now : Z) (peer : option jsstring) (name : jsstring)
    (args : option Value.object) (st : StdioServer.State)
  : Response * StdioServer.State :=
  match Tools.read Tools.tools name with
  | Tools.Absent => (Rest 400 UnknownTool, st)
  | _ =>
      match Tools.validateToolParameters host name (default [] args) with
      | Tools.Throw => (Rest 500 (ExecutionFailed EngineTypeError), st)
      | Tools.Normal validation =>
          if negb (Validator.valid validation)
          then (Rest 400 (ValidationFailed (Validator.errors validation)), st)
          else
            let sessionId := sessionOf peer in
            let '(rateLimitResult, limiter) :=
              RateLimiter.checkLimit now sessionId (StdioServer.rateLimiter st) in
            let st1 := StdioServer.mkState limiter (StdioServer.backendCalls st) in
            if negb (RateLimiter.allowed rateLimitResult)
            then (Rest 429
                    (RateLimited
                       (StdioServer.formatRateLimitError host RATE_LIMIT_PER_MINUTE
                          now rateLimitResult)
                       (RateLimiter.remaining rateLimitResult)), st1)
            else
              let '(result, st2) :=
                StdioServer.handleMatchResumeCall host RATE_LIMIT_PER_MINUTE
                  backend now args st1 in
              (Rest 200 (Result result (RateLimiter.remaining rateLimitResult)),
               st2)
      end
  end.

End Server.

End HttpServer.

(** ** [src/worker.js]: the edge worker *)

Module Worker.

Import Formatter.

Module CONFIG.
(** [parseInt(globalThis.RATE_LIMIT_PER_MINUTE) || 10] *)
Definition RATE_LIMIT_PER_MINUTE (global : Value.t) : Z :=
  match Value.parseInt global with
  | Some n => if (n =? 0)%Z then 10%Z else n
  | None => 10%Z
  end.
End CONFIG.

(** [WorkersJobMatcherServer]: its one field. *)
Record Server := mkServer {
  rateLimiter : WorkersRateLimiter.t
}.

(** The request headers that name the session. *)
Record Headers := mkHeaders {
  cf_connecting_ip : option jsstring;
  x_forwarded_for : option jsstring
}.

(** The routes that run a tool, and the others. *)
Inductive Request :=
| RestToolsCall (name : jsstring) (args : option Value.object)
| RpcToolsCall (name : jsstring) (args : option Value.object)
| OtherRoute.

Inductive Response :=
| RestResult (result : Artifact)
| RestError (status : Z) (details : list jsstring)
| RpcResult (result : Artifact)
| RpcError (message : HttpServer.Message)
| OtherResponse.

Section Worker.

Variable host : Date.Host.
(** [globalThis.RATE_LIMIT_PER_MINUTE] *)
Variable RATE_LIMIT_PER_MINUTE : Value.t.
Variable backend : Backend.Request → Backend.Reply.

(** [new WorkersJobMatcherServer()] *)
Definition newServer : Server :=
  mkServer (WorkersRateLimiter.new (CONFIG.RATE_LIMIT_PER_MINUTE RATE_LIMIT_PER_MINUTE)).

Definition formatRateLimitError (now : Z)
    (rateLimitResult : WorkersRateLimiter.Result) : Artifact :=
  let quota := JsString.ofZ (CONFIG.RATE_LIMIT_PER_MINUTE RATE_LIMIT_PER_MINUTE) in
  let resetTime :=
    Date.toLocaleTimeString host
      match WorkersRateLimiter.resetTime rateLimitResult with
      | WorkersRateLimiter.Finite t => Date.ofValue host (Value.VNumber t)
      | WorkersRateLimiter.Infinity => None
      end in
  let remaining := JsString.ofZ (WorkersRateLimiter.remaining rateLimitResult) in
  {| artifact_id := js "rate-limit-error-" ++ JsString.ofZ now;
     artifact_title := js "Rate Limit Exceeded";
     content := 
       js "# ⏱️ Rate Limit Exceeded" ++ nl ++ nl
       ++ js "You've reached the maximum number of requests allowed per minute. Please wait a moment before trying again." ++ nl ++ nl
       ++ js "## Rate Limit Information" ++ nl ++ nl
       ++ js "**Quota:** " ++ quota ++ js " requests per minute" ++ nl ++ js "**Reset Time:** " ++ resetTime ++ nl ++ js "**Remaining:** " ++ remaining ++ nl ++ nl
       ++ js "Please try again after the reset time." ++ nl ++ nl
       ++ js "---" ++ nl ++ nl
       ++ js "*Job Matcher v1.0 - Powered by Cloudflare Workers*";
     metadata := None |}.

Definition formatValidationError (now : Z) (errors : list jsstring) : Artifact :=
  {| artifact_id := js "validation-error-" ++ JsString.ofZ now;
     artifact_title := js "Input Validation Failed";
     content := 
       js "# ❌ Input Validation Failed" ++ nl ++ nl
       ++ js "Please fix the following issues and try again:" ++ nl ++ nl
       ++ js "## Validation Errors" ++ nl ++ nl
       ++ JsString.join nl (map (λ error, js "- " ++ error) errors) ++ nl ++ nl
       ++ js "Please correct these issues and retry your request." ++ nl ++ nl
       ++ js "---" ++ nl ++ nl
       ++ js "*Job Matcher v1.0 - Powered by Cloudflare Workers*";
     metadata := None |}.

Definition formatError (now : Z) (error : Backend.Error) : Artifact :=
  let '(title, message, suggestions, technicalDetails) :=
    StdioServer.errorParts error in
  let status :=
    match error with
    | Backend.BackendError status _ => JsString.ofZ status
    | Backend.OtherError => js "unknown"
    end in
  {| artifact_id := js "error-" ++ JsString.ofZ now;
     artifact_title := title;
     content :=
       (js "# ⚠️ " ++ title ++ nl ++ nl)
       ++ (message ++ nl ++ nl)
       ++ match suggestions with
          | _ :: _ =>
              (js "## 💡 Troubleshooting Tips" ++ nl ++ nl)
              ++ concat (map (λ suggestion, (js "- ✓ " ++ suggestion ++ nl)) suggestions)
              ++ (nl)
          | [] => []
          end
       ++ match technicalDetails with
          | _ :: _ =>
              (js "## 🔧 Technical Details" ++ nl ++ nl)
              ++ (backtick ++ backtick ++ backtick ++ nl ++ technicalDetails ++ nl ++ backtick ++ backtick ++ backtick ++ nl ++ nl)
          | [] => []
          end
       ++ (js "**Status Code:** " ++ status ++ nl ++ nl)
       ++ (js "---" ++ nl ++ nl)
       ++ (js "*Job Matcher v1.0 - Powered by Cloudflare Workers*");
     metadata := None |}.

(** [callBackendAPI(args, env)]: the requests made (none when the
    secret is missing, which throws) and the outcome. *)
Definition callBackendAPI (args : Value.object) (API_AUTH_TOKEN : option jsstring)
  : Backend.Reply * list Backend.Request :=
  match API_AUTH_TOKEN with
  | Some (_ :: _) =>
      let request := Backend.formData args in
      (backend request, [request])
  | _ => (Backend.Failed, [])
  end.

(** The steps shared by the two handlers of the server. *)
Definition handleCall
    (format : Z → BackendData.t → option Z → Artifact)
    (now : Z) (args : option Value.object) (sessionId : jsstring)
    (API_AUTH_TOKEN : option jsstring) (this : Server)
  : Artifact * Server * list Backend.Request :=
  (* Apply rate limiting *)
  let '(rateLimitResult, limiter) :=
    WorkersRateLimiter.checkLimit now sessionId (rateLimiter this) in
  let this1 := mkServer limiter in
  if negb (WorkersRateLimiter.allowed rateLimitResult)
  then (formatRateLimitError now rateLimitResult, this1, [])
  else
    (* Validate inputs *)
    let validation := Validator.validateInputs host now args in
    if negb (Validator.valid validation)
    then (formatValidationError now (Validator.errors validation), this1, [])
    else
      let '(reply, requests) := callBackendAPI (default [] args) API_AUTH_TOKEN in
      match reply with
      | Backend.Ok backendResponse =>
          (format now backendResponse
             (Some (WorkersRateLimiter.remaining rateLimitResult)),
           this1, requests)
      | Backend.Status status detail =>
          (formatError now (Backend.BackendError status detail), this1, requests)
      | Backend.Failed => (formatError now Backend.OtherError, this1, requests)
      end.

Definition handleMatchResumeCall :=
  handleCall (formatMarkdownResponse host).

Definition handleMatchJobsToApplyCall :=
  handleCall (formatTableOnlyMarkdownResponse host).

(** The session of a request. *)
Definition sessionOf (headers : Headers) : jsstring :=
  orDefault (cf_connecting_ip headers)
    (orDefault (x_forwarded_for headers) (js "worker-client")).

(** [fetch(request, env, ctx)], on the routes that run a tool: the
    reply and the backend requests made.  Every invocation
    creates its server, and with it an empty limiter. *)
Definition fetch (now : Z) (headers : Headers) (request : Request)
    (API_AUTH_TOKEN : option jsstring) : Response * list Backend.Request :=
  let sessionId := sessionOf headers in
  let server := newServer in
  match request with
  | RestToolsCall name args =>
      match Tools.read Tools.tools name with
      | Tools.Absent => (RestError 400 [js "Tool '" ++ name ++ js "' not found"], [])
      | _ =>
          match Tools.validateToolParameters host name (default [] args) with
          | Tools.Throw => (RpcError HttpServer.EngineTypeError, [])
          | Tools.Normal validation =>
              if negb (Validator.valid validation)
              then (RestError 400 (Validator.errors validation), [])
              else if decide (name = js "match_resume")
              then
                let '(result, _, requests) :=
                  handleMatchResumeCall now args sessionId API_AUTH_TOKEN server in
                (RestResult result, requests)
              else if decide (name = js "match_jobs_to_apply")
              then
                let '(result, _, requests) :=
                  handleMatchJobsToApplyCall now args sessionId API_AUTH_TOKEN server in
                (RestResult result, requests)
              else (RestError 501 [js "Tool '" ++ name ++ js "' handler not found"], [])
          end
      end
  | RpcToolsCall name args =>
      match Tools.read Tools.tools name with
      | Tools.Absent =>
          (RpcError (HttpServer.Text
             (js "Unknown tool: " ++ name ++ js ". Available tools: "
              ++ HttpServer.toolNames)), [])
      | _ =>
          match Tools.validateToolParameters host name (default [] args) with
          | Tools.Throw => (RpcError HttpServer.EngineTypeError, [])
          | Tools.Normal validation =>
              if negb (Validator.valid validation)
              then (RpcError (HttpServer.Text
                      (js "Tool validation failed: "
                       ++ JsString.join (js ", ") (Validator.errors validation))), [])
              else if decide (name = js "match_resume")
              then
                let '(toolResult, _, requests) :=
                  handleMatchResumeCall now args sessionId API_AUTH_TOKEN server in
                (RpcResult toolResult, requests)
              else if decide (name = js "match_jobs_to_apply")
              then
                let '(toolResult, _, requests) :=
                  handleMatchJobsToApplyCall now args sessionId API_AUTH_TOKEN server in
                (RpcResult toolResult, requests)
              else (RpcError (HttpServer.Text
                      (js "Tool execution not implemented for: " ++ name)), [])
          end
      end
  | OtherRoute => (OtherResponse, [])
  end.

End Worker.

End Worker.


(** ** Notions used in the statements *)

Module Described.

(** The oldest of the requests of a session that are still inside the
    window that ends at [now]. *)
Definition oldestInWindow (window now : Z) (requests : list Z) : option Z :=
  match filter (λ timestamp, (now - window < timestamp)%Z) requests with
  | [] => None
  | t :: rest => Some (fold_left Z.min rest t)
  end.

(** The whitespace-delimited words of a text: its maximal runs of
    characters that are not whitespace.  [cur] is the word being
    read, reversed. *)
Fixpoint wordsFrom (cur : jsstring) (s : jsstring) : list jsstring :=
  match s with
  | [] => if decide (cur = []) then [] else [rev cur]
  | c :: rest =>
      if JsString.isWhiteSpace c
      then (if decide (cur = []) then wordsFrom [] rest
            else rev cur :: wordsFrom [] rest)
      else wordsFrom (c :: cur) rest
  end.

Definition words (s : jsstring) : list jsstring := wordsFrom [] s.

(** The text holds [n] consecutive copies of one character. *)
Definition hasRun (n : nat) (s : jsstring) : Prop :=
  ∃ before c after, s = before ++ replicate n c ++ after.

(** A decision of [hasRun]: at some position a character is followed
    by [n - 1] or more copies of itself. *)
Fixpoint hasRunb (n : nat) (s : jsstring) : bool :=
  match s with
  | [] => false
  | c :: rest =>
      bool_decide (n ≤ S (length (JsString.takeWhile (N.eqb c) rest)))
      || hasRunb n rest
  end.

(** The text after whitespace normalisation: every run of whitespace
    is one space, and there is none at either end. *)
Definition normalized (s : jsstring) : jsstring :=
  JsString.trim (JsString.collapseWhitespace s).

(** The record that [getUserData] hands out for a session at time
    [now]: the stored one, or the one it creates. *)
Definition recordOf (now : Z) (sessionId : jsstring) (rl : RateLimiter.t)
  : RateLimiter.UserData :=
  default (RateLimiter.mkUserData [] (now + RateLimiter.windowSizeMs rl))
          (RateLimiter.users rl !! sessionId).

(** The record of [sessionId] agrees with a clock that has reached
    [now]: no recorded request is later than [now], the reset time is
    at least one window after every recorded request and at most one
    window after [now]. *)
Definition wellTimed (rl : RateLimiter.t) (sessionId : jsstring) (now : Z)
  : Prop :=
  match RateLimiter.users rl !! sessionId with
  | Some userData =>
      Forall (λ r, r ≤ now ∧ r + RateLimiter.windowSizeMs rl
                               ≤ RateLimiter.resetTime userData)%Z
             (RateLimiter.requests userData)
      ∧ (RateLimiter.resetTime userData ≤ now + RateLimiter.windowSizeMs rl)%Z
  | None => True
  end.

(** [wellTimed] as a test. *)
Definition wellTimedb (rl : RateLimiter.t) (sessionId : jsstring) (now : Z)
  : bool :=
  match RateLimiter.users rl !! sessionId with
  | Some userData =>
      forallb (λ r, (r <=? now)%Z
                    && (r + RateLimiter.windowSizeMs rl
                        <=? RateLimiter.resetTime userData)%Z)
              (RateLimiter.requests userData)
      && (RateLimiter.resetTime userData <=? now + RateLimiter.windowSizeMs rl)%Z
  | None => true
  end.

(** A message that starts with the letter [R], as the messages about
    the resume text do and those about the other parameters do not. *)
Definition aboutResume (e : jsstring) : Prop := head e = Some 82%N.

(** A text that cannot continue a number written before it: it is
    empty or starts with a character that is neither a digit nor [x]
    nor [X]. *)
Definition endsNumber (rest : jsstring) : Prop :=
  match rest with
  | [] => True
  | c :: _ => JsString.isDigit c = false ∧ c ≠ 120%N ∧ c ≠ 88%N
  end.

(** An item of a comma-separated list as a caller would write it:
    not empty, without a comma, without whitespace at either end. *)
Definition cleanItem (item : jsstring) : Prop :=
  item ≠ [] ∧ (44%N ∉ item) ∧ JsString.trim item = item.

(** A request to the backend whose fields are within the limits of
    [validator.js]: a resume of 500 to 15000 characters, a page that
    reads as a number from 1 to 1000, a known sort order, dates that
    are absent or have the shape of a date, an experience that is
    absent or reads as a number from 0 to 50, and lists within their
    lengths. *)
Definition wellFormed (request : Backend.Request) : Prop :=
  (Validator.CONFIG.MIN_RESUME_LENGTH ≤ Validator.len (Backend.file request)
   ≤ Validator.CONFIG.MAX_RESUME_LENGTH)%Z
  ∧ (∃ n, JsString.parseInt (Backend.page request) = Some n ∧ 1 ≤ n ≤ 1000)%Z
  ∧ JsString.toLowerCase (Backend.sort_by request)
    ∈ Validator.CONFIG.VALID_SORT_OPTIONS
  ∧ (Backend.start_date request = []
     ∨ Validator.CONFIG.DATE_REGEX (Backend.start_date request) = true)
  ∧ (Backend.end_date request = []
     ∨ Validator.CONFIG.DATE_REGEX (Backend.end_date request) = true)
  ∧ (Backend.user_experience request = []
     ∨ ∃ n, JsString.parseInt (Backend.user_experience request) = Some n
            ∧ 0 ≤ n ≤ 50)%Z
  ∧ (Validator.len (Backend.keywords request) ≤ 500)%Z
  ∧ (Validator.len (Backend.location request) ≤ 5000)%Z.


(** A value that is truthy and not a string. *)
Definition truthyNonString (v : Value.t) : bool :=
  Value.truthy v && negb (Value.isString v).

(** The fixed parts of the document that is returned when nothing
    matches: the opening, the possible causes with the
    troubleshooting tips, and the note on the coming feature with
    the footer. *)
Definition noMatchesOpening : jsstring :=
  js "# 🔍 No Job Matches Found" ++ Formatter.nl ++ Formatter.nl
  ++ js "Unfortunately, no job opportunities match your current search criteria."
  ++ Formatter.nl ++ Formatter.nl.

Definition noMatchesAdvice : jsstring :=
  js "---" ++ Formatter.nl ++ Formatter.nl
  ++ js "## ⚠️ Possible Issues" ++ Formatter.nl ++ Formatter.nl
  ++ js "- Very specific location filters" ++ Formatter.nl
  ++ js "- Narrow date range constraints" ++ Formatter.nl
  ++ js "- Highly specialized skill requirements" ++ Formatter.nl
  ++ js "- Resume optimization may be needed" ++ Formatter.nl ++ Formatter.nl
  ++ js "## 💡 Troubleshooting Tips" ++ Formatter.nl ++ Formatter.nl
  ++ js "- ✓ Expand to nearby locations" ++ Formatter.nl
  ++ js "- ✓ Remove restrictive filters" ++ Formatter.nl
  ++ js "- ✓ Try different keywords" ++ Formatter.nl
  ++ js "- ✓ Consider related job titles" ++ Formatter.nl
  ++ js "- ✓ Broaden your search criteria" ++ Formatter.nl ++ Formatter.nl.

Definition noMatchesClosing : jsstring :=
  js "## 🚀 Coming Soon: Auto-Apply Feature" ++ Formatter.nl ++ Formatter.nl
  ++ js "We're developing an exciting new feature that will allow you to:" ++ Formatter.nl ++ Formatter.nl
  ++ js "- ✨ Apply to multiple opportunities with one click when new matches are found" ++ Formatter.nl
  ++ js "- 🤖 AI-powered application templates" ++ Formatter.nl
  ++ js "- 📝 Customized cover letters" ++ Formatter.nl
  ++ js "- ⚡ Automated application submission" ++ Formatter.nl ++ Formatter.nl
  ++ js "*Feature currently in development*" ++ Formatter.nl ++ Formatter.nl
  ++ js "---" ++ Formatter.nl ++ Formatter.nl
  ++ js "*Job Matcher v1.0 - Powered by MCP Server*".

(** [label] occurs in [s] at offset [i], up to the case of ASCII
    letters. *)
Definition occursAt (label s : jsstring) (i : nat) : Prop :=
  map Formatter.upperUnit (take (length label) (drop i s))
  = map Formatter.upperUnit label.

#[global] Instance occursAt_dec (label s : jsstring) (i : nat) :
  Decision (occursAt label s i).
Proof. unfold occursAt. apply _. Defined.




End Described.

(** ** Sample data *)

Module Sample.

Import Value Formatter.

(** A match as the backend returns it, with the given score. *)
Definition jobMatch (score : Number.t) : JobMatch.t := {|
  JobMatch.job_title := Some (js "Data Engineer");
  JobMatch.company_name := Some (js "Acme");
  JobMatch.location := Some (js "Berlin");
  JobMatch.locations := VUndefined;
  JobMatch.work_location := VUndefined;
  JobMatch.office_locations := VUndefined;
  JobMatch.remote_friendly := VUndefined;
  JobMatch.location_type := VUndefined;
  JobMatch.geographic_region := VUndefined;
  JobMatch.similarity_score := Some score;
  JobMatch.job_link := Some (js "https://jobs.example/acme/4711");
  JobMatch.first_published := VString (js "2025-01-15");
  JobMatch.min_experience_years := VNumber 3;
  JobMatch.experience_details := None;
  JobMatch.salary := None;
  JobMatch.job_type := None;
  JobMatch.chunk_text := Some (js "Required Skills: Python, SQL")
|}.

(** A response of one page with the given matches. *)
Definition response (matches : list JobMatch.t) : BackendData.t := {|
  BackendData.matches := matches;
  BackendData.total_matches := Z.of_nat (length matches);
  BackendData.page := 1;
  BackendData.total_pages := 1;
  BackendData.has_more := false;
  BackendData.extracted_skills := [js "Python"; js "SQL"];
  BackendData.user_experience := VNumber 4;
  BackendData.resume_processing := None;
  BackendData.keywords := VUndefined
|}.

(** 2025-01-20T00:00:00Z *)
Definition now : Z := 1737331200000.

End Sample.

(** * Properties *)

(** ** The sliding window of [RateLimiter] *)

Module RateLimiterFacts.

Import RateLimiter.
Local Open Scope Z_scope.

Section Window.

Variables (w t0 : Z).

(** Inside the window that starts at [t0], the filter drops what is a
    full window older than [t0] and keeps what is not older than [t0]. *)
Lemma window_filter (now : Z) (old fresh : list Z) :
  Forall (λ r, r <= t0 - w) old →
  Forall (λ r, t0 <= r) fresh →
  t0 <= now < t0 + w →
  filter (λ timestamp, now - w < timestamp) (old ++ fresh) = fresh.
Proof.
  intros Hold Hfresh Hnow.
  rewrite list.filter_app.
  replace (filter _ old) with (@nil Z).
  - simpl. induction Hfresh as [|x l Hx _ IH]; [done|].
    rewrite filter_cons_True by lia. by rewrite IH.
  - induction Hold as [|x l Hx _ IH]; [done|].
    rewrite filter_cons_False by lia. done.
Qed.

End Window.

Lemma checkLimit_requestsPerMinute now sid rl :
  requestsPerMinute (checkLimit now sid rl).2 = requestsPerMinute rl.
Proof.
  unfold checkLimit, getUserData.
  destruct (users rl !! sid); simpl; case_decide; done.
Qed.

Lemma checkLimit_windowSizeMs now sid rl :
  windowSizeMs (checkLimit now sid rl).2 = windowSizeMs rl.
Proof.
  unfold checkLimit, getUserData.
  destruct (users rl !! sid); simpl; case_decide; done.
Qed.

(** What one call does to the session it is made for. *)
Lemma checkLimit_session now sid rl :
  let kept := filter (λ timestamp, now - windowSizeMs rl < timestamp)
                     (sessionRequests rl sid) in
  if decide (requestsPerMinute rl <= Z.of_nat (length kept))
  then allowed (checkLimit now sid rl).1 = false
       ∧ remaining (checkLimit now sid rl).1 = 0
       ∧ sessionRequests (checkLimit now sid rl).2 sid = kept
  else allowed (checkLimit now sid rl).1 = true
       ∧ remaining (checkLimit now sid rl).1
         = requestsPerMinute rl - Z.of_nat (length kept) - 1
       ∧ sessionRequests (checkLimit now sid rl).2 sid = kept ++ [now].
Proof.
  unfold checkLimit, getUserData, sessionRequests.
  destruct (users rl !! sid) as [ud|] eqn:E; simpl.
  - case_decide; simpl; rewrite lookup_insert_eq; simpl; repeat split; try done.
    rewrite length_app. simpl. lia.
  - rewrite filter_nil. simpl.
    case_decide; simpl; rewrite lookup_insert_eq; simpl; repeat split; try done.
    lia.
Qed.

(** A call for one session leaves the record of any other session alone. *)
Lemma checkLimit_other now a b rl :
  a ≠ b → users (checkLimit now a rl).2 !! b = users rl !! b.
Proof.
  intros Hne. unfold checkLimit, getUserData.
  destruct (users rl !! a) as [ud|] eqn:E; simpl;
    case_decide; simpl; rewrite ?lookup_insert_ne by done; done.
Qed.

(** The result of a call depends on the limiter only through its two
    settings and the record of the session. *)
Lemma checkLimit_result_local now sid rl1 rl2 :
  requestsPerMinute rl1 = requestsPerMinute rl2 →
  windowSizeMs rl1 = windowSizeMs rl2 →
  users rl1 !! sid = users rl2 !! sid →
  (checkLimit now sid rl1).1 = (checkLimit now sid rl2).1.
Proof.
  intros Hn Hw Hu. unfold checkLimit, getUserData. rewrite Hu.
  destruct (users rl2 !! sid) as [ud|]; simpl; rewrite Hn, Hw;
    case_decide; done.
Qed.

(** Calls inside one window, below the limit, are all allowed and all
    recorded. *)
Lemma checkMany_within_window (ts : list Z) : ∀ sid rl t0 old fresh,
  sessionRequests rl sid = old ++ fresh →
  Forall (λ r, r <= t0 - windowSizeMs rl) old →
  Forall (λ r, t0 <= r) fresh →
  Forall (λ t, t0 <= t < t0 + windowSizeMs rl) ts →
  Z.of_nat (length fresh + length ts) <= requestsPerMinute rl →
  Forall (λ r, allowed r = true) (checkMany ts sid rl).1
  ∧ sessionRequests (checkMany ts sid rl).2 sid
    = (if decide (ts = []) then old ++ fresh else fresh ++ ts)
  ∧ requestsPerMinute (checkMany ts sid rl).2 = requestsPerMinute rl
  ∧ windowSizeMs (checkMany ts sid rl).2 = windowSizeMs rl.
Proof.
  induction ts as [|now ts IH]; intros sid rl t0 old fresh Hreq Hold Hfresh Hts Hlen.
  - simpl. by rewrite Hreq.
  - apply list.Forall_cons in Hts as [Hnow Hts].
    simpl.
    pose proof (checkLimit_session now sid rl) as Hstep.
    pose proof (checkLimit_requestsPerMinute now sid rl) as HN.
    pose proof (checkLimit_windowSizeMs now sid rl) as HW.
    destruct (checkLimit now sid rl) as [r rl1] eqn:E1. simpl in *.
    rewrite Hreq, (window_filter _ t0) in Hstep by done.
    rewrite decide_False in Hstep by (simpl in Hlen; lia).
    destruct Hstep as (Hall & _ & Hreq1).
    specialize (IH sid rl1 t0 [] (fresh ++ [now])).
    rewrite HN, HW in IH.
    destruct IH as (IH1 & IH2 & IH3 & IH4); try done.
    { apply list.Forall_app. split; [done|]. apply Forall_singleton. lia. }
    { rewrite length_app. simpl in *. lia. }
    destruct (checkMany ts sid rl1) as [rs rl2] eqn:E2. simpl in *.
    repeat split; try done.
    + by apply list.Forall_cons.
    + rewrite IH2. case_decide; subst; simpl; [done|]. by rewrite <- app_assoc.
Qed.

(** C3: with limit [N], [N] calls of a session inside one window (the
    session having nothing recorded in that window before) are
    allowed, and the call after them, still inside the window, is
    denied with [remaining = 0] and records nothing: the record of the
    session holds the [N] allowed calls and no more.  A later call is
    allowed again once a full window has passed since the first
    recorded request.  A call for one session changes neither the
    record of another session nor the result of its next call. *)
Theorem checkLimit_window_limit (sid : jsstring) (rl : t) (t0 tlast : Z)
    (ts : list Z) :
  Z.of_nat (length ts) = requestsPerMinute rl →
  Forall (λ r, r <= t0 - windowSizeMs rl) (sessionRequests rl sid) →
  Forall (λ t, t0 <= t < t0 + windowSizeMs rl) (ts ++ [tlast]) →
  let before := (checkMany ts sid rl).2 in
  let after := (checkLimit tlast sid before).2 in
  Forall (λ r, allowed r = true) (checkMany ts sid rl).1
  ∧ allowed (checkLimit tlast sid before).1 = false
  ∧ remaining (checkLimit tlast sid before).1 = 0
  ∧ sessionRequests after sid = ts
  ∧ (∀ first now, head ts = Some first →
       first + windowSizeMs rl <= now →
       allowed (checkLimit now sid after).1 = true)
  ∧ (∀ other now (any : t), other ≠ sid →
       users (checkLimit now other any).2 !! sid = users any !! sid
       ∧ ∀ t, (checkLimit t sid (checkLimit now other any).2).1
              = (checkLimit t sid any).1).
Proof.
  intros Hlen Hold Hts before after.
  apply list.Forall_app in Hts as [Hts Hlast]. apply Forall_inv in Hlast.
  destruct (checkMany_within_window ts sid rl t0 (sessionRequests rl sid) [])
    as (Hall & Hreq & HN & HW); try done.
  { by rewrite app_nil_r. }
  { simpl. lia. }
  fold before in Hreq, HN, HW.
  assert (Hkept : filter (λ timestamp, tlast - windowSizeMs before < timestamp)
                    (sessionRequests before sid) = ts).
  { rewrite Hreq, HW. case_decide as Hnil.
    - subst ts. rewrite app_nil_r.
      rewrite <- (app_nil_r (sessionRequests rl sid)).
      by apply (window_filter _ t0).
    - simpl. rewrite <- (app_nil_l ts) at 1.
      apply (window_filter _ t0); [done| |done].
      eapply list.Forall_impl; [exact Hts|]. simpl. lia. }
  pose proof (checkLimit_session tlast sid before) as Hstep.
  simpl in Hstep. rewrite Hkept in Hstep.
  rewrite decide_True in Hstep by lia.
  destruct Hstep as (Hdenied & Hrem & Hafter).
  fold after in Hafter.
  repeat (split; [done|]).
  split.
  - intros first now Hhead Hnow.
    destruct ts as [|t1 rest]; [done|]. simpl in Hhead. inversion Hhead; subst t1.
    pose proof (checkLimit_session now sid after) as Hnext.
    simpl in Hnext. rewrite Hafter in Hnext.
    pose proof (checkLimit_requestsPerMinute tlast sid before) as HN'.
    pose proof (checkLimit_windowSizeMs tlast sid before) as HW'.
    fold after in HN', HW'.
    rewrite HN', HW', HN, HW in Hnext.
    rewrite filter_cons_False in Hnext by lia.
    pose proof (length_filter (λ timestamp, now - windowSizeMs rl < timestamp) rest) as Hle.
    rewrite decide_False in Hnext by (simpl in Hlen; lia).
    by destruct Hnext.
  - intros other now any Hne. split.
    + by apply checkLimit_other.
    + intros t. apply checkLimit_result_local.
      * apply checkLimit_requestsPerMinute.
      * apply checkLimit_windowSizeMs.
      * by apply checkLimit_other.
Qed.

(** The default limiter: ten calls at one-second steps, the eleventh
    one second later, and session [claude-desktop-session]. *)
Lemma checkLimit_window_limit_witness :
  let sid := js "claude-desktop-session" in
  let ts := [0; 1000; 2000; 3000; 4000; 5000; 6000; 7000; 8000; 9000] in
  let before := (checkMany ts sid rateLimiter).2 in
  let after := (checkLimit 10000 sid before).2 in
  Forall (λ r, allowed r = true) (checkMany ts sid rateLimiter).1
  ∧ allowed (checkLimit 10000 sid before).1 = false
  ∧ remaining (checkLimit 10000 sid before).1 = 0
  ∧ sessionRequests after sid = ts
  ∧ (∀ first now, head ts = Some first →
       first + windowSizeMs rateLimiter <= now →
       allowed (checkLimit now sid after).1 = true)
  ∧ (∀ other now (any : t), other ≠ sid →
       users (checkLimit now other any).2 !! sid = users any !! sid
       ∧ ∀ t, (checkLimit t sid (checkLimit now other any).2).1
              = (checkLimit t sid any).1).
Proof.
  apply (checkLimit_window_limit (js "claude-desktop-session") rateLimiter 0 10000
           [0; 1000; 2000; 3000; 4000; 5000; 6000; 7000; 8000; 9000]).
  - reflexivity.
  - vm_compute. constructor.
  - simpl. repeat (constructor; [lia|]). constructor.
Defined.

(** A denial that follows an allowed call of the session reports the
    time of that call plus the window: the reset time is measured
    from the most recent recorded request. *)
Lemma denial_after_allowed (t1 t2 : Z) (sid : jsstring) (rl : t) :
  0 < requestsPerMinute rl →
  allowed (checkLimit t1 sid rl).1 = true →
  allowed (checkLimit t2 sid (checkLimit t1 sid rl).2).1 = false →
  resultResetTime (checkLimit t2 sid (checkLimit t1 sid rl).2).1
  = t1 + windowSizeMs rl.
Proof.
  intros Hpos Hallowed.
  assert (Hrecord : ∃ kept,
    users (checkLimit t1 sid rl).2 !! sid
    = Some (mkUserData (kept ++ [t1]) (t1 + windowSizeMs rl))).
  { revert Hallowed. unfold checkLimit, getUserData.
    destruct (users rl !! sid) as [ud|]; simpl;
      case_decide; simpl; try done; intros _;
      rewrite lookup_insert_eq; [by eexists|by exists []]. }
  destruct Hrecord as [kept Hrecord].
  pose proof (checkLimit_requestsPerMinute t1 sid rl) as HN.
  pose proof (checkLimit_windowSizeMs t1 sid rl) as HW.
  destruct (checkLimit t1 sid rl) as [r rl1]. simpl in *.
  unfold checkLimit, getUserData. rewrite Hrecord. simpl.
  case_decide as Hfull; simpl; [|done]. intros _.
  case_decide as Hempty; [|done].
  rewrite Hempty in Hfull. simpl in Hfull. lia.
Qed.

(** C2, on the limiter of [rateLimiter.js]: ten calls of a session
    from time 0 at one-second steps are allowed and the call at time
    10000 is denied.  The oldest request inside the window is the one
    of time 0, which leaves the window at 60000; the denial reports
    69000, the time of the most recent allowed call plus the window. *)
Theorem checkLimit_denial_reports_newest_plus_window :
  let sid := js "claude-desktop-session" in
  let ts := [0; 1000; 2000; 3000; 4000; 5000; 6000; 7000; 8000; 9000] in
  let rl := (checkMany ts sid rateLimiter).2 in
  let denial := (checkLimit 10000 sid rl).1 in
  allowed denial = false
  ∧ Described.oldestInWindow (windowSizeMs rl) 10000 (sessionRequests rl sid)
    = Some 0
  ∧ resultResetTime denial = 69000
  ∧ resultResetTime denial ≠ 0 + windowSizeMs rl.
Proof. vm_compute. repeat split; congruence. Qed.

End RateLimiterFacts.

(** ** The limiter of the edge worker *)

Module WorkersRateLimiterFacts.

Import WorkersRateLimiter.
Local Open Scope Z_scope.

Lemma fold_min_le (xs : list Z) : ∀ x, fold_left Z.min xs x <= x.
Proof.
  induction xs as [|y xs IH]; intros x; simpl; [lia|].
  specialize (IH (Z.min x y)). lia.
Qed.

Lemma fold_min_lower (xs : list Z) : ∀ x y,
  y ∈ xs → fold_left Z.min xs x <= y.
Proof.
  induction xs as [|z xs IH]; intros x y Hy; [by apply elem_of_nil in Hy|].
  apply elem_of_cons in Hy as [->|Hy]; simpl.
  - pose proof (fold_min_le xs (Z.min x z)). lia.
  - by apply IH.
Qed.

Lemma fold_min_elem (xs : list Z) : ∀ x,
  fold_left Z.min xs x = x ∨ fold_left Z.min xs x ∈ xs.
Proof.
  induction xs as [|z xs IH]; intros x; simpl; [by left|].
  destruct (IH (Z.min x z)) as [H|H].
  - rewrite H. destruct (Z.min_spec x z) as [[_ ->]|[_ ->]]; [by left|].
    right. apply elem_of_cons. by left.
  - right. apply elem_of_cons. by right.
Qed.

(** The worker computes the reset time of a denial from the oldest
    request of the window: it is the least of the recent requests
    plus one minute. *)
Lemma workers_denial_resetTime (now : Z) (sid : jsstring) (this : t) :
  0 < limitPerMinute this →
  allowed (checkLimit now sid this).1 = false →
  let recent :=
    filter (λ timestamp, now - 60 * 1000 < timestamp)
           (default [] (requests this !! sid)) in
  ∃ oldest, oldest ∈ recent
    ∧ (∀ timestamp, timestamp ∈ recent → oldest <= timestamp)
    ∧ resetTime (checkLimit now sid this).1 = Finite (oldest + 60 * 1000).
Proof.
  intros Hpos. unfold checkLimit. simpl.
  case_decide as Hfull; simpl; [|done]. intros _.
  destruct (filter _ _) as [|x rest] eqn:E; simpl in *; [lia|].
  exists (fold_left Z.min rest x). split; [|split; [|done]].
  - destruct (fold_min_elem rest x) as [->|H];
      apply elem_of_cons; [by left|by right].
  - intros y Hy. apply elem_of_cons in Hy as [->|Hy].
    + apply fold_min_le.
    + by apply fold_min_lower.
Qed.

End WorkersRateLimiterFacts.

(** ** The order of the checks in the handlers *)

Module HandlerFacts.

Import Formatter.
Local Open Scope Z_scope.

Section Stdio.

Variable host : Date.Host.
Variable RATE_LIMIT_PER_MINUTE : Z.
Variable backend : Backend.Request → Backend.Reply.

(** The steps of a stdio handler, by the outcome of the two checks:
    the limiter is consulted first and its denial ends the call; the
    arguments are validated only after the limiter has allowed (and
    counted) the call; the backend is called only when both passed. *)
Lemma handleCall_steps format (now : Z) (args : option Value.object)
    (st : StdioServer.State) :
  let check :=
    RateLimiter.checkLimit now StdioServer.getSessionId (StdioServer.rateLimiter st) in
  let validation := Validator.validateInputs host now args in
  let out := StdioServer.handleCall host RATE_LIMIT_PER_MINUTE backend format now args st in
  StdioServer.rateLimiter out.2 = check.2
  ∧ (RateLimiter.allowed check.1 = false →
       out.1 = StdioServer.formatRateLimitError host RATE_LIMIT_PER_MINUTE now check.1
       ∧ StdioServer.backendCalls out.2 = StdioServer.backendCalls st)
  ∧ (RateLimiter.allowed check.1 = true → Validator.valid validation = false →
       out.1 = StdioServer.formatValidationError now (Validator.errors validation)
       ∧ StdioServer.backendCalls out.2 = StdioServer.backendCalls st)
  ∧ (RateLimiter.allowed check.1 = true → Validator.valid validation = true →
       StdioServer.backendCalls out.2
       = StdioServer.backendCalls st ++ [Backend.formData (default [] args)]).
Proof.
  unfold StdioServer.handleCall. cbv zeta.
  destruct (RateLimiter.checkLimit _ _ _) as [r limiter]. cbn [fst snd].
  destruct (RateLimiter.allowed r); cbn [negb].
  - destruct (Validator.valid _); cbn [negb].
    + unfold StdioServer.callBackendAPI.
      destruct (backend _); cbn [fst snd StdioServer.rateLimiter StdioServer.backendCalls];
        (split; [reflexivity|]); (split; [discriminate|]);
        (split; [discriminate|]); reflexivity.
    + cbn [fst snd StdioServer.rateLimiter StdioServer.backendCalls].
      split; [reflexivity|]. split; [discriminate|].
      split; [split; reflexivity|discriminate].
  - cbn [fst snd StdioServer.rateLimiter StdioServer.backendCalls].
    split; [reflexivity|]. split; [split; reflexivity|].
    split; discriminate.
Qed.

(** C1, on the stdio handler: ten calls of [match_resume] at
    one-second steps use up the quota of the session; the call at time
    10000 has arguments that fail validation (no [resume_text]) and a
    session over the limit.  The handler answers with the rate-limit
    document, not with the validation-error document, because it
    consults the limiter before it validates; the backend is not
    called. *)
Theorem stdio_rate_limit_precedes_validation :
  let args : option Value.object := Some [] in
  let handle := StdioServer.handleMatchResumeCall host RATE_LIMIT_PER_MINUTE backend in
  let st :=
    fold_left (λ st now, (handle now args st).2)
      [0; 1000; 2000; 3000; 4000; 5000; 6000; 7000; 8000; 9000]
      StdioServer.initial in
  let out := handle 10000 args st in
  Validator.valid (Validator.validateInputs host 10000 args) = false
  ∧ artifact_title out.1 = js "Rate Limit Exceeded"
  ∧ out.1 ≠ StdioServer.formatValidationError 10000
             (Validator.errors (Validator.validateInputs host 10000 args))
  ∧ StdioServer.backendCalls out.2 = [].
Proof.
  intros args handle st out. split; [|split; [|split]].
  - vm_compute. reflexivity.
  - vm_compute. reflexivity.
  - intros H. apply (f_equal artifact_title) in H. vm_compute in H. discriminate.
  - vm_compute. reflexivity.
Qed.

End Stdio.

Section Http.

Variable host : Date.Host.
Variable RATE_LIMIT_PER_MINUTE : Z.
Variable backend : Backend.Request → Backend.Reply.

(** On the HTTP route the schema check of [tools.js] does come before
    the limiter: a call that it rejects leaves the state, and so the
    counters, as they were. *)
Lemma http_schema_check_precedes_limiter (now : Z) (peer : option jsstring)
    (name : jsstring) (args : option Value.object) (st : StdioServer.State)
    (validation : Validator.Validation) :
  Tools.validateToolParameters host name (default [] args) = Tools.Normal validation →
  Validator.valid validation = false →
  (HttpServer.toolsCall host RATE_LIMIT_PER_MINUTE backend now peer name args st).2 = st
  ∧ (HttpServer.restToolsCall host RATE_LIMIT_PER_MINUTE backend now peer name args st).2 = st.
Proof.
  intros Hv Hinvalid. unfold HttpServer.toolsCall, HttpServer.restToolsCall.
  destruct (Tools.read Tools.tools name); [| |done]; by rewrite Hv, Hinvalid.
Qed.

(** The check of [validator.js], which makes the validation-error
    document, comes after the limiter on the HTTP route too: a resume
    text of five characters passes the schema check and fails
    [validateInputs]; once the peer has used up its quota the reply is
    the rate-limit document. *)
Lemma http_rate_limit_precedes_input_validation :
  let peer := Some (js "203.0.113.7") in
  let name := js "match_resume" in
  let args : option Value.object :=
    Some [(js "resume_text", Value.VString (js "short"))] in
  let call := HttpServer.toolsCall host RATE_LIMIT_PER_MINUTE backend in
  let st :=
    fold_left (λ st now, (call now peer name args st).2)
      [0; 1000; 2000; 3000; 4000; 5000; 6000; 7000; 8000; 9000]
      StdioServer.initial in
  Validator.valid (Validator.validateInputs host 10000 args) = false
  ∧ match (call 10000 peer name args st).1 with
    | HttpServer.RpcResult result =>
        artifact_title result = js "Rate Limit Exceeded"
    | _ => False
    end
  ∧ StdioServer.backendCalls (call 10000 peer name args st).2 = [].
Proof.
  intros peer name args call st. split; [|split].
  - vm_compute. reflexivity.
  - vm_compute. reflexivity.
  - vm_compute. reflexivity.
Qed.

End Http.

End HandlerFacts.

(** ** The edge worker *)

Module WorkerFacts.

Import Formatter.
Local Open Scope Z_scope.

Section Facts.

Variable host : Date.Host.
Variable RATE_LIMIT_PER_MINUTE : Value.t.
Variable backend : Backend.Request → Backend.Reply.

Local Abbreviation limit := (Worker.CONFIG.RATE_LIMIT_PER_MINUTE RATE_LIMIT_PER_MINUTE).












End Facts.


(** C10 as stated fails when the limit is configured negative.  With
    [RATE_LIMIT_PER_MINUTE = '-1'] the first call of a session, on the
    empty history of a new server, is refused, and the same call of
    [match_resume] is answered with the rate-limit document. *)
Lemma worker_rate_limits_counterexample :
  let host := Date.Utc.host in
  let global := Value.VString (js "-1") in
  let backend := λ _ : Backend.Request, Backend.Failed in
  let headers := Worker.mkHeaders (Some (js "203.0.113.7")) None in
  let resume := concat (replicate 50 (js "worked on it ")) in
  let request :=
    Worker.RestToolsCall (js "match_resume")
      (Some [(js "resume_text", Value.VString resume)]) in
  let check :=
    (WorkersRateLimiter.checkLimit 0 (Worker.sessionOf headers)
       (Worker.rateLimiter (Worker.newServer global))).1 in
  let reply := Worker.fetch host global backend 0 headers request None in
  Worker.CONFIG.RATE_LIMIT_PER_MINUTE global = -1
  ∧ WorkersRateLimiter.requests (Worker.rateLimiter (Worker.newServer global)) = ∅
  ∧ WorkersRateLimiter.allowed check = false
  ∧ match reply.1 with
    | Worker.RestResult result => artifact_title result = js "Rate Limit Exceeded"
    | _ => False
    end.
Proof.
  intros host global backend headers resume request check reply.
  split; [vm_compute; reflexivity|]. split; [reflexivity|].
  split; vm_compute; reflexivity.
Qed.

End WorkerFacts.

(** ** The checks of the resume text *)

Module ValidatorFacts.

Import Value Validator Described.
Local Open Scope Z_scope.

Lemma isWhiteSpace_space : JsString.isWhiteSpace 32 = true.
Proof. reflexivity. Qed.

(** The pieces of the split that are not empty are the words. *)
Lemma split_words (s : jsstring) : ∀ cur inRun,
  (inRun = true → cur = []) →
  filter (λ word : jsstring, (0 < length word)%nat)
         (JsString.splitRunsFrom JsString.isWhiteSpace cur inRun s)
  = wordsFrom cur s.
Proof.
  induction s as [|c rest IH]; intros cur inRun Hrun; simpl.
  - destruct cur as [|x cur]; simpl.
    + by rewrite filter_cons_False by (simpl; lia).
    + rewrite filter_cons_True; [done|].
      rewrite length_app. simpl. lia.
  - destruct (JsString.isWhiteSpace c).
    + destruct inRun.
      * rewrite (Hrun eq_refl). simpl. by apply IH.
      * destruct cur as [|x cur]; simpl.
        -- rewrite filter_cons_False by (simpl; lia). by apply IH.
        -- rewrite filter_cons_True by (rewrite length_app; simpl; lia).
           f_equal. by apply IH.
    + by apply IH.
Qed.

(** Collapsing the runs of whitespace keeps the words. *)
Lemma words_collapse (s : jsstring) : ∀ cur inRun,
  (inRun = true → cur = []) →
  wordsFrom cur (JsString.replaceRunsFrom JsString.isWhiteSpace 32 inRun s)
  = wordsFrom cur s.
Proof.
  induction s as [|c rest IH]; intros cur inRun Hrun; simpl; [done|].
  destruct (JsString.isWhiteSpace c) eqn:Hc.
  - destruct inRun.
    + rewrite (Hrun eq_refl). simpl. by apply IH.
    + simpl. destruct cur as [|x cur]; simpl.
      * by apply IH.
      * f_equal. by apply IH.
  - simpl. rewrite Hc. by apply IH.
Qed.

Lemma words_trimStart (s : jsstring) :
  wordsFrom [] (JsString.trimStart s) = wordsFrom [] s.
Proof.
  unfold JsString.trimStart.
  induction s as [|c rest IH]; simpl; [done|].
  destruct (JsString.isWhiteSpace c) eqn:Hc; simpl; [done|].
  by rewrite Hc.
Qed.

Lemma words_snoc_space (s : jsstring) (c : N) : ∀ cur,
  JsString.isWhiteSpace c = true →
  wordsFrom cur (s ++ [c]) = wordsFrom cur s.
Proof.
  induction s as [|x rest IH]; intros cur Hc; simpl.
  - rewrite Hc. by destruct cur.
  - destruct (JsString.isWhiteSpace x); [destruct cur|]; simpl;
      rewrite ?IH by done; done.
Qed.

Lemma words_trimEnd (s : jsstring) (cur : jsstring) :
  wordsFrom cur (JsString.trimEnd s) = wordsFrom cur s.
Proof.
  unfold JsString.trimEnd.
  induction s as [|c rest IH] using rev_ind; [done|].
  rewrite rev_unit. simpl.
  destruct (JsString.isWhiteSpace c) eqn:Hc.
  - rewrite IH. symmetry. by apply words_snoc_space.
  - simpl. by rewrite rev_involutive.
Qed.

(** The words that the content check counts are the words of the text. *)
Lemma words_normalized (s : jsstring) :
  filter (λ word : jsstring, (0 < length word)%nat)
         (JsString.splitWhitespace (normalized s))
  = words s.
Proof.
  unfold JsString.splitWhitespace, JsString.splitRuns, normalized, JsString.trim.
  rewrite split_words by done.
  rewrite words_trimEnd, words_trimStart.
  by apply words_collapse.
Qed.

Lemma takeWhile_replicate (c : N) (s : jsstring) :
  JsString.takeWhile (N.eqb c) s
  = replicate (length (JsString.takeWhile (N.eqb c) s)) c.
Proof.
  induction s as [|x rest IH]; simpl; [done|].
  destruct (N.eqb_spec c x) as [->|]; simpl; [|done]. by rewrite <- IH.
Qed.

Lemma takeWhile_dropWhile (p : N → bool) (s : jsstring) :
  JsString.takeWhile p s ++ JsString.dropWhile p s = s.
Proof.
  induction s as [|x rest IH]; simpl; [done|].
  destruct (p x); simpl; [by rewrite IH|done].
Qed.

Lemma takeWhile_replicate_app (c : N) (k : nat) (after : jsstring) :
  (k ≤ length (JsString.takeWhile (N.eqb c) (replicate k c ++ after)))%nat.
Proof.
  induction k as [|k IH]; simpl; [lia|].
  rewrite N.eqb_refl. simpl. lia.
Qed.

(** [hasRunb] decides [hasRun]. *)
Lemma hasRunb_spec (n : nat) (s : jsstring) :
  (0 < n)%nat → hasRunb n s = true ↔ hasRun n s.
Proof.
  intros Hn. split.
  - induction s as [|c rest IH]; simpl; [done|].
    intros [Hhere|Hlater]%orb_true_iff.
    + apply bool_decide_eq_true in Hhere.
      pose proof (takeWhile_replicate c rest) as Hrep.
      pose proof (takeWhile_dropWhile (N.eqb c) rest) as Hsplit.
      set (k := length (JsString.takeWhile (N.eqb c) rest)) in *.
      exists [], c, (replicate (S k - n) c ++ JsString.dropWhile (N.eqb c) rest).
      simpl. rewrite app_assoc, <- replicate_add.
      replace (n + (S k - n))%nat with (S k) by lia.
      simpl. by rewrite <- Hrep, Hsplit.
    + destruct (IH Hlater) as (before & x & after & ->).
      by exists (c :: before), x, after.
  - intros (before & c & after & ->).
    induction before as [|x before IH]; simpl.
    + destruct n as [|n]; [lia|]. simpl.
      apply orb_true_iff. left. apply bool_decide_eq_true.
      pose proof (takeWhile_replicate_app c n after). lia.
    + apply orb_true_iff. by right.
Qed.

(** What the pattern of repeated characters finds is a run of 21. *)
Lemma hasRepeatedRun_hasRun (s : jsstring) :
  JsString.hasRepeatedRun 20 s = true → hasRun 21 s.
Proof.
  intros H. apply hasRunb_spec; [lia|].
  induction s as [|c rest IH]; simpl in *; [done|].
  apply orb_true_iff in H as [[_ Hhere]%andb_true_iff|Hlater];
    apply orb_true_iff; [left|right; by apply IH].
  apply bool_decide_eq_true in Hhere. apply bool_decide_eq_true. lia.
Qed.

Lemma report_nil : report [] = mkValidation true [].
Proof. reflexivity. Qed.

Lemma report_invalid (errors : list jsstring) :
  errors ≠ [] → valid (report errors) = false.
Proof. by destruct errors. Qed.

Lemma errorsWhen_true_elem (validation : Validation) (e : jsstring) :
  e ∈ errors validation → valid validation = false →
  e ∈ errorsWhen true validation.
Proof. unfold errorsWhen. by intros ? ->. Qed.

(** *** The messages of the optional parameters

    No message about an optional parameter starts with the letter
    [R]; the messages about the resume text all do. *)

Lemma head_app (a b : jsstring) (c : N) : head a = Some c → head (a ++ b) = Some c.
Proof. by destruct a. Qed.

Ltac other_letter :=
  unfold aboutResume;
  first [ by vm_compute
        | erewrite head_app by (vm_compute; reflexivity); discriminate ].

Lemma in_if_singleton (P : Prop) `{Decision P} (a e : jsstring) (rest : list jsstring) :
  e ∈ (if decide P then [a] else rest) → e = a ∨ e ∈ rest.
Proof. case_decide; [|by right]. intros ->%list_elem_of_singleton. by left. Qed.

Lemma validateUserExperience_other (v : Value.t) (e : jsstring) :
  e ∈ errors (validateUserExperience v) → ¬ aboutResume e.
Proof.
  unfold validateUserExperience.
  destruct v; cbn [errors report];
    try (intros ->%list_elem_of_singleton; other_letter).
  destruct (parseInt _) as [n|];
    [|intros ->%list_elem_of_singleton; other_letter].
  repeat case_decide;
    (intros ->%list_elem_of_singleton; other_letter) || (by intros ?%elem_of_nil).
Qed.


Lemma validateKeywords_other (v : Value.t) (e : jsstring) :
  e ∈ errors (validateKeywords v) → ¬ aboutResume e.
Proof.
  unfold validateKeywords.
  destruct v; cbn [errors report];
    try (intros ->%list_elem_of_singleton; other_letter).
  rewrite !elem_of_app. intros [He|[He|He]].
  - apply in_if_singleton in He as [->|He]; [other_letter|by apply elem_of_nil in He].
  - apply in_if_singleton in He as [->|He]; [other_letter|].
    apply in_if_singleton in He as [->|He]; [other_letter|by apply elem_of_nil in He].
  - apply list_elem_of_In, in_flat_map in He as (keyword & _ & He).
    apply list_elem_of_In in He.
    apply in_if_singleton in He as [->|He]; [other_letter|].
    apply in_if_singleton in He as [->|He]; [other_letter|by apply elem_of_nil in He].
Qed.

Lemma validateLocation_other (v : Value.t) (e : jsstring) :
  e ∈ errors (validateLocation v) → ¬ aboutResume e.
Proof.
  unfold validateLocation.
  destruct v; cbn [errors report];
    try (intros ->%list_elem_of_singleton; other_letter).
  rewrite !elem_of_app. intros [He|[He|He]].
  - apply in_if_singleton in He as [->|He]; [other_letter|by apply elem_of_nil in He].
  - apply in_if_singleton in He as [->|He]; [other_letter|].
    apply in_if_singleton in He as [->|He]; [other_letter|by apply elem_of_nil in He].
  - apply list_elem_of_In, in_flat_map in He as (loc & _ & He).
    apply list_elem_of_In in He.
    apply in_if_singleton in He as [->|He]; [other_letter|].
    apply in_if_singleton in He as [->|He]; [other_letter|by apply elem_of_nil in He].
Qed.

Lemma validatePage_other (v : Value.t) (e : jsstring) :
  e ∈ errors (validatePage v) → ¬ aboutResume e.
Proof.
  unfold validatePage. cbn [errors report].
  destruct (parseInt _) as [n|];
    [|intros ->%list_elem_of_singleton; other_letter].
  intros He.
  apply in_if_singleton in He as [->|He]; [other_letter|].
  apply in_if_singleton in He as [->|He]; [other_letter|by apply elem_of_nil in He].
Qed.

Lemma validateSortBy_other (v : Value.t) (e : jsstring) :
  e ∈ errors (validateSortBy v) → ¬ aboutResume e.
Proof.
  unfold validateSortBy.
  destruct v; cbn [errors report];
    try (intros ->%list_elem_of_singleton; other_letter).
  case_bool_decide; [by intros ?%elem_of_nil|].
  intros ->%list_elem_of_singleton. other_letter.
Qed.

Section WithDate.

Variable host : Date.Host.
Variable now : Z.

(** A message of the resume-text check is a message of [validateInputs]. *)
Lemma validateInputs_resume_error (args : object) (text : jsstring) (e : jsstring) :
  get args (js "resume_text") = VString text →
  text ≠ [] →
  e ∈ errors (validateResumeText (VString text)) →
  valid (validateInputs host now (Some args)) = false
  ∧ e ∈ errors (validateInputs host now (Some args)).
Proof.
  intros Hget Hne He.
  assert (Hin : e ∈ errors (validateInputs host now (Some args))).
  { unfold validateInputs. cbn [errors report]. rewrite Hget.
    apply elem_of_app. right. apply elem_of_app. left.
    replace (truthy (VString text)) with true by (by destruct text).
    apply errorsWhen_true_elem; [done|].
    unfold validateResumeText in *. apply report_invalid.
    cbn [errors report] in He. intros Hnil. rewrite Hnil in He.
    by apply elem_of_nil in He. }
  split; [|done].
  unfold validateInputs in *. apply report_invalid.
  cbn [errors report] in Hin. intros Hnil. rewrite Hnil in Hin.
  by apply elem_of_nil in Hin.
Qed.

(** The two bounds and the content check of a resume text that is a
    string. *)
Lemma validateInputs_resume_bounds (args : object) (text : jsstring) :
  get args (js "resume_text") = VString text →
  (text ≠ [] → len text < CONFIG.MIN_RESUME_LENGTH →
     valid (validateInputs host now (Some args)) = false
     ∧ tooShort ∈ errors (validateInputs host now (Some args)))
  ∧ (CONFIG.MAX_RESUME_LENGTH < len text →
     valid (validateInputs host now (Some args)) = false
     ∧ tooLong ∈ errors (validateInputs host now (Some args)))
  ∧ (CONFIG.MIN_RESUME_LENGTH <= len text <= CONFIG.MAX_RESUME_LENGTH →
     CONFIG.MIN_RESUME_LENGTH <= len (normalized text) →
     (10 <= length (words text))%nat →
     ¬ hasRun 21 text →
     validateResumeText (VString text) = mkValidation true []).
Proof.
  intros Hget. split; [|split].
  - intros Hne Hshort. apply (validateInputs_resume_error args text); [done..|].
    unfold validateResumeText. cbn [errors report].
    rewrite decide_True by done. apply elem_of_app. left. apply list_elem_of_singleton.
    done.
  - intros Hlong. apply (validateInputs_resume_error args text); [done| |].
    { intros ->. unfold len, CONFIG.MAX_RESUME_LENGTH in Hlong. simpl in Hlong. lia. }
    unfold validateResumeText. cbn [errors report].
    apply elem_of_app. right. apply elem_of_app. left.
    rewrite decide_True by done. by apply list_elem_of_singleton.
  - intros [Hmin Hmax] Hnorm Hwords Hrun.
    unfold validateResumeText.
    rewrite decide_False by lia. rewrite decide_False by lia.
    unfold validateMeaningfulContent.
    fold (normalized text).
    rewrite decide_False by lia.
    rewrite words_normalized.
    destruct (JsString.hasRepeatedRun 20 text) eqn:Hrep.
    { exfalso. by apply Hrun, hasRepeatedRun_hasRun. }
    rewrite decide_False by lia.
    reflexivity.
Qed.

Lemma validateDate_other (v : Value.t) (fieldName : jsstring) (e : jsstring) :
  fieldName = js "start_date" ∨ fieldName = js "end_date" →
  e ∈ errors (validateDate host now v fieldName) → ¬ aboutResume e.
Proof.
  intros Hfield. unfold validateDate.
  destruct v; cbn [errors report];
    try (intros ->%list_elem_of_singleton; destruct Hfield as [->| ->]; other_letter).
  destruct (negb _); cbn [errors report];
    [intros ->%list_elem_of_singleton; destruct Hfield as [->| ->]; other_letter|].
  rewrite elem_of_app.
  destruct (Date.parse host _) as [time|].
  - intros [He|He].
    + destruct (_ || _); [|by apply elem_of_nil in He].
      apply list_elem_of_singleton in He as ->.
      destruct Hfield as [->| ->]; other_letter.
    + apply in_if_singleton in He as [->|He];
        [destruct Hfield as [->| ->]; other_letter|].
      apply in_if_singleton in He as [->|He];
        [destruct Hfield as [->| ->]; other_letter|by apply elem_of_nil in He].
  - intros [He|He]; [|by apply elem_of_nil in He].
    apply list_elem_of_singleton in He as ->.
    destruct Hfield as [->| ->]; other_letter.
Qed.

Lemma validateDateRange_other (a b : Value.t) (e : jsstring) :
  e ∈ errors (validateDateRange host a b) → ¬ aboutResume e.
Proof.
  unfold validateDateRange. cbn [errors report].
  destruct (Date.ofValue host a), (Date.ofValue host b);
    try (by intros ?%elem_of_nil).
  rewrite elem_of_app. intros [He|He];
    (apply in_if_singleton in He as [->|He]; [other_letter|by apply elem_of_nil in He]).
Qed.

Lemma errorsWhen_subset (condition : bool) (validation : Validation) (e : jsstring) :
  e ∈ errorsWhen condition validation → e ∈ errors validation.
Proof.
  unfold errorsWhen. destruct condition; [|by intros ?%elem_of_nil].
  destruct (valid validation); [by intros ?%elem_of_nil|done].
Qed.

(** No message about an optional parameter is about the resume. *)
Lemma validateOptionalParameters_other (args : object) (e : jsstring) :
  e ∈ errors (validateOptionalParameters host now args) → ¬ aboutResume e.
Proof.
  unfold validateOptionalParameters. cbv zeta. cbn [errors report].
  rewrite !elem_of_app.
  intros [He|[He|[He|[He|[He|[He|[He|He]]]]]]]; apply errorsWhen_subset in He.
  - by apply validateUserExperience_other in He.
  - by apply validateKeywords_other in He.
  - by apply validateLocation_other in He.
  - apply validateDate_other in He; [done|by left].
  - apply validateDate_other in He; [done|by right].
  - by apply validateDateRange_other in He.
  - by apply validatePage_other in He.
  - by apply validateSortBy_other in He.
Qed.

(** C4, as the code has it.  A resume text that is not empty and is
    shorter than 500 characters, or longer than 15000, makes
    [validateInputs] fail with the message of that bound; a text
    within the bounds whose whitespace-normalised form still has 500
    characters, that has ten words and no run of 21 copies of one
    character, passes the length and content checks without an
    error.  A resume text that is missing or empty (any falsy value)
    makes [validateInputs] fail with [Resume text is required], and
    with no message about its length. *)
Theorem validateInputs_resume_text (args : object) :
  (∀ text, get args (js "resume_text") = VString text →
     (text ≠ [] → len text < CONFIG.MIN_RESUME_LENGTH →
        valid (validateInputs host now (Some args)) = false
        ∧ tooShort ∈ errors (validateInputs host now (Some args)))
     ∧ (CONFIG.MAX_RESUME_LENGTH < len text →
        valid (validateInputs host now (Some args)) = false
        ∧ tooLong ∈ errors (validateInputs host now (Some args)))
     ∧ (CONFIG.MIN_RESUME_LENGTH <= len text <= CONFIG.MAX_RESUME_LENGTH →
        CONFIG.MIN_RESUME_LENGTH <= len (normalized text) →
        (10 <= length (words text))%nat →
        ¬ hasRun 21 text →
        validateResumeText (VString text) = mkValidation true []))
  ∧ (truthy (get args (js "resume_text")) = false →
       valid (validateInputs host now (Some args)) = false
       ∧ head (errors (validateInputs host now (Some args)))
         = Some (js "Resume text is required")
       ∧ (tooShort ∉ errors (validateInputs host now (Some args)))
       ∧ (tooLong ∉ errors (validateInputs host now (Some args)))).
Proof.
  split.
  - intros text Hget. exact (validateInputs_resume_bounds args text Hget).
  - intros Hfalsy.
    assert (Herrors : errors (validateInputs host now (Some args))
              = js "Resume text is required"
                :: errorsWhen true (validateOptionalParameters host now args)).
    { unfold validateInputs, validateRequiredParameters. cbv zeta.
      cbn [errors report]. rewrite Hfalsy. cbn [negb orb errorsWhen].
      reflexivity. }
    assert (Hlength : ∀ e, aboutResume e → e ≠ js "Resume text is required" →
              e ∉ errors (validateInputs host now (Some args))).
    { intros e He Hne Hin. rewrite Herrors in Hin.
      apply elem_of_cons in Hin as [->|Hin]; [done|].
      apply errorsWhen_subset in Hin.
      by apply validateOptionalParameters_other in Hin. }
    split; [|split; [by rewrite Herrors|split]].
    + unfold validateInputs in *. apply report_invalid.
      cbn [errors report] in Herrors. by rewrite Herrors.
    + apply Hlength; [vm_compute; reflexivity|vm_compute; discriminate].
    + apply Hlength; [vm_compute; reflexivity|vm_compute; discriminate].
Qed.

End WithDate.

(** A resume of 650 characters and 150 words, one of five characters,
    one of 15600 characters, and a call without a resume. *)
Lemma validateInputs_resume_text_witness :
  let host := Date.Utc.host in
  let ok := concat (replicate 50 (js "worked on it ")) in
  let long := concat (replicate 1200 (js "worked on it ")) in
  (valid (validateInputs host 0 (Some [(js "resume_text", VString (js "short"))])) = false
   ∧ tooShort ∈ errors (validateInputs host 0
                          (Some [(js "resume_text", VString (js "short"))])))
  ∧ (valid (validateInputs host 0 (Some [(js "resume_text", VString long)])) = false
     ∧ tooLong ∈ errors (validateInputs host 0 (Some [(js "resume_text", VString long)])))
  ∧ validateResumeText (VString ok) = mkValidation true []
  ∧ (valid (validateInputs host 0 (Some [])) = false
     ∧ head (errors (validateInputs host 0 (Some [])))
       = Some (js "Resume text is required")
     ∧ (tooShort ∉ errors (validateInputs host 0 (Some [])))
     ∧ (tooLong ∉ errors (validateInputs host 0 (Some [])))).
Proof.
  intros host ok long. split; [|split; [|split]].
  - apply (proj1 (validateInputs_resume_text host 0
                    [(js "resume_text", VString (js "short"))])
             (js "short") eq_refl);
      [vm_compute; discriminate|vm_compute; reflexivity].
  - apply (proj1 (validateInputs_resume_text host 0
                    [(js "resume_text", VString long)]) long eq_refl).
    vm_compute. reflexivity.
  - apply (proj1 (validateInputs_resume_text host 0 [(js "resume_text", VString ok)])
             ok eq_refl).
    + vm_compute. split; discriminate.
    + vm_compute. discriminate.
    + vm_compute. lia.
    + intros Hrun. apply hasRunb_spec in Hrun; [|lia]. vm_compute in Hrun. discriminate.
  - apply (proj2 (validateInputs_resume_text host 0 [])). reflexivity.
Defined.

(** C4 as stated fails at two inputs.  A text of 500 characters made
    of 125 words of two letters, two spaces after each, is within the
    bounds, has more than ten words and no run of 21 characters, and
    the content check rejects it: collapsing the whitespace leaves 374
    characters.  The empty text is shorter than the minimum and is
    reported as missing, with no message about its length. *)
Lemma validateResumeText_counterexample :
  let text := concat (replicate 125 (js "ab  ")) in
  (CONFIG.MIN_RESUME_LENGTH <= len text <= CONFIG.MAX_RESUME_LENGTH
   ∧ (10 <= length (words text))%nat
   ∧ ¬ hasRun 21 text
   ∧ validateResumeText (VString text)
     = mkValidation false
         [js "Resume text contains insufficient content (too much whitespace)"])
  ∧ (len [] < CONFIG.MIN_RESUME_LENGTH
     ∧ validateInputs Date.Utc.host 0 (Some [(js "resume_text", VString [])])
       = mkValidation false [js "Resume text is required"]).
Proof.
  intros text. split; [split; [|split; [|split]]|split].
  - vm_compute. split; discriminate.
  - vm_compute. lia.
  - intros Hrun. apply hasRunb_spec in Hrun; [|lia]. vm_compute in Hrun. discriminate.
  - vm_compute. reflexivity.
  - reflexivity.
  - vm_compute. reflexivity.
Qed.

End ValidatorFacts.

(** ** The rules of the date range *)

Module DateRangeFacts.

Import Value Validator.
Local Open Scope Z_scope.

Section WithDate.

Variable host : Date.Host.
Variable now : Z.

Lemma report_elem (errors : list jsstring) (e : jsstring) :
  e ∈ errors → valid (report errors) = false ∧ e ∈ Validator.errors (report errors).
Proof. intros He. split; [|done]. destruct errors; [by apply elem_of_nil in He|done]. Qed.

Lemma errorsWhen_elem (condition : bool) (validation : Validation) (e : jsstring) :
  condition = true → valid validation = false → e ∈ errors validation →
  e ∈ errorsWhen condition validation.
Proof. intros -> Hv He. unfold errorsWhen. by rewrite Hv. Qed.

(** A message of the date-range check, for dates that are both given
    as strings, is a message of [validateInputs]. *)
Lemma validateInputs_range_error (args : object) (s e : jsstring) (m : jsstring) :
  get args (js "start_date") = VString s → s ≠ [] →
  get args (js "end_date") = VString e → e ≠ [] →
  m ∈ errors (validateDateRange host (VString s) (VString e)) →
  valid (validateInputs host now (Some args)) = false
  ∧ m ∈ errors (validateInputs host now (Some args)).
Proof.
  intros Hs Hsne He Hene Hm.
  unfold validateInputs. apply report_elem.
  apply elem_of_app. right. apply elem_of_app. right.
  assert (Hopt : valid (validateOptionalParameters host now args) = false
                 ∧ m ∈ errors (validateOptionalParameters host now args)).
  { unfold validateOptionalParameters. apply report_elem.
    rewrite Hs, He.
    do 5 (apply elem_of_app; right). apply elem_of_app. left.
    apply errorsWhen_elem; [|exact (proj1 (report_elem _ m Hm))|done].
    destruct s; [done|]. destruct e; [done|]. reflexivity. }
  destruct Hopt as [Hv Hin]. by apply errorsWhen_elem.
Qed.

(** Both validators reject a range whose start is not before its end,
    and [validateInputs] rejects a range of more than 365 days, when
    the two dates are strings that the runtime parses. *)
Lemma date_order_and_span (args : object) (s e : jsstring) (a b : Z) :
  get args (js "start_date") = VString s →
  get args (js "end_date") = VString e →
  Date.parse host s = Some a → Date.parse host e = Some b →
  s ≠ [] → e ≠ [] →
  (b <= a →
     valid (validateInputs host now (Some args)) = false
     ∧ js "Start date must be before end date"
       ∈ errors (validateInputs host now (Some args)))
  ∧ (365 * Date.msPerDay < b - a →
     valid (validateInputs host now (Some args)) = false
     ∧ js "Date range is too long (maximum 1 year)"
       ∈ errors (validateInputs host now (Some args))).
Proof.
  intros Hs He Ha Hb Hsne Hene. split; intros Hcmp;
    apply (validateInputs_range_error args s e); try done;
    unfold validateDateRange; cbn [Date.ofValue errors report];
    rewrite Ha, Hb; apply elem_of_app; [left|right];
    rewrite decide_True by done; by apply list_elem_of_singleton.
Qed.

(** The schema check of [tools.js] rejects a call that gives one of
    the two dates without the other, and a range whose start is not
    before its end. *)
Lemma validateToolParameters_dates (name : jsstring) (params : object)
    (hasStart hasEnd : bool) :
  name = js "match_resume" ∨ name = js "match_jobs_to_apply" →
  Tools.hasDate (get params (js "start_date")) = Tools.Normal hasStart →
  Tools.hasDate (get params (js "end_date")) = Tools.Normal hasEnd →
  ∃ validation,
    Tools.validateToolParameters host name params = Tools.Normal validation
    ∧ (hasStart = true → hasEnd = false →
         valid validation = false ∧ Tools.startRequiresEnd ∈ errors validation)
    ∧ (hasStart = false → hasEnd = true →
         valid validation = false ∧ Tools.endRequiresStart ∈ errors validation)
    ∧ (∀ a b, hasStart = true → hasEnd = true →
         Date.ofValue host (get params (js "start_date")) = Some a →
         Date.ofValue host (get params (js "end_date")) = Some b →
         b <= a →
         valid validation = false ∧ Tools.startBeforeEnd ∈ errors validation).
Proof.
  intros Hname Hstart Hend. unfold Tools.validateToolParameters.
  assert (Hlookup : Tools.read Tools.tools name = Tools.Own Tools.inputSchema).
  { destruct Hname as [->| ->]; vm_compute; reflexivity. }
  rewrite Hlookup.
  replace (bool_decide (name = js "match_resume")
           || bool_decide (name = js "match_jobs_to_apply")) with true
    by (by destruct Hname as [->| ->]).
  unfold Tools.dateDependencies. rewrite Hstart, Hend.
  eexists. split; [reflexivity|].
  split; [|split].
  - intros -> ->. apply report_elem.
    apply elem_of_app. right. apply elem_of_app. left.
    apply elem_of_app. left. by apply list_elem_of_singleton.
  - intros -> ->. apply report_elem.
    apply elem_of_app. right. apply elem_of_app. left.
    apply elem_of_app. right. apply elem_of_app. left.
    by apply list_elem_of_singleton.
  - intros a b -> -> Ha Hb Hcmp. apply report_elem.
    apply elem_of_app. right. apply elem_of_app. left.
    apply elem_of_app. right. apply elem_of_app. right.
    cbn [andb]. rewrite Ha, Hb. rewrite decide_True by done.
    by apply list_elem_of_singleton.
Qed.

End WithDate.

(** C5, on [validateInputs], the one validation of the stdio server:
    a call with a valid resume and a start date, and no end date, is
    valid, so the handler sends it to the backend with an empty
    [end_date]; the schema check of [tools.js], which the HTTP and
    worker routes run first, rejects the same arguments with the
    message that both dates are required.  The time of the call is
    2025-11-03. *)
Theorem validateInputs_accepts_one_date :
  let now := 1762128000000 in
  let resume := concat (replicate 50 (js "worked on it ")) in
  let args : object :=
    [(js "resume_text", VString resume);
     (js "start_date", VString (js "2025-01-15"))] in
  validateInputs Date.Utc.host now (Some args) = mkValidation true []
  ∧ Tools.validateToolParameters Date.Utc.host (js "match_resume") args
    = Tools.Normal (mkValidation false [Tools.startRequiresEnd])
  ∧ (∀ backend,
       map (λ request, (Backend.start_date request, Backend.end_date request))
         (StdioServer.backendCalls
            (StdioServer.handleMatchResumeCall Date.Utc.host 10 backend now
               (Some args) StdioServer.initial).2)
       = [(js "2025-01-15", [])]).
Proof.
  intros now resume args. split; [|split].
  - vm_compute. reflexivity.
  - vm_compute. reflexivity.
  - intros backend.
    destruct (HandlerFacts.handleCall_steps Date.Utc.host 10 backend
                (Formatter.formatMarkdownResponse Date.Utc.host) now (Some args)
                StdioServer.initial) as (_ & _ & _ & Hcall).
    unfold StdioServer.handleMatchResumeCall. rewrite Hcall.
    + vm_compute. reflexivity.
    + vm_compute. reflexivity.
    + vm_compute. reflexivity.
Qed.

End DateRangeFacts.

(** ** The extractions from [chunk_text] *)

Module ExtractionFacts.

Import Formatter Described.




Lemma takeWhile_all (p : N → bool) (s after : jsstring) :
  forallb p s = true →
  match after with [] => True | x :: _ => p x = false end →
  JsString.takeWhile p (s ++ after) = s.
Proof.
  induction s as [|c s IH]; intros Hall Hstop; simpl in *.
  - destruct after as [|x after]; [done|]. simpl. by rewrite Hstop.
  - apply andb_true_iff in Hall as [-> Hall]. f_equal. by apply IH.
Qed.









End ExtractionFacts.

(** ** The transformed match and its rendering *)

Module FormatterFacts.

Import Value Formatter.

(** The spec's example: a score of [0.873] gives 87. *)
Lemma similarity_score_percent :
  Number.Math_round (Number.mul (Number.ofDecimal 873 3) (Number.ofZ 100))
  = Number.ofZ 87.
Proof. vm_compute. reflexivity. Qed.

Lemma transformJob_match (host : Date.Host) (now : Z) (job : JobMatch.t)
    (index : nat) (score : Number.t) :
  JobMatch.similarity_score job = Some score → Number.truthy score = true →
  Job.match_ (transformJob host now job index)
  = Number.Math_round (Number.mul score (Number.ofZ 100)).
Proof. intros Hscore Htruthy. unfold transformJob. cbn [Job.match_]. by rewrite Hscore, Htruthy. Qed.

(** The bands of the table-only document, for every percentage. *)
Lemma matchColor_bands (n : Z) :
  (0 ≤ n ≤ 100)%Z →
  matchColor (Number.ofZ n)
  = if (70 <=? n)%Z then js "🟢" else if (40 <=? n)%Z then js "🟡" else js "🟠".
Proof.
  intros Hn.
  assert (Hin : n ∈ seqZ 0 101) by (apply elem_of_seqZ; lia).
  clear Hn. revert n Hin. apply list.Forall_forall.
  apply (bool_decide_unpack _). vm_compute. exact I.
Qed.

(** C6: what the full document renders.  The percentage is the
    rounded score, 87 for [0.873], and the table-only document picks
    the green, yellow and orange marks by the bands.  The full
    document does not: its detailed listing marks a match of 70 or
    more with the replacement character U+FFFD, and its index table
    marks a match from 40 to 69 with it. *)
Theorem full_document_indicator :
  let host := Date.Utc.host in
  let transformed score :=
    transformJobData host Sample.now (Sample.response [Sample.jobMatch score]) None in
  let high := Number.ofDecimal 873 3 in
  let medium := Number.ofDecimal 5 1 in
  (Job.match_ <$> Transformed.jobs (transformed high) = [Number.ofZ 87]
   ∧ matchColor (Number.ofZ 87) = js "🟢"
   ∧ matchColorFullDetail (Number.ofZ 87) = [65533%N]
   ∧ JsString.includes (generateJobMatcherMarkdown host (transformed high))
       (js "| 🎯 **Match Score** | � **87%** |") = true
   ∧ JsString.includes (generateJobMatcherMarkdown host (transformed high))
       (js "| 🎯 **Match Score** | 🟢 **87%** |") = false)
  ∧ (Job.match_ <$> Transformed.jobs (transformed medium) = [Number.ofZ 50]
     ∧ matchColor (Number.ofZ 50) = js "🟡"
     ∧ matchColorFullIndex (Number.ofZ 50) = [65533%N]
     ∧ JsString.includes (generateJobMatcherMarkdown host (transformed medium))
         (js "| Data Engineer | � **50%** |") = true
     ∧ JsString.includes (generateJobMatcherMarkdown host (transformed medium))
         (js "| Data Engineer | 🟡 **50%** |") = false
     ∧ JsString.includes (generateJobIndexTableMarkdown host (transformed medium))
         (js "| Data Engineer | 🟡 **50%** |") = true).
Proof.
  intros host transformed high medium.
  split; [split; [|split; [|split; [|split]]]
         |split; [|split; [|split; [|split; [|split]]]]];
    vm_compute; reflexivity.
Qed.

(** ** The relative date *)

Lemma formatDate_missing (host : Date.Host) (now : Z) (v : Value.t) :
  Value.truthy v = false → formatDate host now v = js "Recently posted".
Proof. intros Hv. unfold formatDate. by rewrite Hv. Qed.

(** The labels of a date that parses, by its age in whole days. *)
Lemma formatDate_labels (host : Date.Host) (now : Z) (v : Value.t) (date : Z) :
  Value.truthy v = true → Date.ofValue host v = Some date →
  let age := (Z.abs (now - date) / Date.msPerDay)%Z in
  (age = 0%Z → formatDate host now v = js "Today")
  ∧ (age = 1%Z → formatDate host now v = js "Yesterday")
  ∧ ((2 ≤ age < 7)%Z → formatDate host now v = JsString.ofZ age ++ js " days ago")
  ∧ ((7 ≤ age < 30)%Z →
       formatDate host now v = JsString.ofZ (age / 7) ++ js " weeks ago")
  ∧ ((30 ≤ age < 365)%Z →
       formatDate host now v = JsString.ofZ (age / 30) ++ js " months ago")
  ∧ ((365 ≤ age)%Z → formatDate host now v = Date.toLocaleDateString host (Some date)).
Proof.
  intros Hv Hdate age. unfold formatDate. rewrite Hv, Hdate. cbn [negb].
  change (Z.abs (now - date) / (1000 * 60 * 60 * 24))%Z with age.
  split; [|split; [|split; [|split; [|split]]]]; intros Hage;
    repeat case_decide; (done || lia).
Qed.

(** C8: a text that is not empty and that the runtime cannot parse as
    a date is not labelled [Recently posted]: the label is the locale
    rendering of the invalid date. *)
Theorem formatDate_unparsable (host : Date.Host) (now : Z) (s : jsstring) :
  s ≠ [] → Date.parse host s = None →
  formatDate host now (VString s) = Date.toLocaleDateString host None.
Proof.
  intros Hs Hparse. unfold formatDate.
  destruct s as [|c s]; [done|]. cbn [Value.truthy negb Date.ofValue].
  by rewrite Hparse.
Qed.

(** The label of [next week] on a host whose parser reads ISO dates. *)
Lemma formatDate_unparsable_witness :
  formatDate Date.Utc.host Sample.now (VString (js "next week")) = js "Invalid Date"
  ∧ js "Invalid Date" ≠ js "Recently posted".
Proof.
  split.
  - rewrite formatDate_unparsable; [reflexivity|vm_compute; discriminate|reflexivity].
  - vm_compute. discriminate.
Defined.

(** ** The document without matches *)

(** C9: for a response without matches the full formatter and the
    table-only formatter return the same content under the same
    title, [Job Search Results - No Matches].  The content is the
    fixed explanatory document: the opening, then the remaining quota
    and the detected skills when there are any, the possible causes
    and the troubleshooting tips, the processing summary when the
    response has one, and the note on the coming feature with the
    footer.  It depends on the response through the skills and the
    processing summary only, and does not read the clock. *)
Theorem no_matches_same_document (host : Date.Host) (now : Z)
    (data : BackendData.t) (quota : option Z) :
  BackendData.matches data = [] →
  let full := formatMarkdownResponse host now data quota in
  let table := formatTableOnlyMarkdownResponse host now data quota in
  content table = content full
  ∧ artifact_title full = js "Job Search Results - No Matches"
  ∧ artifact_title table = js "Job Search Results - No Matches"
  ∧ content full
    = Described.noMatchesOpening
      ++ match quota with
         | Some remaining =>
             js "**API Requests Remaining:** " ++ JsString.ofZ remaining ++ nl ++ nl
         | None => []
         end
      ++ match BackendData.extracted_skills data with
         | [] => []
         | skills =>
             js "## 🌟 Skills Detected in Your Resume" ++ nl ++ nl
             ++ JsString.join (js ", ") skills ++ nl ++ nl
         end
      ++ Described.noMatchesAdvice
      ++ match BackendData.resume_processing data with
         | Some processing =>
             js "## 📊 Resume Processing Details" ++ nl ++ nl
             ++ js "**File:** "
             ++ Value.toString (ResumeProcessing.filename processing) ++ nl ++ nl
             ++ js "**Processing Method:** "
             ++ Value.toString (ResumeProcessing.parsing_method processing)
             ++ nl ++ nl
             ++ js "**Enhancement Used:** "
             ++ (if ResumeProcessing.enhancement_used processing
                 then js "✅ Enhanced" else js "⚠️ Standard") ++ nl ++ nl
             ++ match ResumeProcessing.original_length processing,
                      ResumeProcessing.enhanced_length processing with
                | Some original, Some enhanced =>
                    if negb (original =? 0)%Z && negb (enhanced =? 0)%Z
                    then js "**Original Length:** " ++ JsString.ofZ original
                         ++ js " characters" ++ nl ++ nl
                         ++ js "**Enhanced Length:** " ++ JsString.ofZ enhanced
                         ++ js " characters" ++ nl ++ nl
                    else []
                | _, _ => []
                end
         | None => []
         end
      ++ Described.noMatchesClosing.
Proof.
  intros Hnone. cbv zeta.
  unfold formatMarkdownResponse, formatTableOnlyMarkdownResponse.
  cbn [content artifact_title]. rewrite Hnone. cbn [length].
  rewrite !decide_True by done.
  split; [done|]. split; [done|]. split; [done|].
  unfold generateNoMatchesMarkdown, transformJobData, bothLengths.
  cbn [Transformed.meta Transformed.processing Meta.quota Meta.skills].
  unfold Described.noMatchesOpening, Described.noMatchesAdvice, Described.noMatchesClosing.
  destruct quota as [remaining|];
    destruct (BackendData.extracted_skills data) as [|skill skills];
    (destruct (BackendData.resume_processing data) as [processing|];
     [cbn [Processing.filename Processing.method Processing.enhanced
           Processing.originalLength Processing.enhancedLength];
      destruct (ResumeProcessing.original_length processing) as [original|];
      destruct (ResumeProcessing.enhanced_length processing) as [enhanced|];
      try destruct (negb (original =? 0)%Z && negb (enhanced =? 0)%Z)|]);
    cbn [concat];
    repeat match goal with
           | |- context [JsString.lit ?text] =>
               generalize (JsString.lit text); intro
           end;
    generalize nl; intro;
    rewrite <- ?app_assoc; rewrite ?app_nil_r; reflexivity.
Qed.

(** A response without matches, skills or processing summary, and a
    remaining quota of 9. *)
Lemma no_matches_same_document_witness :
  let data := Sample.response [] in
  let full := formatMarkdownResponse Date.Utc.host Sample.now data (Some 9%Z) in
  let table := formatTableOnlyMarkdownResponse Date.Utc.host Sample.now data (Some 9%Z) in
  content table = content full
  ∧ artifact_title full = js "Job Search Results - No Matches"
  ∧ artifact_title table = js "Job Search Results - No Matches"
  ∧ JsString.includes (content full) Described.noMatchesAdvice = true.
Proof.
  intros data full table.
  destruct (no_matches_same_document Date.Utc.host Sample.now data (Some 9%Z) eq_refl)
    as (Hsame & Hfull & Htable & _).
  split; [exact Hsame|]. split; [exact Hfull|]. split; [exact Htable|].
  vm_compute. reflexivity.
Defined.

End FormatterFacts.

(** ** The other methods of [RateLimiter] *)

Module LimiterMethodsFacts.

Import RateLimiter Described.
Local Open Scope Z_scope.

Lemma clean_twice (rl : t) (userData : UserData) (now later : Z) :
  now ≤ later →
  cleanOldRequests rl (cleanOldRequests rl userData now) later
  = cleanOldRequests rl userData later.
Proof.
  intros Hle. unfold cleanOldRequests. cbn [requests resetTime].
  assert (Hkept :
    filter (λ timestamp, later - windowSizeMs rl < timestamp)
      (filter (λ timestamp, now - windowSizeMs rl < timestamp) (requests userData))
    = filter (λ timestamp, later - windowSizeMs rl < timestamp) (requests userData)).
  { induction (requests userData) as [|r l IH]; [done|].
    destruct (decide (later - windowSizeMs rl < r)) as [Hr|Hr].
    - rewrite (filter_cons_True _ r l) by lia.
      rewrite filter_cons_True by done.
      rewrite filter_cons_True by done. by rewrite IH.
    - rewrite (filter_cons_False (λ timestamp, later - windowSizeMs rl < timestamp) r l)
        by done.
      destruct (decide (now - windowSizeMs rl < r)).
      + rewrite filter_cons_True by done. by rewrite filter_cons_False by done.
      + by rewrite filter_cons_False by done. }
  rewrite Hkept. f_equal.
  destruct (decide (length (filter (λ timestamp, later - windowSizeMs rl < timestamp)
                              (requests userData)) = 0%nat)) as [Hz|Hnz]; [done|].
  destruct (decide (length (filter (λ timestamp, now - windowSizeMs rl < timestamp)
                              (requests userData)) = 0%nat)) as [Hz'|]; [|done].
  exfalso. apply Hnz. rewrite <- Hkept.
  apply length_zero_iff_nil in Hz'. by rewrite Hz'.
Qed.

(** The result of [checkLimit], read off the pruned record of the
    session. *)
Lemma checkLimit_result (later : Z) (sid : jsstring) (rl : t) :
  (checkLimit later sid rl).1
  = let userData := cleanOldRequests rl (recordOf later sid rl) later in
    let count := Z.of_nat (length (requests userData)) in
    if decide (requestsPerMinute rl ≤ count)
    then mkResult false 0 (resetTime userData) count (requestsPerMinute rl)
    else mkResult true (requestsPerMinute rl - (count + 1))
           (later + windowSizeMs rl) (count + 1) (requestsPerMinute rl).
Proof.
  unfold checkLimit, getUserData, recordOf.
  destruct (users rl !! sid) as [userData|];
    cbn [default from_option fst snd requestsPerMinute windowSizeMs
         cleanOldRequests requests resetTime]; unfold id;
    case_decide; cbn [fst]; try done;
    rewrite length_app; cbn [length]; f_equal; lia.
Qed.

(** The result of [checkLimit] is a function of the two settings and
    of the pruned record of the session. *)
Lemma checkLimit_by_pruned_record (later : Z) (sid : jsstring) (rl1 rl2 : t) :
  requestsPerMinute rl1 = requestsPerMinute rl2 →
  windowSizeMs rl1 = windowSizeMs rl2 →
  cleanOldRequests rl1 (recordOf later sid rl1) later
  = cleanOldRequests rl2 (recordOf later sid rl2) later →
  (checkLimit later sid rl1).1 = (checkLimit later sid rl2).1.
Proof.
  intros HN HW Hrec. rewrite !checkLimit_result. cbv zeta.
  by rewrite Hrec, HN, HW.
Qed.

Lemma clean_empty (rl : t) (userData : UserData) (later : Z) :
  requests userData = [] →
  cleanOldRequests rl userData later = mkUserData [] (later + windowSizeMs rl).
Proof. intros Hnil. unfold cleanOldRequests. by rewrite Hnil. Qed.

(** Pruning depends on the limiter through its window only. *)
Lemma clean_window (rl1 rl2 : t) (userData : UserData) (later : Z) :
  windowSizeMs rl1 = windowSizeMs rl2 →
  cleanOldRequests rl1 userData later = cleanOldRequests rl2 userData later.
Proof. intros HW. unfold cleanOldRequests. by rewrite HW. Qed.

(** The time at which a record is created does not show after
    pruning. *)
Lemma clean_recordOf_any (rl : t) (sid : jsstring) (now later : Z) :
  cleanOldRequests rl (recordOf now sid rl) later
  = cleanOldRequests rl (recordOf later sid rl) later.
Proof.
  unfold recordOf. destruct (users rl !! sid); cbn [default from_option]; [done|].
  by rewrite !clean_empty.
Qed.

(** Pruning at [now] first does not change what pruning at a later
    time leaves of the record of a session. *)
Lemma clean_recordOf_pruned (rl : t) (sid : jsstring) (now later : Z) :
  now ≤ later →
  cleanOldRequests rl (cleanOldRequests rl (recordOf now sid rl) now) later
  = cleanOldRequests rl (recordOf later sid rl) later.
Proof.
  intros Hle. rewrite clean_twice by done. apply clean_recordOf_any.
Qed.

Lemma getUserData_users (now : Z) (sid other : jsstring) (rl : t) :
  users (getUserData now sid rl).2 !! other
  = if decide (sid = other)
    then Some (recordOf now sid rl) else users rl !! other.
Proof.
  unfold getUserData, recordOf.
  destruct (users rl !! sid) as [userData|] eqn:E; cbn [snd users default from_option].
  - case_decide; [by subst|done].
  - case_decide; [subst; by rewrite lookup_insert_eq|by rewrite lookup_insert_ne].
Qed.

Lemma getUserData_settings (now : Z) (sid : jsstring) (rl : t) :
  requestsPerMinute (getUserData now sid rl).2 = requestsPerMinute rl
  ∧ windowSizeMs (getUserData now sid rl).2 = windowSizeMs rl
  ∧ (getUserData now sid rl).1 = recordOf now sid rl.
Proof.
  unfold getUserData, recordOf. by destruct (users rl !! sid).
Qed.

Lemma recordOf_getUserData (now later : Z) (sid other : jsstring) (rl : t) :
  recordOf later other (getUserData now sid rl).2
  = if decide (sid = other) then recordOf now sid rl else recordOf later other rl.
Proof.
  unfold recordOf at 1. rewrite getUserData_users.
  destruct (getUserData_settings now sid rl) as (_ & -> & _).
  by case_decide.
Qed.

Lemma wouldAllow_state (now : Z) (sid : jsstring) (rl : t) :
  (wouldAllow now sid rl).2 = (getUserData now sid rl).2.
Proof. unfold wouldAllow. by destruct (getUserData now sid rl). Qed.

Lemma wouldAllow_result (now : Z) (sid : jsstring) (rl : t) :
  (wouldAllow now sid rl).1
  = let userData := cleanOldRequests rl (recordOf now sid rl) now in
    let count := Z.of_nat (length (requests userData)) in
    mkResult (bool_decide (count < requestsPerMinute rl))
      (Z.max 0 (requestsPerMinute rl - count)) (resetTime userData) count
      (requestsPerMinute rl).
Proof.
  unfold wouldAllow, getUserData, recordOf.
  by destruct (users rl !! sid).
Qed.

(** [wouldAllow] predicts [checkLimit]: at the same time and on the
    same limiter both give the same verdict; a denial is the same
    object from both, and where the call is allowed [wouldAllow]
    counts the requests before it and [checkLimit] after it.  It
    records nothing: the timestamps of every session stay as they
    were, and so does the result of any later [checkLimit]. *)
Theorem wouldAllow_predicts_checkLimit (now : Z) (sid : jsstring) (rl : t) :
  let would := (wouldAllow now sid rl).1 in
  let check := (checkLimit now sid rl).1 in
  allowed would = allowed check
  ∧ (allowed check = false → would = check)
  ∧ (allowed check = true →
       remaining would = remaining check + 1
       ∧ requestCount would + 1 = requestCount check)
  ∧ (∀ other, sessionRequests (wouldAllow now sid rl).2 other
              = sessionRequests rl other)
  ∧ (∀ later other,
       (checkLimit later other (wouldAllow now sid rl).2).1
       = (checkLimit later other rl).1).
Proof.
  cbv zeta. rewrite wouldAllow_result, checkLimit_result, wouldAllow_state.
  cbv zeta.
  set (count := Z.of_nat (length (requests
                 (cleanOldRequests rl (recordOf now sid rl) now)))).
  split; [|split; [|split; [|split]]].
  - case_decide; cbn [allowed];
      [by rewrite bool_decide_eq_false_2 by lia
      |by rewrite bool_decide_eq_true_2 by lia].
  - case_decide; cbn [allowed]; [intros _|done].
    rewrite bool_decide_eq_false_2 by lia. f_equal. lia.
  - case_decide; cbn [allowed remaining requestCount]; [done|intros _]. lia.
  - intros other. unfold sessionRequests. rewrite getUserData_users.
    case_decide as Heq; [subst other|done].
    unfold recordOf. by destruct (users rl !! sid).
  - intros later other.
    destruct (getUserData_settings now sid rl) as (HN & HW & _).
    apply checkLimit_by_pruned_record; [done..|].
    rewrite (clean_window _ rl) by done.
    rewrite recordOf_getUserData.
    case_decide as Heq; [subst other|done]. apply clean_recordOf_any.
Qed.

Lemma getStatus_state (now : Z) (sid : jsstring) (rl : t) :
  (getStatus now sid rl).2
  = store sid (cleanOldRequests rl (recordOf now sid rl) now)
      (getUserData now sid rl).2.
Proof.
  unfold getStatus, getUserData, recordOf.
  by destruct (users rl !! sid).
Qed.

Lemma recordOf_store (later : Z) (sid other : jsstring) (userData : UserData)
    (rl : t) :
  recordOf later other (store sid userData rl)
  = if decide (sid = other) then userData else recordOf later other rl.
Proof.
  unfold recordOf, store. cbn [users windowSizeMs].
  case_decide; [subst; by rewrite lookup_insert_eq|by rewrite lookup_insert_ne].
Qed.

Lemma recordOf_pruned_map (now later : Z) (sid : jsstring) (rl : t) :
  now ≤ later →
  cleanOldRequests rl
    (default (mkUserData [] (later + windowSizeMs rl))
       (((λ userData, cleanOldRequests rl userData now) <$> users rl) !! sid))
    later
  = cleanOldRequests rl (recordOf later sid rl) later.
Proof.
  intros Hle. rewrite lookup_fmap. unfold recordOf.
  destruct (users rl !! sid); cbn [fmap option_fmap option_map default from_option];
    [by apply clean_twice|done].
Qed.

(** The methods that prune while they read are not seen by the
    limiter: after [getStatus], [getStats] or [cleanup] at a time
    [now], a [checkLimit] at [now] or later gives every session the
    result that it would have given without them. *)
Theorem pruning_methods_keep_results (now later : Z) (sid other : jsstring)
    (rl : t) :
  now ≤ later →
  (checkLimit later other (getStatus now sid rl).2).1 = (checkLimit later other rl).1
  ∧ (checkLimit later other (getStats now rl).2).1 = (checkLimit later other rl).1
  ∧ (checkLimit later other (cleanup now rl)).1 = (checkLimit later other rl).1.
Proof.
  intros Hle. split; [|split].
  - destruct (getUserData_settings now sid rl) as (HN & HW & _).
    rewrite getStatus_state.
    apply checkLimit_by_pruned_record; [done..|].
    rewrite (clean_window _ rl) by done.
    rewrite recordOf_store, recordOf_getUserData.
    case_decide as Heq; [subst other|done].
    by apply clean_recordOf_pruned.
  - apply checkLimit_by_pruned_record; [done..|].
    rewrite (clean_window _ rl) by done.
    unfold getStats, recordOf at 1. cbn [snd users windowSizeMs].
    by apply recordOf_pruned_map.
  - apply checkLimit_by_pruned_record; [done..|].
    rewrite (clean_window _ rl) by done.
    rewrite <- (recordOf_pruned_map now later other rl Hle).
    unfold cleanup, recordOf at 1. cbn [users windowSizeMs].
    set (pruned := (λ userData, cleanOldRequests rl userData now) <$> users rl).
    set (keep := λ entry : jsstring * UserData,
                   ¬ (length (requests entry.2) = 0%nat ∧ resetTime entry.2 < now)).
    destruct (pruned !! other) as [userData|] eqn:E.
    + destruct (decide (keep (other, userData))) as [Hkeep|Hdrop].
      * by rewrite (map_lookup_filter_Some_2 keep pruned other userData E Hkeep).
      * rewrite (proj2 (map_lookup_filter_None keep pruned other)).
        2:{ right. intros x Hx. rewrite E in Hx. by injection Hx as <-. }
        cbn [default from_option].
        apply dec_stable in Hdrop as [Hnil _]. cbn [snd] in Hnil.
        apply length_zero_iff_nil in Hnil.
        by rewrite !clean_empty.
    + rewrite (proj2 (map_lookup_filter_None keep pruned other)) by by left.
      done.
Qed.

(** After three requests and a look at the status and the statistics
    and a clean-up, the fourth request of a limiter of three per
    minute is denied as it would have been. *)
Lemma pruning_methods_keep_results_witness :
  let sid := js "203.0.113.7" in
  let rl := (checkMany [0; 1000; 2000] sid (new 3 60000)).2 in
  (checkLimit 4000 sid (getStatus 3000 sid rl).2).1 = (checkLimit 4000 sid rl).1
  ∧ (checkLimit 4000 sid (getStats 3000 rl).2).1 = (checkLimit 4000 sid rl).1
  ∧ (checkLimit 4000 sid (cleanup 3000 rl)).1 = (checkLimit 4000 sid rl).1.
Proof.
  intros sid rl.
  apply (pruning_methods_keep_results 3000 4000 sid sid rl). lia.
Defined.

(** [cleanup] removes no session.  It deletes a record that has no
    request left and whose reset time lies before [now]; pruning has
    just set the reset time of such a record to [now] plus the
    window, so with a window that is not negative the test never
    holds: the map keeps every key, each with its pruned record. *)
Theorem cleanup_removes_nothing (now : Z) (rl : t) :
  0 ≤ windowSizeMs rl →
  users (cleanup now rl)
  = (λ userData, cleanOldRequests rl userData now) <$> users rl.
Proof.
  intros HW. unfold cleanup. cbn [users].
  apply map_filter_id. intros sid userData Hlookup [Hnil Hpast].
  rewrite lookup_fmap in Hlookup.
  destruct (users rl !! sid) as [stored|]; [|done].
  cbn [fmap option_fmap option_map] in Hlookup. injection Hlookup as <-.
  cbn [snd] in *. unfold cleanOldRequests in *. cbn [requests resetTime] in *.
  rewrite decide_True in Hpast by done. lia.
Qed.

(** A session whose one request is two windows old is still in the
    map after [cleanup]. *)
Lemma cleanup_removes_nothing_witness :
  let sid := js "203.0.113.7" in
  let rl := (checkLimit 0 sid (new 10 60000)).2 in
  users (cleanup 120000 rl) !! sid = Some (mkUserData [] 180000).
Proof.
  intros sid rl.
  rewrite (cleanup_removes_nothing 120000 rl); [|vm_compute; discriminate].
  vm_compute. reflexivity.
Defined.

(** [resetUser] gives the session a new quota and touches no other
    session; [resetAll] gives one to every session. *)
Theorem reset_gives_new_quota (now : Z) (sid : jsstring) (rl : t) :
  0 < requestsPerMinute rl →
  (checkLimit now sid (resetUser sid rl)).1
  = mkResult true (requestsPerMinute rl - 1) (now + windowSizeMs rl) 1
      (requestsPerMinute rl)
  ∧ (∀ other, other ≠ sid →
       users (resetUser sid rl) !! other = users rl !! other
       ∧ ∀ later, (checkLimit later other (resetUser sid rl)).1
                  = (checkLimit later other rl).1)
  ∧ (∀ any, (checkLimit now any (resetAll rl)).1
            = mkResult true (requestsPerMinute rl - 1) (now + windowSizeMs rl) 1
                (requestsPerMinute rl)).
Proof.
  intros HN.
  assert (Hfresh : ∀ rl' any,
    requestsPerMinute rl' = requestsPerMinute rl →
    windowSizeMs rl' = windowSizeMs rl →
    users rl' !! any = None →
    (checkLimit now any rl').1
    = mkResult true (requestsPerMinute rl - 1) (now + windowSizeMs rl) 1
        (requestsPerMinute rl)).
  { intros rl' any HN' HW' Hnone. rewrite checkLimit_result. cbv zeta.
    unfold recordOf. rewrite Hnone. cbn [default from_option].
    rewrite clean_empty by done. cbn [requests length].
    rewrite decide_False by lia. rewrite HN', HW'. f_equal. }
  assert (Hsettings : requestsPerMinute (resetUser sid rl) = requestsPerMinute rl
                      ∧ windowSizeMs (resetUser sid rl) = windowSizeMs rl).
  { unfold resetUser. by case_decide. }
  destruct Hsettings as [HN' HW'].
  split; [|split].
  - apply Hfresh; [done..|]. unfold resetUser.
    case_decide as Hsome; cbn [users]; [by rewrite lookup_delete_eq|].
    by apply eq_None_not_Some.
  - intros other Hne.
    assert (Hother : users (resetUser sid rl) !! other = users rl !! other).
    { unfold resetUser. case_decide; cbn [users]; [|done].
      by rewrite lookup_delete_ne. }
    split; [done|]. intros later.
    apply checkLimit_by_pruned_record; [done..|].
    rewrite (clean_window _ rl) by done.
    unfold recordOf. by rewrite Hother, HW'.
  - intros any. by apply Hfresh.
Qed.

(** A session that has used up its quota of three is allowed again
    right after [resetUser]. *)
Lemma reset_gives_new_quota_witness :
  let sid := js "203.0.113.7" in
  let rl := (checkMany [0; 1000; 2000] sid (new 3 60000)).2 in
  allowed (checkLimit 3000 sid rl).1 = false
  ∧ (checkLimit 3000 sid (resetUser sid rl)).1 = mkResult true 2 63000 1 3.
Proof.
  intros sid rl. split; [vm_compute; reflexivity|].
  apply (reset_gives_new_quota 3000 sid rl). vm_compute. reflexivity.
Defined.

(** The counters of [getStats]: the users at the limit are among the
    active ones, the active ones among all of them; every active user
    has at least one request in the window and every user at the
    limit at least as many as the limit allows. *)
Theorem getStats_counters (now : Z) (rl : t) :
  let stats := (getStats now rl).1 in
  totalUsers stats = Z.of_nat (size (users rl))
  ∧ 0 ≤ usersAtLimit stats ≤ activeUsers stats
  ∧ activeUsers stats ≤ totalUsers stats
  ∧ activeUsers stats ≤ totalRequests stats
  ∧ usersAtLimit stats * requestsPerMinute rl ≤ totalRequests stats
  ∧ configRequestsPerMinute stats = requestsPerMinute rl
  ∧ configWindowSizeMs stats = windowSizeMs rl.
Proof.
  cbv zeta. unfold getStats. cbn [fst].
  set (total := Z.of_nat (size (users rl))).
  pose (P := λ (stats : Stats) (m : gmap jsstring UserData),
    totalUsers stats = total
    ∧ 0 ≤ usersAtLimit stats ≤ activeUsers stats
    ∧ activeUsers stats ≤ Z.of_nat (size m)
    ∧ activeUsers stats ≤ totalRequests stats
    ∧ usersAtLimit stats * requestsPerMinute rl ≤ totalRequests stats
    ∧ configRequestsPerMinute stats = requestsPerMinute rl
    ∧ configWindowSizeMs stats = windowSizeMs rl).
  assert (HP : ∀ m,
    P (map_fold (λ _ userData stats, countUser rl now userData stats)
         (mkStats total 0 0 0 (requestsPerMinute rl) (windowSizeMs rl)) m) m).
  { apply (map_fold_weak_ind P).
    - unfold P. cbn. rewrite map_size_empty. lia.
    - intros sid userData m stats Hnone
        (Htotal & Hlimit & Hactive & Hrequests & Hfull & HcN & HcW).
      unfold P, countUser. rewrite map_size_insert_None by done.
      repeat case_decide;
        cbn [totalUsers activeUsers totalRequests usersAtLimit
             configRequestsPerMinute configWindowSizeMs];
        repeat split; try done; lia. }
  destruct (HP (users rl)) as (H1 & H2 & H3 & H4 & H5 & H6 & H7).
  fold total in H3. rewrite H1. repeat split; try done; lia.
Qed.

Lemma users_after_checkLimit (later : Z) (sid other : jsstring) (rl : t) :
  users (checkLimit later sid rl).2 !! other
  = if decide (sid = other)
    then
      let userData := cleanOldRequests rl (recordOf later sid rl) later in
      if decide (requestsPerMinute rl ≤ Z.of_nat (length (requests userData)))
      then Some userData
      else Some (mkUserData (requests userData ++ [later])
                   (later + windowSizeMs rl))
    else users rl !! other.
Proof.
  unfold checkLimit, getUserData, recordOf.
  destruct (users rl !! sid) as [userData|] eqn:E;
    cbn [default from_option fst snd requestsPerMinute windowSizeMs
         cleanOldRequests requests resetTime]; unfold id;
    repeat case_decide; cbn [snd store users]; subst;
    rewrite ?lookup_insert_eq, ?lookup_insert_ne by done; done.
Qed.

(** With a clock that does not run backwards the limiter keeps its
    records well timed: a new limiter has them so, and a [checkLimit]
    of any session at a time not before [now] leaves them so. *)
Theorem checkLimit_keeps_records_wellTimed :
  (∀ requestsPerMinute windowSizeMs sid now,
     wellTimed (new requestsPerMinute windowSizeMs) sid now)
  ∧ (∀ rl sid other now later,
       wellTimed rl sid now → now ≤ later →
       wellTimed (checkLimit later other rl).2 sid later).
Proof.
  split.
  - intros N W sid now. unfold wellTimed, new. cbn [users].
    by rewrite lookup_empty.
  - intros rl sid other now later Hwell Hle.
    unfold wellTimed in *. rewrite users_after_checkLimit.
    rewrite RateLimiterFacts.checkLimit_windowSizeMs.
    assert (Hstored : ∀ userData, users rl !! sid = Some userData →
      Forall (λ r, r ≤ later ∧ r + windowSizeMs rl ≤ resetTime userData)
             (requests userData)
      ∧ resetTime userData ≤ later + windowSizeMs rl).
    { intros userData E. rewrite E in Hwell. destruct Hwell as [Hall Hreset].
      split; [|lia]. eapply list.Forall_impl; [exact Hall|].
      cbv beta. intros r [? ?]. lia. }
    case_decide as Heq; [subst other|].
    2:{ destruct (users rl !! sid) as [userData|]; [|done]. by apply Hstored. }
    cbv zeta.
    assert (Hpruned :
      Forall (λ r, r ≤ later
                   ∧ r + windowSizeMs rl
                     ≤ resetTime (cleanOldRequests rl (recordOf later sid rl) later))
             (requests (cleanOldRequests rl (recordOf later sid rl) later))
      ∧ resetTime (cleanOldRequests rl (recordOf later sid rl) later)
        ≤ later + windowSizeMs rl).
    { unfold recordOf. destruct (users rl !! sid) as [userData|] eqn:E;
        cbn [default from_option].
      - destruct (Hstored userData eq_refl) as [Hall Hreset].
        unfold cleanOldRequests. cbn [requests resetTime].
        case_decide as Hnil.
        + apply length_zero_iff_nil in Hnil. rewrite Hnil. split; [constructor|lia].
        + split; [|done]. apply list.Forall_forall. intros r Hr.
          apply list_elem_of_filter in Hr as [_ Hr].
          by apply (proj1 (list.Forall_forall _ _) Hall).
      - rewrite clean_empty by done. cbn [requests resetTime].
        split; [constructor|lia]. }
    destruct Hpruned as [Hall Hreset].
    case_decide; [done|]. cbn [requests resetTime]. split; [|lia].
    apply list.Forall_app. split.
    + eapply list.Forall_impl; [exact Hall|]. cbv beta. intros r [? ?]. lia.
    + apply Forall_singleton. lia.
Qed.

Lemma checkMany_state (now : Z) (times : list Z) (sid : jsstring) (rl : t) :
  (checkMany (now :: times) sid rl).2
  = (checkMany times sid (checkLimit now sid rl).2).2.
Proof.
  cbn [checkMany]. destruct (checkLimit now sid rl) as [r rl1]. cbn [snd].
  by destruct (checkMany times sid rl1).
Qed.

(** The records of a limiter of three per minute after requests at
    0, 1000 and 2000 are well timed at 2000, and still so after a
    request at 3000. *)
Lemma checkLimit_keeps_records_wellTimed_witness :
  let sid := js "203.0.113.7" in
  let rl := (checkMany [0; 1000; 2000] sid (new 3 60000)).2 in
  wellTimed rl sid 2000 ∧ wellTimed (checkLimit 3000 sid rl).2 sid 3000.
Proof.
  intros sid rl.
  destruct checkLimit_keeps_records_wellTimed as [Hnew Hstep].
  assert (H2 : wellTimed rl sid 2000).
  { unfold rl. rewrite !checkMany_state. cbn [checkMany snd].
    apply (Hstep _ sid sid 1000 2000); [|lia].
    apply (Hstep _ sid sid 0 1000); [|lia].
    apply (Hstep _ sid sid 0 0); [apply Hnew|lia]. }
  split; [exact H2|].
  apply (Hstep _ sid sid 2000 3000); [exact H2|lia].
Defined.

Lemma getTimeUntilReset_value (now : Z) (sid : jsstring) (rl : t) :
  (getTimeUntilReset now sid rl).1
  = let userData := cleanOldRequests rl (recordOf now sid rl) now in
    if decide (Z.of_nat (length (requests userData)) < requestsPerMinute rl)
    then 0 else Z.max 0 (resetTime userData - now).
Proof.
  unfold getTimeUntilReset.
  pose proof (wouldAllow_result now sid rl) as Hresult.
  destruct (wouldAllow now sid rl) as [status rl']. cbn [fst] in *.
  rewrite Hresult. cbv zeta. cbn [allowed resultResetTime].
  case_decide; [by rewrite bool_decide_eq_true_2|by rewrite bool_decide_eq_false_2].
Qed.

Lemma getTimeUntilReset_state (now : Z) (sid : jsstring) (rl : t) :
  (getTimeUntilReset now sid rl).2 = (getUserData now sid rl).2.
Proof.
  unfold getTimeUntilReset. rewrite <- wouldAllow_state.
  by destruct (wouldAllow now sid rl).
Qed.

(** On well-timed records and with a limit of at least one,
    [getTimeUntilReset] is a time that is enough to wait: it is not
    negative and not longer than the window, and a [checkLimit] made
    that much later is allowed. *)
Theorem getTimeUntilReset_is_enough (now : Z) (sid : jsstring) (rl : t) :
  wellTimed rl sid now →
  0 < requestsPerMinute rl →
  let wait := (getTimeUntilReset now sid rl).1 in
  0 ≤ wait ≤ Z.max 0 (windowSizeMs rl)
  ∧ allowed (checkLimit (now + wait) sid (getTimeUntilReset now sid rl).2).1 = true.
Proof.
  intros Hwell HN. cbv zeta.
  rewrite getTimeUntilReset_value, getTimeUntilReset_state. cbv zeta.
  destruct (getUserData_settings now sid rl) as (HN' & HW' & _).
  assert (Hallowed : ∀ later,
    length (requests (cleanOldRequests rl (recordOf later sid rl) later)) = 0%nat →
    allowed (checkLimit later sid (getUserData now sid rl).2).1 = true).
  { intros later Hnone. rewrite checkLimit_result. cbv zeta.
    rewrite (clean_window _ rl) by done.
    rewrite recordOf_getUserData.
    destruct (decide (sid = sid)) as [_|]; [|done].
    rewrite (clean_recordOf_any rl sid now later), Hnone, HN'.
    by rewrite decide_False by (cbn; lia). }
  assert (Hnow : Z.of_nat (length (requests
                   (cleanOldRequests rl (recordOf now sid rl) now)))
                 < requestsPerMinute rl →
    allowed (checkLimit now sid (getUserData now sid rl).2).1 = true).
  { intros Hcount. rewrite checkLimit_result. cbv zeta.
    rewrite (clean_window _ rl) by done.
    rewrite recordOf_getUserData.
    destruct (decide (sid = sid)) as [_|]; [|done].
    rewrite HN'. by rewrite decide_False by lia. }
  assert (Hreset :
    resetTime (cleanOldRequests rl (recordOf now sid rl) now)
    ≤ now + windowSizeMs rl
    ∧ Forall (λ r, r + windowSizeMs rl
                   ≤ resetTime (cleanOldRequests rl (recordOf now sid rl) now)
                   ∨ length (requests
                       (cleanOldRequests rl (recordOf now sid rl) now)) = 0%nat)
        (requests (recordOf now sid rl))).
  { unfold wellTimed in Hwell. unfold recordOf.
    destruct (users rl !! sid) as [userData|]; cbn [default from_option].
    - destruct Hwell as [Hall Hreset].
      unfold cleanOldRequests. cbn [requests resetTime].
      case_decide as Hnil.
      + split; [lia|]. apply list.Forall_forall. intros r _. by right.
      + split; [done|]. eapply list.Forall_impl; [exact Hall|].
        cbv beta. intros r [_ Hr]. by left.
    - rewrite clean_empty by done. cbn [requests resetTime]. split; [lia|constructor]. }
  destruct Hreset as [Hreset Hall].
  case_decide as Hcount.
  - rewrite Z.add_0_r. split; [lia|]. by apply Hnow.
  - split; [lia|]. apply Hallowed.
    rewrite <- (clean_recordOf_any rl sid now). unfold cleanOldRequests at 1.
    cbn [requests]. apply length_zero_iff_nil.
    assert (Hsome : length (requests
              (cleanOldRequests rl (recordOf now sid rl) now)) ≠ 0%nat) by lia.
    induction Hall as [|r l Hr _ IH]; [done|].
    destruct Hr as [Hr|Hr]; [|done].
    rewrite filter_cons_False by lia. done.
Qed.

Lemma wellTimedb_spec (rl : t) (sid : jsstring) (now : Z) :
  wellTimedb rl sid now = true → wellTimed rl sid now.
Proof.
  unfold wellTimedb, wellTimed. destruct (users rl !! sid) as [userData|]; [|done].
  intros [Hall Hreset]%andb_true_iff. split; [|lia].
  rewrite forallb_forall in Hall. apply List.Forall_forall. intros r Hr.
  specialize (Hall r Hr). cbv beta in *. lia.
Qed.

(** After three requests at 0, 1000 and 2000 on a limiter of three
    per minute, the time to wait at 3000 is 59000 milliseconds, and
    the request made then is allowed. *)
Lemma getTimeUntilReset_is_enough_witness :
  let sid := js "203.0.113.7" in
  let rl := (checkMany [0; 1000; 2000] sid (new 3 60000)).2 in
  (getTimeUntilReset 3000 sid rl).1 = 59000
  ∧ allowed (checkLimit (3000 + (getTimeUntilReset 3000 sid rl).1) sid
               (getTimeUntilReset 3000 sid rl).2).1 = true.
Proof.
  intros sid rl. split; [vm_compute; reflexivity|].
  apply (getTimeUntilReset_is_enough 3000 sid rl).
  - apply wellTimedb_spec. vm_compute. reflexivity.
  - vm_compute. reflexivity.
Defined.

Lemma ceilDiv_bounds (a b : Z) :
  0 < b → b * (ceilDiv a b - 1) < a ≤ b * ceilDiv a b.
Proof.
  intros Hb. unfold ceilDiv.
  pose proof (Z.div_mod (- a) b ltac:(lia)) as Hdiv.
  pose proof (Z.mod_pos_bound (- a) b Hb) as Hmod. lia.
Qed.

(** With the window of one minute of the exported limiter and
    well-timed records, the formatted time is [Available now], a
    number of seconds from 1 to 59, or [1 minute]; it never names
    more than one minute. *)
Theorem getTimeUntilResetFormatted_texts (now : Z) (sid : jsstring) (rl : t) :
  wellTimed rl sid now →
  windowSizeMs rl = 60000 →
  (getTimeUntilResetFormatted now sid rl).1
  ∈ js "Available now" :: js "1 second" :: js "1 minute"
    :: map (λ seconds, JsString.ofZ seconds ++ js " seconds") (seqZ 2 58).
Proof.
  intros Hwell HW.
  assert (Hwait : 0 ≤ (getTimeUntilReset now sid rl).1 ≤ 60000).
  { rewrite getTimeUntilReset_value. cbv zeta.
    case_decide; [lia|].
    unfold wellTimed in Hwell. unfold recordOf.
    destruct (users rl !! sid) as [userData|]; cbn [default from_option].
    - destruct Hwell as [_ Hreset].
      unfold cleanOldRequests, id. cbn [requests resetTime]. case_decide; lia.
    - rewrite clean_empty by done. cbn [resetTime]. lia. }
  unfold getTimeUntilResetFormatted.
  destruct (getTimeUntilReset now sid rl) as [timeMs rl']. cbn [fst] in *.
  case_decide as Hzero; [by apply elem_of_cons; left|].
  pose proof (ceilDiv_bounds timeMs 1000 ltac:(lia)) as Hseconds.
  case_decide as Hshort.
  - case_decide as Hone.
    + rewrite Hone. apply elem_of_cons. right. apply elem_of_cons. by left.
    + do 3 (apply elem_of_cons; right).
      apply list_elem_of_fmap. exists (ceilDiv timeMs 1000). split; [done|].
      apply elem_of_seqZ. lia.
  - assert (Hsixty : ceilDiv timeMs 1000 = 60) by lia. rewrite Hsixty.
    do 2 (apply elem_of_cons; right). apply elem_of_cons. by left.
Qed.

(** The formatted time of the session above at 3000 is
    [59 seconds]. *)
Lemma getTimeUntilResetFormatted_texts_witness :
  let sid := js "203.0.113.7" in
  let rl := (checkMany [0; 1000; 2000] sid (new 3 60000)).2 in
  (getTimeUntilResetFormatted 3000 sid rl).1 = js "59 seconds"
  ∧ (getTimeUntilResetFormatted 3000 sid rl).1
    ∈ js "Available now" :: js "1 second" :: js "1 minute"
      :: map (λ seconds, JsString.ofZ seconds ++ js " seconds") (seqZ 2 58).
Proof.
  intros sid rl. split; [vm_compute; reflexivity|].
  apply (getTimeUntilResetFormatted_texts 3000 sid rl).
  - apply wellTimedb_spec. vm_compute. reflexivity.
  - vm_compute. reflexivity.
Defined.

End LimiterMethodsFacts.

(** ** Numbers in arguments *)

Module ParameterFacts.

Import Value Validator Described.
Local Open Scope Z_scope.

(** The decimal digits that [String] writes: a digit string that is
    not empty, has the value of the number and starts with [0] only
    for zero. *)
Lemma digitsFuel_spec (fuel : nat) : ∀ (n : N) (acc : jsstring),
  (n < 2 ^ N.of_nat fuel)%N → (0 < fuel)%nat →
  ∃ ds, JsString.digitsFuel fuel n acc = ds ++ acc
        ∧ ds ≠ []
        ∧ forallb JsString.isDigit ds = true
        ∧ JsString.digitsValue ds = Z.of_N n
        ∧ (n = 0%N → ds = [48%N])
        ∧ (n ≠ 0%N → head ds ≠ Some 48%N).
Proof.
  induction fuel as [|fuel IH]; intros n acc Hn Hfuel; [lia|].
  cbn [JsString.digitsFuel].
  destruct (n / 10 =? 0)%N eqn:Hsmall.
  - apply N.eqb_eq in Hsmall.
    assert (Hlt : (n < 10)%N) by (by apply N.div_small_iff).
    rewrite N.mod_small by done.
    exists [(48 + n)%N]. split; [done|]. split; [done|]. split; [|split; [|split]].
    + cbn. unfold JsString.isDigit.
      rewrite andb_true_r, andb_true_iff, !N.leb_le. lia.
    + unfold JsString.digitsValue. cbn. lia.
    + by intros ->.
    + intros Hnz [=]. lia.
  - apply N.eqb_neq in Hsmall.
    assert (Hfuel' : (0 < fuel)%nat).
    { destruct fuel; [|lia]. cbn in Hn.
      assert (n / 10 = 0)%N; [|done]. apply N.div_small. lia. }
    assert (Hdiv : (n / 10 < 2 ^ N.of_nat fuel)%N).
    { apply N.Div0.div_lt_upper_bound.
      replace (N.of_nat (S fuel)) with (N.succ (N.of_nat fuel)) in Hn by lia.
      rewrite N.pow_succ_r' in Hn.
      revert Hn. generalize (2 ^ N.of_nat fuel)%N. intros p Hn. lia. }
    destruct (IH (n / 10)%N ((48 + n mod 10)%N :: acc) Hdiv Hfuel')
      as (ds & -> & Hne & Hdigits & Hvalue & _ & Hhead).
    exists (ds ++ [(48 + n mod 10)%N]).
    pose proof (N.mod_upper_bound n 10 ltac:(lia)) as Hmod.
    split; [by rewrite <- app_assoc|]. split; [by destruct ds|].
    split; [|split; [|split]].
    + rewrite forallb_app, Hdigits. cbn. unfold JsString.isDigit.
      rewrite andb_true_r, andb_true_iff, !N.leb_le.
      revert Hmod. generalize (n mod 10)%N. intros m Hm. lia.
    + unfold JsString.digitsValue in *. rewrite fold_left_app, Hvalue. cbn.
      pose proof (N.div_mod n 10 ltac:(lia)) as Hdm.
      revert Hdm Hmod. generalize (n mod 10)%N, (n / 10)%N. intros m q Hdm Hm. lia.
    + intros ->. by rewrite N.Div0.div_0_l in Hsmall.
    + intros _. destruct ds as [|d ds]; [done|]. cbn. by apply Hhead.
Qed.

(** The text that [String] gives for an integer. *)
Lemma ofZ_spec (z : Z) :
  ∃ ds, JsString.ofZ z = (if (z <? 0) then [45%N] else []) ++ ds
        ∧ ds ≠ []
        ∧ forallb JsString.isDigit ds = true
        ∧ JsString.digitsValue ds = Z.abs z
        ∧ (z = 0 → ds = [48%N])
        ∧ (z ≠ 0 → head ds ≠ Some 48%N).
Proof.
  unfold JsString.ofZ.
  set (n := Z.to_N (Z.abs z)).
  destruct (digitsFuel_spec (S (N.to_nat (N.log2 n))) n [])
    as (ds & Heq & Hne & Hdigits & Hvalue & Hzero & Hhead).
  - replace (N.of_nat (S (N.to_nat (N.log2 n)))) with (N.succ (N.log2 n)) by lia.
    destruct (N.eq_dec n 0%N) as [->|Hn]; [done|].
    apply N.log2_spec. lia.
  - lia.
  - rewrite Heq, app_nil_r. exists ds.
    split; [by destruct (z <? 0)|]. split; [done|]. split; [done|].
    split; [unfold n in Hvalue; lia|]. split.
    + intros ->. by apply Hzero.
    + intros Hz. apply Hhead. unfold n. lia.
Qed.

Lemma isDigit_cases (d : N) :
  JsString.isDigit d = true →
  d = 48%N ∨ d = 49%N ∨ d = 50%N ∨ d = 51%N ∨ d = 52%N ∨ d = 53%N ∨ d = 54%N
  ∨ d = 55%N ∨ d = 56%N ∨ d = 57%N.
Proof.
  unfold JsString.isDigit. rewrite andb_true_iff, !N.leb_le. lia.
Qed.

(** [parseInt] reads a decimal number that [String] could have
    written, whatever follows it. *)
Lemma parseInt_digits (negative : bool) (ds rest : jsstring) :
  ds ≠ [] →
  forallb JsString.isDigit ds = true →
  (head ds = Some 48%N → ds = [48%N]) →
  endsNumber rest →
  JsString.parseInt ((if negative then [45%N] else []) ++ ds ++ rest)
  = Some (if negative then - JsString.digitsValue ds else JsString.digitsValue ds).
Proof.
  intros Hne Hdigits Hzero Hrest.
  assert (Htake : JsString.takeWhile JsString.isDigit (ds ++ rest) = ds).
  { apply ExtractionFacts.takeWhile_all; [done|].
    destruct rest as [|c rest]; [done|]. by destruct Hrest. }
  destruct ds as [|d ds]; [done|].
  cbn [forallb] in Hdigits. apply andb_true_iff in Hdigits as [Hd Hds].
  assert (Hdefault :
    (if decide (JsString.takeWhile JsString.isDigit (d :: ds ++ rest) = [])
     then None
     else Some (JsString.digitsValue
                  (JsString.takeWhile JsString.isDigit (d :: ds ++ rest))))
    = Some (JsString.digitsValue (d :: ds))).
  { change (d :: ds ++ rest) with ((d :: ds) ++ rest).
    rewrite Htake. by rewrite decide_False. }
  clear Htake.
  assert (Hstart : d = 48%N → ds = [] ∧ endsNumber rest).
  { intros ->. split; [|done]. specialize (Hzero eq_refl). by injection Hzero. }
  assert (Htrim : ∀ c l, JsString.isWhiteSpace c = false →
                  JsString.trimStart (c :: l) = c :: l).
  { intros c l Hc. unfold JsString.trimStart. cbn [JsString.dropWhile]. by rewrite Hc. }
  assert (Hspace : JsString.isWhiteSpace d = false).
  { destruct (isDigit_cases d Hd) as [->|Hd'];
      repeat (destruct Hd' as [->|Hd']); try subst d; reflexivity. }
  unfold JsString.parseInt.
  destruct negative; cbn [app]; rewrite Htrim by done.
  - (* a minus sign before the digits *)
    cbv beta iota zeta.
    destruct (isDigit_cases d Hd) as [->|Hd'].
    + destruct (Hstart eq_refl) as [-> Hend]. cbn [app] in *.
      destruct rest as [|c rest]; [vm_compute; reflexivity|].
      destruct Hend as (Hc & Hx & HX).
      destruct c as [|c]; [|do 7 (try destruct c as [c|c|])];
        try congruence; cbv beta iota zeta; rewrite Hdefault; reflexivity.
    + repeat (destruct Hd' as [->|Hd']); try subst d;
        cbv beta iota zeta; rewrite Hdefault; reflexivity.
  - destruct (isDigit_cases d Hd) as [->|Hd'].
    + destruct (Hstart eq_refl) as [-> Hend]. cbn [app] in *.
      destruct rest as [|c rest]; [vm_compute; reflexivity|].
      destruct Hend as (Hc & Hx & HX).
      destruct c as [|c]; [|do 7 (try destruct c as [c|c|])];
        try congruence; cbv beta iota zeta; rewrite Hdefault; reflexivity.
    + repeat (destruct Hd' as [->|Hd']); try subst d;
        cbv beta iota zeta; rewrite Hdefault; reflexivity.
Qed.

(** [parseInt(String(z) + rest)] is [z]. *)
Lemma parseInt_ofZ (z : Z) (rest : jsstring) :
  endsNumber rest → JsString.parseInt (JsString.ofZ z ++ rest) = Some z.
Proof.
  intros Hrest.
  destruct (ofZ_spec z) as (ds & -> & Hne & Hdigits & Hvalue & Hzero & Hhead).
  rewrite <- app_assoc.
  rewrite (parseInt_digits (z <? 0) ds rest Hne Hdigits); [|  |done].
  - f_equal. rewrite Hvalue. destruct (Z.ltb_spec z 0); lia.
  - intros H48. apply Hzero. destruct (decide (z = 0)) as [|Hz]; [done|].
    by apply Hhead in Hz.
Qed.

Lemma report_valid (errors : list jsstring) :
  valid (report errors) = bool_decide (errors = []).
Proof.
  unfold report. cbn [valid]. destruct errors; [done|].
  rewrite bool_decide_eq_false_2 by done. by rewrite bool_decide_eq_false_2.
Qed.

(** *** The text of a number *)













(** [validateUserExperience] takes strings only, a number is turned
    down; of a string it reads the leading integer [n] and accepts it
    exactly when [0 <= n <= 50]. *)
Theorem validateUserExperience_range (n : Z) (rest : jsstring) :
  endsNumber rest →
  valid (validateUserExperience (VString (JsString.ofZ n ++ rest)))
  = bool_decide (0 ≤ n ≤ 50)
  ∧ (∀ v, isString v = false →
       validateUserExperience v
       = mkValidation false [js "User experience must be a string"]).
Proof.
  intros Hrest. split.
  - unfold validateUserExperience, parseInt. cbn [toString].
    rewrite parseInt_ofZ by done. rewrite report_valid.
    repeat case_decide; apply bool_decide_ext; split; intros Hok;
      try done; lia.
  - by intros [| | | |].
Qed.

(** The texts [5 years] and [51], and the number 5. *)
Lemma validateUserExperience_range_witness :
  valid (validateUserExperience (VString (js "5 years"))) = true
  ∧ valid (validateUserExperience (VString (js "51"))) = false
  ∧ valid (validateUserExperience (VNumber 5)) = false.
Proof.
  split; [|split].
  - change (js "5 years") with (JsString.ofZ 5 ++ js " years").
    rewrite (proj1 (validateUserExperience_range 5 (js " years")
                      ltac:(vm_compute; repeat split; discriminate))).
    reflexivity.
  - change (js "51") with (JsString.ofZ 51 ++ []).
    by rewrite (proj1 (validateUserExperience_range 51 [] I)).
  - by rewrite (proj2 (validateUserExperience_range 0 [] I) (VNumber 5) eq_refl).
Defined.

(** *** Comma-separated lists *)

Lemma splitCharFrom_cur (sep : N) (s : jsstring) : ∀ cur,
  JsString.splitCharFrom sep cur s
  = (rev cur ++ default [] (head (JsString.splitChar sep s)))
    :: tail (JsString.splitChar sep s).
Proof.
  unfold JsString.splitChar.
  induction s as [|c s IH]; intros cur; cbn [JsString.splitCharFrom].
  - cbn. by rewrite app_nil_r.
  - destruct (c =? sep)%N.
    + cbn. by rewrite app_nil_r.
    + rewrite (IH (c :: cur)), (IH [c]). cbn. by rewrite <- !app_assoc.
Qed.

Lemma splitChar_no_sep (sep : N) (a : jsstring) :
  sep ∉ a → JsString.splitChar sep a = [a].
Proof.
  unfold JsString.splitChar.
  induction a as [|c a IH]; intros Hno; [done|].
  cbn [JsString.splitCharFrom].
  apply not_elem_of_cons in Hno as [Hc Ha].
  rewrite (proj2 (N.eqb_neq c sep)) by done.
  rewrite splitCharFrom_cur. unfold JsString.splitChar. by rewrite (IH Ha).
Qed.

Lemma splitChar_app (sep : N) (a b : jsstring) :
  sep ∉ a → JsString.splitChar sep (a ++ sep :: b) = a :: JsString.splitChar sep b.
Proof.
  unfold JsString.splitChar.
  induction a as [|c a IH]; intros Hno.
  - cbn [app JsString.splitCharFrom]. by rewrite N.eqb_refl.
  - apply not_elem_of_cons in Hno as [Hc Ha].
    cbn [app JsString.splitCharFrom].
    rewrite (proj2 (N.eqb_neq c sep)) by done.
    rewrite splitCharFrom_cur. unfold JsString.splitChar. by rewrite (IH Ha).
Qed.

Lemma splitChar_cons (sep c : N) (s : jsstring) :
  c ≠ sep →
  JsString.splitChar sep (c :: s)
  = (c :: default [] (head (JsString.splitChar sep s)))
    :: tail (JsString.splitChar sep s).
Proof.
  intros Hc. unfold JsString.splitChar at 1. cbn [JsString.splitCharFrom].
  rewrite (proj2 (N.eqb_neq c sep)) by done. by rewrite splitCharFrom_cur.
Qed.

(** The pieces of a list joined with a comma and a space. *)
Lemma splitChar_join (items : list jsstring) :
  Forall (λ item, (44%N ∉ item)) items →
  JsString.splitChar 44 (JsString.join [44%N; 32%N] items)
  = match items with
    | [] => [[]]
    | first :: others => first :: map (λ item, 32%N :: item) others
    end.
Proof.
  induction 1 as [|item others Hitem Hothers IH]; [done|].
  destruct others as [|next others].
  - cbn [JsString.join map]. by apply splitChar_no_sep.
  - change (JsString.join [44%N; 32%N] (item :: next :: others))
      with (item ++ 44%N :: 32%N :: JsString.join [44%N; 32%N] (next :: others)).
    rewrite splitChar_app by done. f_equal.
    rewrite splitChar_cons by done. rewrite IH. done.
Qed.

Lemma trim_after_space (item : jsstring) :
  JsString.trim (32%N :: item) = JsString.trim item.
Proof. reflexivity. Qed.

(** A list of clean items, written with a comma and a space between
    them, is read back item by item. *)
Lemma items_join (ks : list jsstring) :
  Forall cleanItem ks → items (JsString.join (js ", ") ks) = ks.
Proof.
  intros Hclean. change (js ", ") with [44%N; 32%N]. unfold items.
  rewrite splitChar_join.
  2:{ eapply list.Forall_impl; [exact Hclean|]. by intros k (_ & ? & _). }
  destruct Hclean as [|k ks (Hne & _ & Htrim) Hks]; [done|].
  cbn [map]. rewrite Htrim. rewrite filter_cons_True by (destruct k; [done|cbn; lia]).
  f_equal. induction Hks as [|k' ks' (Hne' & _ & Htrim') _ IH]; [done|].
  cbn [map]. rewrite trim_after_space, Htrim'.
  rewrite filter_cons_True by (destruct k'; [done|cbn; lia]). by rewrite IH.
Qed.

(** What a list validator with the limits [maxLength], [maxItems]
    reports nothing for. *)
Lemma list_errors_nil (s : jsstring) (maxLength : Z) (maxItems : nat)
    (tooLong none tooMany : jsstring) (short long : jsstring → jsstring) :
  (if decide (maxLength < len s) then [tooLong] else [])
  ++ (if decide (length (items s) = 0)%nat then [none]
      else if decide (maxItems < length (items s))%nat then [tooMany] else [])
  ++ flat_map (λ item,
       if decide (len item < 2) then [short item]
       else if decide (50 < len item) then [long item] else []) (items s)
  = []
  ↔ len s ≤ maxLength
    ∧ (1 ≤ length (items s) ≤ maxItems)%nat
    ∧ Forall (λ item, 2 ≤ len item ≤ 50) (items s).
Proof.
  split.
  - intros Hnil. apply app_eq_nil in Hnil as [H1 Hnil].
    apply app_eq_nil in Hnil as [H2 H3].
    split; [by destruct (decide (maxLength < len s)); [|lia]|].
    split.
    { destruct (decide (length (items s) = 0)%nat); [done|].
      destruct (decide (maxItems < length (items s))%nat); [done|]. lia. }
    clear H1 H2. induction (items s) as [|item rest IH]; [done|].
    cbn [flat_map] in H3. apply app_eq_nil in H3 as [Hitem Hrest].
    constructor; [|by apply IH].
    destruct (decide (len item < 2)); [done|].
    destruct (decide (50 < len item)); [done|]. lia.
  - intros (H1 & H2 & H3).
    rewrite decide_False by lia. rewrite decide_False by lia.
    rewrite decide_False by lia. cbn [app]. clear H1 H2.
    induction H3 as [|item rest Hitem _ IH]; [done|].
    cbn [flat_map]. rewrite decide_False by lia. rewrite decide_False by lia.
    done.
Qed.

(** [validateKeywords] and [validateLocation] on a list that a caller
    writes with a comma and a space between clean items: the items
    read are the ones written, and the list is valid exactly when the
    text is not longer than 500 (5000) characters, there are between
    1 and 50 (100) items, and every item has between 2 and 50
    characters. *)
Theorem comma_list_round_trip (ks : list jsstring) :
  Forall cleanItem ks →
  let text := JsString.join (js ", ") ks in
  items text = ks
  ∧ (valid (validateKeywords (VString text)) = true
     ↔ len text ≤ 500 ∧ (1 ≤ length ks ≤ 50)%nat
       ∧ Forall (λ k, 2 ≤ len k ≤ 50) ks)
  ∧ (valid (validateLocation (VString text)) = true
     ↔ len text ≤ 5000 ∧ (1 ≤ length ks ≤ 100)%nat
       ∧ Forall (λ k, 2 ≤ len k ≤ 50) ks).
Proof.
  intros Hclean text.
  pose proof (items_join ks Hclean) as Hitems. fold text in Hitems.
  split; [done|]. split.
  - unfold validateKeywords. rewrite report_valid, bool_decide_eq_true.
    cbv zeta. rewrite list_errors_nil. by rewrite Hitems.
  - unfold validateLocation. rewrite report_valid, bool_decide_eq_true.
    cbv zeta. rewrite list_errors_nil. by rewrite Hitems.
Qed.

(** Two keywords, and a list whose second item has one character. *)
Lemma comma_list_round_trip_witness :
  items (js "python, machine learning") = [js "python"; js "machine learning"]
  ∧ valid (validateKeywords (VString (js "python, machine learning"))) = true
  ∧ valid (validateLocation (VString (js "Berlin, X"))) = false.
Proof.
  assert (Hclean : ∀ k, bool_decide (k ≠ [] ∧ (44%N ∉ k) ∧ JsString.trim k = k) = true
                        → cleanItem k).
  { intros k Hk. by apply bool_decide_eq_true in Hk. }
  assert (Hwritten : js "python, machine learning"
                     = JsString.join (js ", ") [js "python"; js "machine learning"])
    by (vm_compute; reflexivity).
  assert (Hplaces : js "Berlin, X" = JsString.join (js ", ") [js "Berlin"; js "X"])
    by (vm_compute; reflexivity).
  rewrite Hwritten, Hplaces.
  destruct (comma_list_round_trip [js "python"; js "machine learning"])
    as (Hitems & Hkeywords & _).
  { repeat (constructor; [apply Hclean; vm_compute; reflexivity|]). constructor. }
  destruct (comma_list_round_trip [js "Berlin"; js "X"]) as (_ & _ & Hlocation).
  { repeat (constructor; [apply Hclean; vm_compute; reflexivity|]). constructor. }
  split; [exact Hitems|]. split.
  - apply Hkeywords.
    split; [vm_compute; discriminate|]. split; [cbn; lia|].
    repeat (constructor; [vm_compute; split; discriminate|]). constructor.
  - apply not_true_is_false. intros Hvalid.
    apply Hlocation in Hvalid as (_ & _ & Hall).
    apply list.Forall_cons in Hall as [_ Hall].
    apply list.Forall_cons in Hall as [[Hlen _] _]. vm_compute in Hlen. done.
Defined.

End ParameterFacts.

(** ** What reaches the backend *)

Module RequestFacts.

Import Value Validator Described.
Local Open Scope Z_scope.

Lemma errorsWhen_report (condition : bool) (errors : list jsstring) :
  errorsWhen condition (report errors) = if condition then errors else [].
Proof.
  unfold errorsWhen. destruct condition; [|done].
  rewrite ParameterFacts.report_valid. cbn [Validator.errors report].
  by case_bool_decide.
Qed.

(** The value that a form field takes from an optional argument. *)
Lemma field_cases (args : object) (key fallback : jsstring) :
  (provided (get args key) = false ∧ Backend.field args key fallback = fallback)
  ∨ (provided (get args key) = true
     ∧ ((∃ s, get args key = VString s ∧ s ≠ []
              ∧ Backend.field args key fallback = s)
        ∨ isString (get args key) = false)).
Proof.
  unfold Backend.field, provided, orElse.
  destruct (get args key) as [| |b|n|s]; cbn.
  - by left.
  - right. split; [done|]. by right.
  - right. split; [done|]. by right.
  - right. split; [done|]. by right.
  - destruct s as [|c s]; [by left|].
    right. split; [done|]. left. by exists (c :: s).
Qed.

Section WithDate.

Variable host : Date.Host.
Variable now : Z.

(** The parts of a successful validation. *)
Lemma validateInputs_valid_parts (args : object) :
  valid (validateInputs host now (Some args)) = true →
  errors (validateRequiredParameters args) = []
  ∧ errorsWhen (truthy (get args (js "resume_text")))
      (validateResumeText (get args (js "resume_text"))) = []
  ∧ errorsWhen (provided (get args (js "user_experience")))
      (validateUserExperience (get args (js "user_experience"))) = []
  ∧ errorsWhen (provided (get args (js "keywords")))
      (validateKeywords (get args (js "keywords"))) = []
  ∧ errorsWhen (provided (get args (js "location")))
      (validateLocation (get args (js "location"))) = []
  ∧ errorsWhen (provided (get args (js "start_date")))
      (validateDate host now (get args (js "start_date")) (js "start_date")) = []
  ∧ errorsWhen (provided (get args (js "end_date")))
      (validateDate host now (get args (js "end_date")) (js "end_date")) = []
  ∧ errorsWhen (negb (bool_decide (get args (js "page") = VUndefined)))
      (validatePage (get args (js "page"))) = []
  ∧ errorsWhen (provided (get args (js "sort_by")))
      (validateSortBy (get args (js "sort_by"))) = [].
Proof.
  unfold validateInputs. rewrite ParameterFacts.report_valid, bool_decide_eq_true.
  intros Hnil.
  apply app_eq_nil in Hnil as [Hrequired Hnil].
  apply app_eq_nil in Hnil as [Hresume Hoptional].
  unfold validateRequiredParameters in *. rewrite errorsWhen_report in Hrequired.
  unfold validateOptionalParameters in Hoptional. cbv zeta in Hoptional.
  rewrite errorsWhen_report in Hoptional.
  apply app_eq_nil in Hoptional as [Hexperience Hoptional].
  apply app_eq_nil in Hoptional as [Hkeywords Hoptional].
  apply app_eq_nil in Hoptional as [Hlocation Hoptional].
  apply app_eq_nil in Hoptional as [Hstart Hoptional].
  apply app_eq_nil in Hoptional as [Hend Hoptional].
  apply app_eq_nil in Hoptional as [_ Hoptional].
  apply app_eq_nil in Hoptional as [Hpage Hsort].
  cbn [Validator.errors report].
  exact (conj Hrequired (conj Hresume (conj Hexperience (conj Hkeywords
          (conj Hlocation (conj Hstart (conj Hend (conj Hpage Hsort)))))))).
Qed.

(** The form built from accepted arguments is well formed; the
    handlers of the three servers rely on this. *)
Lemma formData_wellFormed (args : object) :
  valid (validateInputs host now (Some args)) = true →
  wellFormed (Backend.formData args).
Proof.
  intros Hvalid.
  destruct (validateInputs_valid_parts args Hvalid)
    as (Hrequired & Hresume & Hexperience & Hkeywords & Hlocation & Hstart
        & Hend & Hpage & Hsort).
  unfold wellFormed, Backend.formData.
  cbn [Backend.file Backend.page Backend.sort_by Backend.start_date
       Backend.end_date Backend.user_experience Backend.keywords
       Backend.location].
  split; [|split; [|split; [|split; [|split; [|split; [|split]]]]]].
  - (* the resume *)
    unfold validateRequiredParameters in Hrequired. cbn [errors report] in Hrequired.
    destruct (get args (js "resume_text")) as [| |[|]|n|[|c text]];
      try (cbn in Hrequired; discriminate Hrequired).
    { cbn [truthy] in Hrequired.
      destruct (n =? 0); cbn in Hrequired; discriminate Hrequired. }
    clear Hrequired.
    replace (truthy (VString (c :: text))) with true in Hresume by done.
    unfold validateResumeText in Hresume. rewrite errorsWhen_report in Hresume.
    apply app_eq_nil in Hresume as [Hshort Hresume].
    apply app_eq_nil in Hresume as [Hlong _].
    cbn [toString].
    destruct (decide (len (c :: text) < CONFIG.MIN_RESUME_LENGTH)); [done|].
    destruct (decide (CONFIG.MAX_RESUME_LENGTH < len (c :: text))); [done|]. lia.
  - (* the page *)
    unfold orElse.
    destruct (decide (get args (js "page") = VUndefined)) as [->|Hgiven].
    { exists 1. split; [vm_compute; reflexivity|lia]. }
    rewrite bool_decide_eq_false_2 in Hpage by done. cbn [negb] in Hpage.
    unfold validatePage in Hpage. rewrite errorsWhen_report in Hpage.
    unfold parseInt in Hpage.
    destruct (JsString.parseInt (toString (get args (js "page")))) as [n|] eqn:Hn;
      [|done].
    destruct (decide (n < 1)); [done|]. destruct (decide (1000 < n)); [done|].
    assert (Htruthy : truthy (get args (js "page")) = true).
    { destruct (get args (js "page")) as [| |[|]|m|[|c s]];
        [done|vm_compute in Hn; discriminate|done|vm_compute in Hn; discriminate
        | |vm_compute in Hn; discriminate|done].
      cbn [truthy]. destruct (Z.eqb_spec m 0) as [->|]; [|done].
      vm_compute in Hn. injection Hn as <-. lia. }
    rewrite Htruthy. exists n. split; [done|lia].
  - (* the sort order *)
    destruct (field_cases args (js "sort_by") (js "similarity"))
      as [[_ ->]|[Hgiven [(s & Hs & _ & ->)|Hother]]].
    + vm_compute. apply elem_of_cons. by left.
    + rewrite Hgiven, Hs in Hsort. unfold validateSortBy in Hsort.
      rewrite errorsWhen_report in Hsort.
      by case_bool_decide.
    + rewrite Hgiven in Hsort. unfold validateSortBy in Hsort.
      by destruct (get args (js "sort_by")).
  - (* the start date *)
    destruct (field_cases args (js "start_date") [])
      as [[_ ->]|[Hgiven [(s & Hs & _ & ->)|Hother]]]; [by left| |].
    + right. rewrite Hgiven, Hs in Hstart. unfold validateDate in Hstart.
      by destruct (CONFIG.DATE_REGEX s).
    + rewrite Hgiven in Hstart. unfold validateDate in Hstart.
      by destruct (get args (js "start_date")).
  - (* the end date *)
    destruct (field_cases args (js "end_date") [])
      as [[_ ->]|[Hgiven [(s & Hs & _ & ->)|Hother]]]; [by left| |].
    + right. rewrite Hgiven, Hs in Hend. unfold validateDate in Hend.
      by destruct (CONFIG.DATE_REGEX s).
    + rewrite Hgiven in Hend. unfold validateDate in Hend.
      by destruct (get args (js "end_date")).
  - (* the experience *)
    destruct (field_cases args (js "user_experience") [])
      as [[_ ->]|[Hgiven [(s & Hs & _ & ->)|Hother]]]; [by left| |].
    + right. rewrite Hgiven, Hs in Hexperience.
      unfold validateUserExperience in Hexperience.
      rewrite errorsWhen_report in Hexperience.
      unfold parseInt in Hexperience. cbn [toString] in Hexperience.
      destruct (JsString.parseInt s) as [n|]; [|done].
      destruct (decide (n < 0)); [done|]. destruct (decide (50 < n)); [done|].
      exists n. split; [done|lia].
    + rewrite Hgiven in Hexperience. unfold validateUserExperience in Hexperience.
      by destruct (get args (js "user_experience")).
  - (* the keywords *)
    destruct (field_cases args (js "keywords") [])
      as [[_ ->]|[Hgiven [(s & Hs & _ & ->)|Hother]]]; [done| |].
    + rewrite Hgiven, Hs in Hkeywords. unfold validateKeywords in Hkeywords.
      rewrite errorsWhen_report in Hkeywords.
      apply app_eq_nil in Hkeywords as [Hlong _].
      destruct (decide (500 < len s)); [done|lia].
    + rewrite Hgiven in Hkeywords. unfold validateKeywords in Hkeywords.
      by destruct (get args (js "keywords")).
  - (* the locations *)
    destruct (field_cases args (js "location") [])
      as [[_ ->]|[Hgiven [(s & Hs & _ & ->)|Hother]]]; [done| |].
    + rewrite Hgiven, Hs in Hlocation. unfold validateLocation in Hlocation.
      rewrite errorsWhen_report in Hlocation.
      apply app_eq_nil in Hlocation as [Hlong _].
      destruct (decide (5000 < len s)); [done|lia].
    + rewrite Hgiven in Hlocation. unfold validateLocation in Hlocation.
      by destruct (get args (js "location")).
Qed.

(** The arguments that [validateInputs] accepts make a well-formed
    request: what [callBackendAPI] puts into the form for them is a
    resume within the length limits, a page from 1 to 1000 (1 when
    none is given), a sort order that is known (similarity when none
    is given), and optional fields that are empty or passed their
    checks. *)
Theorem valid_arguments_make_wellFormed_request (args : object) :
  valid (validateInputs host now (Some args)) = true →
  wellFormed (Backend.formData args).
Proof.
  intros Hvalid. exact (formData_wellFormed args Hvalid).
Qed.

End WithDate.

(** A call with a resume of 650 characters, page [2] as a text, the
    sort order written [Date] and two keywords. *)
Lemma valid_arguments_make_wellFormed_request_witness :
  let args : object :=
    [(js "resume_text", VString (concat (replicate 50 (js "worked on it "))));
     (js "page", VString (js "2"));
     (js "sort_by", VString (js "Date"));
     (js "keywords", VString (js "python, sql"))] in
  valid (validateInputs Date.Utc.host Sample.now (Some args)) = true
  ∧ wellFormed (Backend.formData args).
Proof.
  intros args.
  assert (Hvalid : valid (validateInputs Date.Utc.host Sample.now (Some args)) = true)
    by (vm_compute; reflexivity).
  split; [exact Hvalid|].
  exact (valid_arguments_make_wellFormed_request Date.Utc.host Sample.now args Hvalid).
Defined.

Section Servers.

Variable host : Date.Host.
Variable RATE_LIMIT_PER_MINUTE : Z.
Variable backend : Backend.Request → Backend.Reply.

(** A handler of the stdio server adds at most one request to those
    made so far, and a well-formed one. *)
Lemma handleCall_requests format (now : Z) (args : option object)
    (st : StdioServer.State) :
  Forall wellFormed (StdioServer.backendCalls st) →
  let st' := (StdioServer.handleCall host RATE_LIMIT_PER_MINUTE backend format
                now args st).2 in
  Forall wellFormed (StdioServer.backendCalls st')
  ∧ (length (StdioServer.backendCalls st')
     ≤ S (length (StdioServer.backendCalls st)))%nat.
Proof.
  intros Hsent. cbv zeta.
  destruct (HandlerFacts.handleCall_steps host RATE_LIMIT_PER_MINUTE backend
              format now args st) as (_ & Hdenied & Hinvalid & Hcalled).
  destruct (RateLimiter.allowed
              (RateLimiter.checkLimit now StdioServer.getSessionId
                 (StdioServer.rateLimiter st)).1) eqn:Hallowed.
  - destruct (valid (validateInputs host now args)) eqn:Hvalid.
    + rewrite (Hcalled eq_refl eq_refl). split; [|rewrite length_app; cbn; lia].
      apply list.Forall_app. split; [done|]. apply Forall_singleton.
      destruct args as [args|]; [|done].
      by apply (formData_wellFormed host now).
    + destruct (Hinvalid eq_refl eq_refl) as [_ ->]. split; [done|lia].
  - destruct (Hdenied eq_refl) as [_ ->]. split; [done|lia].
Qed.

(** On the stdio transport and on the two HTTP routes, whatever the
    tool name and the arguments, a call makes at most one request to
    the backend, and every request it makes is well formed: nothing
    that [validateInputs] would turn down is sent. *)
Theorem servers_send_wellFormed_requests (now : Z) (peer : option jsstring)
    (name : jsstring) (args : option object) (st : StdioServer.State) :
  Forall wellFormed (StdioServer.backendCalls st) →
  Forall (λ st' : StdioServer.State,
            Forall wellFormed (StdioServer.backendCalls st')
            ∧ (length (StdioServer.backendCalls st')
               ≤ S (length (StdioServer.backendCalls st)))%nat)
    [(StdioServer.callTool host RATE_LIMIT_PER_MINUTE backend now name args st).2;
     (HttpServer.toolsCall host RATE_LIMIT_PER_MINUTE backend now peer name args st).2;
     (HttpServer.restToolsCall host RATE_LIMIT_PER_MINUTE backend now peer name args
        st).2].
Proof.
  intros Hsent.
  assert (Hsame : Forall wellFormed (StdioServer.backendCalls st)
                  ∧ (length (StdioServer.backendCalls st)
                     ≤ S (length (StdioServer.backendCalls st)))%nat)
    by (split; [done|lia]).
  assert (Hhandler : ∀ format limiter,
    let st1 := StdioServer.mkState limiter (StdioServer.backendCalls st) in
    let st' := (StdioServer.handleCall host RATE_LIMIT_PER_MINUTE backend format
                  now args st1).2 in
    Forall wellFormed (StdioServer.backendCalls st')
    ∧ (length (StdioServer.backendCalls st')
       ≤ S (length (StdioServer.backendCalls st)))%nat).
  { intros format limiter.
    apply (handleCall_requests format now args
             (StdioServer.mkState limiter (StdioServer.backendCalls st))). done. }
  repeat apply list.Forall_cons_2; [| | |constructor].
  - unfold StdioServer.callTool, StdioServer.handleMatchResumeCall,
      StdioServer.handleMatchJobsToApplyCall.
    repeat case_decide; [| |done].
    + pose proof (handleCall_requests (Formatter.formatMarkdownResponse host)
                    now args st Hsent) as Hcall.
      by destruct (StdioServer.handleCall _ _ _ _ _ _ _).
    + pose proof (handleCall_requests (Formatter.formatTableOnlyMarkdownResponse host)
                    now args st Hsent) as Hcall.
      by destruct (StdioServer.handleCall _ _ _ _ _ _ _).
  - unfold HttpServer.toolsCall.
    destruct (Tools.read Tools.tools name); [| |done].
    all: destruct (Tools.validateToolParameters host name (default [] args))
      as [validation|]; [|done].
    all: destruct (valid validation); cbn [negb]; [|done].
    all: destruct (RateLimiter.checkLimit now (HttpServer.sessionOf peer)
                     (StdioServer.rateLimiter st)) as [result limiter].
    all: destruct (RateLimiter.allowed result); cbn [negb]; [|done].
    all: case_decide; [|done].
    all: unfold StdioServer.handleMatchResumeCall.
    all: pose proof (Hhandler (Formatter.formatMarkdownResponse host) limiter) as Hcall.
    all: cbv zeta in Hcall; by destruct (StdioServer.handleCall _ _ _ _ _ _ _).
  - unfold HttpServer.restToolsCall.
    destruct (Tools.read Tools.tools name); [| |done].
    all: destruct (Tools.validateToolParameters host name (default [] args))
      as [validation|]; [|done].
    all: destruct (valid validation); cbn [negb]; [|done].
    all: destruct (RateLimiter.checkLimit now (HttpServer.sessionOf peer)
                     (StdioServer.rateLimiter st)) as [result limiter].
    all: destruct (RateLimiter.allowed result); cbn [negb]; [|done].
    all: unfold StdioServer.handleMatchResumeCall.
    all: pose proof (Hhandler (Formatter.formatMarkdownResponse host) limiter) as Hcall.
    all: cbv zeta in Hcall; by destruct (StdioServer.handleCall _ _ _ _ _ _ _).
Qed.

End Servers.

(** The first call of each transport, with a resume of 650
    characters. *)
Lemma servers_send_wellFormed_requests_witness :
  let backend := λ _ : Backend.Request, Backend.Failed in
  let args : option object :=
    Some [(js "resume_text", VString (concat (replicate 50 (js "worked on it "))))] in
  Forall (λ st' : StdioServer.State,
            Forall wellFormed (StdioServer.backendCalls st')
            ∧ (length (StdioServer.backendCalls st') ≤ 1)%nat)
    [(StdioServer.callTool Date.Utc.host 10 backend 0 (js "match_resume") args
        StdioServer.initial).2;
     (HttpServer.toolsCall Date.Utc.host 10 backend 0 None (js "match_resume") args
        StdioServer.initial).2;
     (HttpServer.restToolsCall Date.Utc.host 10 backend 0 None (js "match_resume")
        args StdioServer.initial).2].
Proof.
  intros backend args.
  apply (servers_send_wellFormed_requests Date.Utc.host 10 backend 0 None
           (js "match_resume") args StdioServer.initial).
  constructor.
Defined.

Section Worker.

Variable host : Date.Host.
Variable RATE_LIMIT_PER_MINUTE : Value.t.
Variable backend : Backend.Request → Backend.Reply.

Lemma worker_handleCall_requests format (now : Z) (args : option object)
    (sessionId : jsstring) (token : option jsstring) (server : Worker.Server) :
  let requests :=
    (Worker.handleCall host RATE_LIMIT_PER_MINUTE backend format now args
       sessionId token server).2 in
  Forall wellFormed requests
  ∧ (length requests ≤ 1)%nat
  ∧ (token = None ∨ token = Some [] → requests = []).
Proof.
  cbv zeta. unfold Worker.handleCall.
  destruct (WorkersRateLimiter.checkLimit now sessionId (Worker.rateLimiter server))
    as [result limiter].
  destruct (WorkersRateLimiter.allowed result); cbn [negb];
    [|by split; [constructor|split; [cbn; lia|]]].
  destruct (valid (validateInputs host now args)) eqn:Hvalid; cbn [negb];
    [|by split; [constructor|split; [cbn; lia|]]].
  destruct args as [args|]; [|done].
  pose proof (formData_wellFormed host now args Hvalid) as Hform.
  unfold Worker.callBackendAPI. cbn [default from_option]. unfold id.
  destruct token as [[|c token]|]; cbv beta iota zeta.
  - cbn [snd]. split; [constructor|]. split; [cbn; lia|done].
  - destruct (backend (Backend.formData args)); cbn [snd];
      (split; [by apply Forall_singleton|]); (split; [cbn; lia|]);
      by intros [|].
  - cbn [snd]. split; [constructor|]. split; [cbn; lia|done].
Qed.

(** A [fetch] of the worker makes at most one request to the
    backend, a well-formed one, and none at all when the secret
    [API_AUTH_TOKEN] is missing or empty. *)
Theorem worker_sends_wellFormed_requests (now : Z) (headers : Worker.Headers)
    (request : Worker.Request) (token : option jsstring) :
  let requests :=
    (Worker.fetch host RATE_LIMIT_PER_MINUTE backend now headers request token).2 in
  Forall wellFormed requests
  ∧ (length requests ≤ 1)%nat
  ∧ (token = None ∨ token = Some [] → requests = []).
Proof.
  cbv zeta.
  assert (Hnone : Forall wellFormed [] ∧ (length (@nil Backend.Request) ≤ 1)%nat
                  ∧ (token = None ∨ token = Some [] → @nil Backend.Request = []))
    by (split; [constructor|split; [cbn; lia|done]]).
  unfold Worker.fetch. cbv zeta.
  destruct request as [name args|name args|]; [| |done].
  - destruct (Tools.read Tools.tools name); [| |done].
    all: destruct (Tools.validateToolParameters host name (default [] args))
      as [validation|]; [|done].
    all: destruct (valid validation); cbn [negb]; [|done].
    all: unfold Worker.handleMatchResumeCall, Worker.handleMatchJobsToApplyCall.
    all: repeat case_decide; [| |done].
    1,3: pose proof (worker_handleCall_requests
           (Formatter.formatMarkdownResponse host)
           now args (Worker.sessionOf headers) token
           (Worker.newServer RATE_LIMIT_PER_MINUTE)) as Hcall;
         cbv zeta in Hcall;
         by destruct (Worker.handleCall _ _ _ _ _ _ _ _ _) as [[? ?] ?].
    all: pose proof (worker_handleCall_requests
           (Formatter.formatTableOnlyMarkdownResponse host)
           now args (Worker.sessionOf headers) token
           (Worker.newServer RATE_LIMIT_PER_MINUTE)) as Hcall;
         cbv zeta in Hcall;
         by destruct (Worker.handleCall _ _ _ _ _ _ _ _ _) as [[? ?] ?].
  - destruct (Tools.read Tools.tools name); [| |done].
    all: destruct (Tools.validateToolParameters host name (default [] args))
      as [validation|]; [|done].
    all: destruct (valid validation); cbn [negb]; [|done].
    all: unfold Worker.handleMatchResumeCall, Worker.handleMatchJobsToApplyCall.
    all: repeat case_decide; [| |done].
    1,3: pose proof (worker_handleCall_requests
           (Formatter.formatMarkdownResponse host)
           now args (Worker.sessionOf headers) token
           (Worker.newServer RATE_LIMIT_PER_MINUTE)) as Hcall;
         cbv zeta in Hcall;
         by destruct (Worker.handleCall _ _ _ _ _ _ _ _ _) as [[? ?] ?].
    all: pose proof (worker_handleCall_requests
           (Formatter.formatTableOnlyMarkdownResponse host)
           now args (Worker.sessionOf headers) token
           (Worker.newServer RATE_LIMIT_PER_MINUTE)) as Hcall;
         cbv zeta in Hcall;
         by destruct (Worker.handleCall _ _ _ _ _ _ _ _ _) as [[? ?] ?].
Qed.

End Worker.

End RequestFacts.

(** ** The HTTP routes *)

Module HttpFacts.

Import Value Validator Formatter.
Local Open Scope Z_scope.

Lemma lookup_match_resume :
  Tools.read Tools.tools (js "match_resume") = Tools.Own Tools.inputSchema.
Proof. vm_compute. reflexivity. Qed.

Lemma lookup_match_jobs_to_apply :
  Tools.read Tools.tools (js "match_jobs_to_apply") = Tools.Own Tools.inputSchema.
Proof. vm_compute. reflexivity. Qed.

Lemma names_differ : js "match_jobs_to_apply" ≠ js "match_resume".
Proof. vm_compute. discriminate. Qed.

Section Http.

Variable host : Date.Host.
Variable RATE_LIMIT_PER_MINUTE : Z.
Variable backend : Backend.Request → Backend.Reply.

(** The schema check is the same for the two tools. *)
Lemma validateToolParameters_same (params : object) :
  Tools.validateToolParameters host (js "match_jobs_to_apply") params
  = Tools.validateToolParameters host (js "match_resume") params.
Proof.
  unfold Tools.validateToolParameters.
  rewrite lookup_match_resume, lookup_match_jobs_to_apply.
  replace (bool_decide (js "match_jobs_to_apply" = js "match_resume")
           || bool_decide (js "match_jobs_to_apply" = js "match_jobs_to_apply"))
    with true by (vm_compute; reflexivity).
  replace (bool_decide (js "match_resume" = js "match_resume")
           || bool_decide (js "match_resume" = js "match_jobs_to_apply"))
    with true by (vm_compute; reflexivity).
  reflexivity.
Qed.

(** On the HTTP routes a call is counted twice: once for the peer by
    the route, then once more, by the handler that the route calls,
    for the one session name of the stdio server.  All peers draw on
    that second quota: when it is used up, a peer whose own check
    passed gets the rate-limit document, on the REST route with
    status 200, and the backend is not called. *)
Theorem http_calls_share_one_quota (now : Z) (peer : option jsstring)
    (args : option object) (st : StdioServer.State)
    (validation : Validation) :
  Tools.validateToolParameters host (js "match_resume") (default [] args)
  = Tools.Normal validation →
  valid validation = true →
  let own :=
    RateLimiter.checkLimit now (HttpServer.sessionOf peer)
      (StdioServer.rateLimiter st) in
  let shared := RateLimiter.checkLimit now StdioServer.getSessionId own.2 in
  let rpc :=
    HttpServer.toolsCall host RATE_LIMIT_PER_MINUTE backend now peer
      (js "match_resume") args st in
  let rest :=
    HttpServer.restToolsCall host RATE_LIMIT_PER_MINUTE backend now peer
      (js "match_resume") args st in
  RateLimiter.allowed own.1 = true →
  StdioServer.rateLimiter rpc.2 = shared.2
  ∧ StdioServer.rateLimiter rest.2 = shared.2
  ∧ (RateLimiter.allowed shared.1 = false →
       rpc.1 = HttpServer.RpcResult
                 (StdioServer.formatRateLimitError host RATE_LIMIT_PER_MINUTE now
                    shared.1)
       ∧ rest.1 = HttpServer.Rest 200
                    (HttpServer.Result
                       (StdioServer.formatRateLimitError host RATE_LIMIT_PER_MINUTE
                          now shared.1)
                       (RateLimiter.remaining own.1))
       ∧ StdioServer.backendCalls rpc.2 = StdioServer.backendCalls st
       ∧ StdioServer.backendCalls rest.2 = StdioServer.backendCalls st).
Proof.
  intros Hschema Hvalid. cbv zeta. intros Hown.
  unfold HttpServer.toolsCall, HttpServer.restToolsCall.
  rewrite lookup_match_resume, Hschema, Hvalid. cbn [negb].
  destruct (RateLimiter.checkLimit now (HttpServer.sessionOf peer)
              (StdioServer.rateLimiter st)) as [result limiter].
  cbn [fst snd] in *. rewrite Hown. cbn [negb].
  rewrite decide_True by done.
  unfold StdioServer.handleMatchResumeCall.
  destruct (HandlerFacts.handleCall_steps host RATE_LIMIT_PER_MINUTE backend
              (formatMarkdownResponse host) now args
              (StdioServer.mkState limiter (StdioServer.backendCalls st)))
    as (Hlimiter & Hdenied & _).
  cbn [StdioServer.rateLimiter StdioServer.backendCalls] in *.
  destruct (StdioServer.handleCall _ _ _ _ _ _ _) as [document st'].
  cbn [fst snd] in *.
  split; [done|]. split; [done|]. intros Hshared.
  destruct (Hdenied Hshared) as [-> ->]. done.
Qed.

(** [POST /] does not run [match_jobs_to_apply]: the call never
    reaches the backend, and the one document that it can return is
    the rate-limit document.  [POST /mcp/tools/call] runs the handler
    of [match_resume] for either tool: the reply to
    [match_jobs_to_apply] has the status, the document and the
    remaining quota of the reply to [match_resume], and leaves the
    same state. *)
Theorem http_routes_for_match_jobs_to_apply (now : Z) (peer : option jsstring)
    (args : option object) (st : StdioServer.State) :
  let rpc :=
    HttpServer.toolsCall host RATE_LIMIT_PER_MINUTE backend now peer
      (js "match_jobs_to_apply") args st in
  StdioServer.backendCalls rpc.2 = StdioServer.backendCalls st
  ∧ (∀ result, rpc.1 = HttpServer.RpcResult result →
               artifact_title result = js "Rate Limit Exceeded")
  ∧ HttpServer.restToolsCall host RATE_LIMIT_PER_MINUTE backend now peer
      (js "match_jobs_to_apply") args st
    = HttpServer.restToolsCall host RATE_LIMIT_PER_MINUTE backend now peer
        (js "match_resume") args st.
Proof.
  cbv zeta. split; [|split].
  - unfold HttpServer.toolsCall. rewrite lookup_match_jobs_to_apply.
    destruct (Tools.validateToolParameters _ _ _) as [validation|]; [|done].
    destruct (valid validation); cbn [negb]; [|done].
    destruct (RateLimiter.checkLimit _ _ _) as [result limiter].
    destruct (RateLimiter.allowed result); cbn [negb]; [|done].
    by rewrite decide_False by apply names_differ.
  - intros document. unfold HttpServer.toolsCall. rewrite lookup_match_jobs_to_apply.
    destruct (Tools.validateToolParameters _ _ _) as [validation|]; [|done].
    destruct (valid validation); cbn [negb]; [|done].
    destruct (RateLimiter.checkLimit _ _ _) as [result limiter].
    destruct (RateLimiter.allowed result); cbn [negb].
    + by rewrite decide_False by apply names_differ.
    + cbn [fst]. by intros [= <-].
  - unfold HttpServer.restToolsCall.
    by rewrite lookup_match_resume, lookup_match_jobs_to_apply,
         validateToolParameters_same.
Qed.

End Http.

(** Ten peers make one call each, a second apart; the call of an
    eleventh peer, its first, is answered with the rate-limit
    document, and it is counted against that peer all the same. *)
Lemma http_calls_share_one_quota_witness :
  let backend := λ _ : Backend.Request, Backend.Failed in
  let args : option object :=
    Some [(js "resume_text", VString (concat (replicate 50 (js "worked on it "))))] in
  let call := λ (st : StdioServer.State) (k : Z),
    (HttpServer.toolsCall Date.Utc.host 10 backend (1000 * k)
       (Some (js "198.51.100." ++ JsString.ofZ k)) (js "match_resume") args st).2 in
  let st := fold_left call (seqZ 1 10) StdioServer.initial in
  let out :=
    HttpServer.toolsCall Date.Utc.host 10 backend 11000 (Some (js "203.0.113.7"))
      (js "match_resume") args st in
  out.1 = HttpServer.RpcResult
            (StdioServer.formatRateLimitError Date.Utc.host 10 11000
               (RateLimiter.mkResult false 0 70000 10 10))
  ∧ RateLimiter.sessionRequests (StdioServer.rateLimiter out.2) (js "203.0.113.7")
    = [11000].
Proof.
  intros backend args call st out.
  destruct (http_calls_share_one_quota Date.Utc.host 10 backend 11000
              (Some (js "203.0.113.7")) args st (mkValidation true []))
    as (Hlimiter & _ & Hdenied).
  - vm_compute. reflexivity.
  - reflexivity.
  - vm_compute. reflexivity.
  - destruct Hdenied as (Hreply & _); [vm_compute; reflexivity|].
    split.
    + unfold out. rewrite Hreply. vm_compute. reflexivity.
    + unfold out. rewrite Hlimiter. vm_compute. reflexivity.
Defined.

(** A call with a parameter that the schema does not know leaves the
    state of the HTTP server as it was. *)
Lemma http_schema_check_precedes_limiter_witness :
  let backend := λ _ : Backend.Request, Backend.Failed in
  let args : option object :=
    Some [(js "resume_text", VString (js "short")); (js "page", VNumber 2)] in
  Tools.validateToolParameters Date.Utc.host (js "match_resume") (default [] args)
  = Tools.Normal (mkValidation false [js "Unknown parameter: page"])
  ∧ (HttpServer.toolsCall Date.Utc.host 10 backend 0 None (js "match_resume") args
       StdioServer.initial).2 = StdioServer.initial
  ∧ (HttpServer.restToolsCall Date.Utc.host 10 backend 0 None (js "match_resume") args
       StdioServer.initial).2 = StdioServer.initial.
Proof.
  intros backend args.
  assert (Hschema :
    Tools.validateToolParameters Date.Utc.host (js "match_resume") (default [] args)
    = Tools.Normal (mkValidation false [js "Unknown parameter: page"]))
    by (vm_compute; reflexivity).
  split; [exact Hschema|].
  exact (HandlerFacts.http_schema_check_precedes_limiter Date.Utc.host 10 backend 0
           None (js "match_resume") args StdioServer.initial _ Hschema eq_refl).
Defined.

(** A worker limiter of two per minute that holds requests at 0 and
    1000 denies the one at 2000 and names 60000, a minute after the
    older of the two. *)
Lemma workers_denial_resetTime_witness :
  let sid := js "203.0.113.7" in
  let limiter := WorkersRateLimiter.mk 2 {[ sid := [0; 1000] ]} in
  WorkersRateLimiter.resetTime (WorkersRateLimiter.checkLimit 2000 sid limiter).1
  = WorkersRateLimiter.Finite 60000.
Proof.
  intros sid limiter.
  destruct (WorkersRateLimiterFacts.workers_denial_resetTime 2000 sid limiter)
    as (oldest & Hin & Hleast & Hreset).
  - vm_compute. reflexivity.
  - vm_compute. reflexivity.
  - vm_compute. reflexivity.
Defined.

End HttpFacts.

(** ** What the transformer extracts *)

Module TransformFacts.

Import Value Formatter Described.

(** *** Trimming *)

Lemma dropWhile_stops (p : N → bool) (s : jsstring) :
  match JsString.dropWhile p s with
  | [] => True
  | c :: _ => p c = false
  end.
Proof.
  induction s as [|c s IH]; [done|]. cbn [JsString.dropWhile].
  destruct (p c) eqn:E; [done|]. done.
Qed.

Lemma dropWhile_id (p : N → bool) (s : jsstring) :
  match s with [] => True | c :: _ => p c = false end →
  JsString.dropWhile p s = s.
Proof. destruct s as [|c s]; [done|]. cbn. by intros ->. Qed.

Lemma dropWhile_keeps_last (p : N → bool) (s : jsstring) (c : N) :
  p c = false → ∃ s', JsString.dropWhile p (s ++ [c]) = s' ++ [c].
Proof.
  intros Hc. induction s as [|d s IH].
  - exists []. cbn. by rewrite Hc.
  - cbn [app JsString.dropWhile]. destruct (p d); [done|]. by exists (d :: s).
Qed.

(** A trimmed text is left alone by [trim]. *)
Lemma trim_trim (s : jsstring) : JsString.trim (JsString.trim s) = JsString.trim s.
Proof.
  unfold JsString.trim, JsString.trimEnd, JsString.trimStart.
  set (body := JsString.dropWhile JsString.isWhiteSpace s).
  pose proof (dropWhile_stops JsString.isWhiteSpace s) as Hhead. fold body in Hhead.
  set (back := JsString.dropWhile JsString.isWhiteSpace (rev body)).
  pose proof (dropWhile_stops JsString.isWhiteSpace (rev body)) as Hlast.
  fold back in Hlast.
  assert (Hfront : JsString.dropWhile JsString.isWhiteSpace (rev back) = rev back).
  { apply dropWhile_id. destruct body as [|c body]; [done|].
    unfold back. cbn [rev].
    destruct (dropWhile_keeps_last JsString.isWhiteSpace (rev body) c Hhead)
      as [s' ->].
    rewrite rev_app_distr. done. }
  rewrite Hfront, rev_involutive.
  by rewrite (dropWhile_id _ back).
Qed.

Lemma dropWhile_chars (p : N → bool) (s : jsstring) (c : N) :
  c ∈ JsString.dropWhile p s → c ∈ s.
Proof.
  induction s as [|d s IH]; [done|]. cbn [JsString.dropWhile].
  destruct (p d); [|done]. intros Hc. apply elem_of_cons. right. by apply IH.
Qed.

Lemma rev_chars (s : jsstring) (c : N) : c ∈ rev s ↔ c ∈ s.
Proof. rewrite !list_elem_of_In. symmetry. apply in_rev. Qed.

(** [trim] adds no character. *)
Lemma trim_chars (s : jsstring) (c : N) : c ∈ JsString.trim s → c ∈ s.
Proof.
  unfold JsString.trim, JsString.trimEnd, JsString.trimStart. intros Hc.
  apply rev_chars, dropWhile_chars, rev_chars, dropWhile_chars in Hc. done.
Qed.

(** *** Splitting *)

Lemma splitCharFrom_pieces (sep : N) (s : jsstring) : ∀ cur,
  sep ∉ cur →
  Forall (λ piece, (sep ∉ piece) ∧ ∀ c, c ∈ piece → c ∈ cur ∨ c ∈ s)
         (JsString.splitCharFrom sep cur s).
Proof.
  induction s as [|d s IH]; intros cur Hcur; cbn [JsString.splitCharFrom].
  - apply Forall_singleton. split; [by rewrite rev_chars|].
    intros c Hc. left. by apply rev_chars.
  - destruct (N.eqb_spec d sep) as [->|Hd].
    + apply list.Forall_cons. split.
      * split; [by rewrite rev_chars|]. intros c Hc. left. by apply rev_chars.
      * eapply list.Forall_impl; [apply (IH []); by apply not_elem_of_nil|].
        cbv beta. intros piece [Hsep Hin]. split; [done|].
        intros c Hc. right. apply elem_of_cons. right.
        destruct (Hin c Hc) as [Hnil|]; [by apply elem_of_nil in Hnil|done].
    + eapply list.Forall_impl; [apply (IH (d :: cur))|].
      * apply not_elem_of_cons. split; [congruence|done].
      * cbv beta. intros piece [Hsep Hin]. split; [done|].
        intros c Hc. destruct (Hin c Hc) as [Hcur'|Hs].
        -- apply elem_of_cons in Hcur' as [->|Hcur'];
             [right; apply elem_of_cons; by left|by left].
        -- right. apply elem_of_cons. by right.
Qed.

(** The pieces of [split] do not hold the separator, and hold
    characters of the text only. *)
Lemma splitChar_pieces (sep : N) (s : jsstring) :
  Forall (λ piece, (sep ∉ piece) ∧ ∀ c, c ∈ piece → c ∈ s)
         (JsString.splitChar sep s).
Proof.
  eapply list.Forall_impl; [apply (splitCharFrom_pieces sep s []), not_elem_of_nil|].
  cbv beta. intros piece [Hsep Hin]. split; [done|].
  intros c Hc. destruct (Hin c Hc) as [Hnil|]; [by apply elem_of_nil in Hnil|done].
Qed.

(** *** The captured line *)

Lemma takeWhile_class (p : N → bool) (s : jsstring) :
  forallb p (JsString.takeWhile p s) = true.
Proof.
  induction s as [|c s IH]; [done|]. cbn [JsString.takeWhile].
  destruct (p c) eqn:E; [|done]. cbn. by rewrite E, IH.
Qed.

Lemma captureFrom_class (inClass : N → bool) (rest : jsstring) : ∀ k line,
  captureFrom inClass k rest = Some line → forallb inClass line = true.
Proof.
  induction k as [|k IH]; intros line; cbn [captureFrom];
    destruct (drop _ rest) as [|c tail].
  - done.
  - destruct (inClass c); [|done]. intros [= <-].
    exact (takeWhile_class inClass (c :: tail)).
  - apply IH.
  - destruct (inClass c); [|apply IH]. intros [= <-].
    exact (takeWhile_class inClass (c :: tail)).
Qed.

Lemma firstCapture_class (label : jsstring) (inClass : N → bool) (s : jsstring) :
  ∀ line, firstCapture label inClass s = Some line → forallb inClass line = true.
Proof.
  assert (Hat : ∀ s line, captureAt label inClass s = Some line →
                          forallb inClass line = true).
  { intros s' line. unfold captureAt. destruct (startsWith true label s'); [|done].
    apply captureFrom_class. }
  induction s as [|c s IH]; intros line; cbn [firstCapture].
  - destruct (captureAt label inClass []) as [group|] eqn:E; [|done].
    intros [= <-]. by apply (Hat [] group).
  - destruct (captureAt label inClass (c :: s)) as [group|] eqn:E; [|apply IH].
    intros [= <-]. by apply (Hat (c :: s) group).
Qed.

(** Every skill that [extractRequiredSkills] returns, whatever the
    text, is a clean item: it is not empty, has no comma and no
    whitespace at either end; it is shorter than 50 characters and
    has no line feed. *)
Theorem extractRequiredSkills_items (chunk : jsstring) :
  Forall (λ skill, cleanItem skill ∧ length skill < 50 ∧ (10%N ∉ skill))
         (extractRequiredSkills chunk).
Proof.
  unfold extractRequiredSkills. case_decide; [constructor|].
  destruct (firstCapture _ _ chunk) as [line|] eqn:Hline; [|constructor].
  apply firstCapture_class in Hline. rewrite forallb_forall in Hline.
  apply list.Forall_forall. intros skill Hskill.
  apply list_elem_of_filter in Hskill as [[Hpos Hshort] Hskill].
  apply list_elem_of_fmap in Hskill as (piece & -> & Hpiece).
  pose proof (proj1 (list.Forall_forall _ _) (splitChar_pieces 44 line) piece Hpiece)
    as [Hcomma Hchars].
  split; [split; [|split]|split].
  - intros Hnil. rewrite Hnil in Hpos. cbn in Hpos. lia.
  - intros Hc. by apply trim_chars in Hc.
  - apply trim_trim.
  - done.
  - intros Hc. apply trim_chars, Hchars, list_elem_of_In, Hline in Hc. done.
Qed.

Lemma splitRunsFrom_pieces (inClass : N → bool) (s : jsstring) : ∀ cur inRun,
  Forall (λ c, inClass c = false) cur →
  Forall (λ piece, Forall (λ c, inClass c = false ∧ (c ∈ cur ∨ c ∈ s)) piece)
         (JsString.splitRunsFrom inClass cur inRun s).
Proof.
  induction s as [|d s IH]; intros cur inRun Hcur; cbn [JsString.splitRunsFrom].
  - apply Forall_singleton. apply list.Forall_forall. intros c Hc.
    rewrite rev_chars in Hc. split; [|by left].
    exact (proj1 (list.Forall_forall _ _) Hcur c Hc).
  - assert (Hrev : Forall (λ c, inClass c = false ∧ (c ∈ cur ∨ c ∈ d :: s)) (rev cur)).
    { apply list.Forall_forall. intros c Hc. rewrite rev_chars in Hc.
      split; [|by left]. exact (proj1 (list.Forall_forall _ _) Hcur c Hc). }
    assert (Hnext : Forall
      (λ piece, Forall (λ c, inClass c = false ∧ (c ∈ cur ∨ c ∈ d :: s)) piece)
      (JsString.splitRunsFrom inClass [] true s)).
    { eapply list.Forall_impl; [apply (IH [] true); constructor|].
      cbv beta. intros piece Hpiece. eapply list.Forall_impl; [exact Hpiece|].
      cbv beta. intros c [Hc [Hnil|Hs]]; [by apply elem_of_nil in Hnil|].
      split; [done|]. right. apply elem_of_cons. by right. }
    destruct (inClass d) eqn:Hd.
    + destruct inRun; [exact Hnext|]. apply list.Forall_cons. by split.
    + eapply list.Forall_impl; [apply (IH (d :: cur) false)|].
      * by apply list.Forall_cons.
      * cbv beta. intros piece Hpiece. eapply list.Forall_impl; [exact Hpiece|].
        cbv beta. intros c [Hc [Hcur'|Hs]]; (split; [done|]).
        -- apply elem_of_cons in Hcur' as [->|Hcur'];
             [right; apply elem_of_cons; by left|by left].
        -- right. apply elem_of_cons. by right.
Qed.

(** The pieces between the runs of a class hold no character of the
    class, and hold characters of the text only. *)
Lemma splitRuns_pieces (inClass : N → bool) (s : jsstring) :
  Forall (λ piece, Forall (λ c, inClass c = false ∧ c ∈ s) piece)
         (JsString.splitRuns inClass s).
Proof.
  eapply list.Forall_impl;
    [apply (splitRunsFrom_pieces inClass s [] false); constructor|].
  cbv beta. intros piece Hpiece. eapply list.Forall_impl; [exact Hpiece|].
  cbv beta. intros c [Hc [Hnil|Hs]]; [by apply elem_of_nil in Hnil|done].
Qed.

(** Every bullet that [extractJobSummary] returns, whatever the
    text, is not empty and has no whitespace at either end.  When
    the summary line has no [PointN:] match, every bullet is longer
    than 10 characters and holds none of [.], [!], [?] and no line
    terminator. *)
Theorem extractJobSummary_bullets (chunk : jsstring) :
  Forall (λ bullet, bullet ≠ [] ∧ JsString.trim bullet = bullet)
         (extractJobSummary chunk)
  ∧ (∀ line,
       firstCapture (js "Job Summary:")
         (λ c, negb (JsString.isLineTerminator c)) chunk = Some line →
       pointMatches line = [] →
       Forall (λ bullet,
                 10 < length bullet
                 ∧ Forall (λ c, isSentenceEnd c = false
                                ∧ JsString.isLineTerminator c = false) bullet)
              (extractJobSummary chunk)).
Proof.
  unfold extractJobSummary. case_decide; [by split; [constructor|constructor]|].
  destruct (firstCapture _ _ chunk) as [line|] eqn:Hline;
    [|by split; [constructor|]].
  split.
  - destruct (pointMatches line) as [|point points].
    + apply list.Forall_forall. intros bullet Hbullet.
      apply list.elem_of_take in Hbullet as (i & Hbullet & _).
    apply list_elem_of_lookup_2 in Hbullet.
      apply list_elem_of_filter in Hbullet as [Hlong Hbullet].
      apply list_elem_of_fmap in Hbullet as (piece & -> & _).
      split; [|apply trim_trim]. intros Hnil. rewrite Hnil in Hlong. cbn in Hlong. lia.
    + apply list.Forall_forall. intros bullet Hbullet.
      apply list_elem_of_filter in Hbullet as [Hpos Hbullet].
      apply list_elem_of_fmap in Hbullet as (piece & -> & _).
      split; [|apply trim_trim]. intros Hnil. rewrite Hnil in Hpos. cbn in Hpos. lia.
  - intros line' [= <-] ->.
    apply firstCapture_class in Hline. rewrite forallb_forall in Hline.
    apply list.Forall_forall. intros bullet Hbullet.
    apply list.elem_of_take in Hbullet as (i & Hbullet & _).
    apply list_elem_of_lookup_2 in Hbullet.
    apply list_elem_of_filter in Hbullet as [Hlong Hbullet].
    apply list_elem_of_fmap in Hbullet as (piece & -> & Hpiece).
    split; [done|].
    pose proof (proj1 (list.Forall_forall _ _) (splitRuns_pieces isSentenceEnd line)
                  piece Hpiece) as Hchars.
    apply list.Forall_forall. intros c Hc. apply trim_chars in Hc.
    destruct (proj1 (list.Forall_forall _ _) Hchars c Hc) as [Hend Hin].
    split; [done|]. apply list_elem_of_In, Hline in Hin.
    by destruct (JsString.isLineTerminator c).
Qed.

(** *** The identifiers of the jobs *)

(** The index can be read off the end of an identifier. *)
Lemma generateJobId_index (job : JobMatch.t) (index : nat) :
  JsString.digitsValue
    (rev (JsString.takeWhile JsString.isDigit (rev (generateJobId job index))))
  = Z.of_nat index.
Proof.
  unfold generateJobId.
  set (baseId := match JobMatch.job_link job with
                 | Some ((_ :: _) as link) => lastSegment link
                 | _ => _
                 end).
  destruct (ParameterFacts.ofZ_spec (Z.of_nat index))
    as (ds & Hofz & _ & Hdigits & Hvalue & _).
  replace (Z.of_nat index <? 0)%Z with false in Hofz by lia.
  cbn [app] in Hofz. rewrite Hofz.
  change (js "_") with [95%N].
  rewrite !rev_app_distr. cbn [rev app]. rewrite <- !app_assoc. cbn [app].
  rewrite (ExtractionFacts.takeWhile_all JsString.isDigit (rev ds)).
  - rewrite rev_involutive, Hvalue. lia.
  - rewrite forallb_forall in *. intros c Hc. apply Hdigits. by apply in_rev.
  - done.
Qed.

(** [transformJobData] makes one job of every match, in the order of
    the response, and gives them identifiers that differ from one
    another: an identifier ends in the position of its match. *)
Theorem transformed_jobs_have_distinct_ids (host : Date.Host) (now : Z)
    (data : BackendData.t) (quota : option Z) :
  let jobs := Transformed.jobs (transformJobData host now data quota) in
  length jobs = length (BackendData.matches data)
  ∧ (∀ i job, BackendData.matches data !! i = Some job →
              jobs !! i = Some (transformJob host now job i))
  ∧ NoDup (map Job.id jobs).
Proof.
  cbv zeta. unfold transformJobData. cbn [Transformed.jobs].
  split; [by rewrite length_imap|]. split.
  - intros i job Hjob. by rewrite list_lookup_imap, Hjob.
  - apply NoDup_alt. intros i j id Hi Hj.
    rewrite list_lookup_fmap, list_lookup_imap in Hi.
    rewrite list_lookup_fmap, list_lookup_imap in Hj.
    destruct (BackendData.matches data !! i) as [a|]; [|done].
    destruct (BackendData.matches data !! j) as [b|]; [|done].
    cbn [fmap option_fmap option_map] in Hi, Hj.
    rewrite <- Hi in Hj. clear Hi. apply (inj Some) in Hj.
    change (Job.id (transformJob host now a i)) with (generateJobId a i) in Hj.
    change (Job.id (transformJob host now b j)) with (generateJobId b j) in Hj.
    apply (f_equal (λ id, JsString.digitsValue
             (rev (JsString.takeWhile JsString.isDigit (rev id))))) in Hj.
    cbv beta in Hj. rewrite !generateJobId_index in Hj. lia.
Qed.

(** *** The label of a date *)

(** A date that is less than 365 days away, before or after the
    time of the call, is labelled by the number of whole days
    between the two: with one of [Today], [Yesterday], 2 to 6
    [days ago], 1 to 4 [weeks ago] and 1 to 12 [months ago].  Two
    dates at the same distance get the same label, so that a date
    in the future reads as one in the past. *)
Theorem formatDate_within_a_year (host : Date.Host) (now : Z) (v : Value.t)
    (date : Z) :
  Value.truthy v = true →
  Date.ofValue host v = Some date →
  (Z.abs (now - date) < 365 * Date.msPerDay)%Z →
  formatDate host now v
  ∈ [js "Today"; js "Yesterday"]
    ++ map (λ n, JsString.ofZ n ++ js " days ago") (seqZ 2 5)
    ++ map (λ n, JsString.ofZ n ++ js " weeks ago") (seqZ 1 4)
    ++ map (λ n, JsString.ofZ n ++ js " months ago") (seqZ 1 12)
  ∧ (∀ v' date',
       Value.truthy v' = true →
       Date.ofValue host v' = Some date' →
       (Z.abs (now - date') / Date.msPerDay
        = Z.abs (now - date) / Date.msPerDay)%Z →
       formatDate host now v' = formatDate host now v).
Proof.
  intros Hv Hdate Hnear.
  pose proof (FormatterFacts.formatDate_labels host now v date Hv Hdate) as Hlabels.
  cbv zeta in Hlabels.
  set (age := (Z.abs (now - date) / Date.msPerDay)%Z) in *.
  assert (Hage : (0 ≤ age < 365)%Z).
  { unfold age, Date.msPerDay in *. split.
    - apply Z.div_pos; lia.
    - apply Z.div_lt_upper_bound; lia. }
  destruct Hlabels as (H0 & H1 & Hdays & Hweeks & Hmonths & _).
  split.
  - destruct (decide (age = 0)%Z) as [Hz|Hnz];
      [rewrite (H0 Hz); apply elem_of_cons; by left|].
    destruct (decide (age = 1)%Z) as [Ho|Hno];
      [rewrite (H1 Ho); apply elem_of_cons; right; apply elem_of_cons; by left|].
    do 2 (apply elem_of_cons; right).
    destruct (decide (age < 7)%Z).
    { rewrite Hdays by lia. apply elem_of_app. left.
      apply list_elem_of_fmap. exists age. split; [done|]. apply elem_of_seqZ. lia. }
    apply elem_of_app. right.
    destruct (decide (age < 30)%Z).
    { rewrite Hweeks by lia. apply elem_of_app. left.
      apply list_elem_of_fmap. exists (age / 7)%Z. split; [done|].
      apply elem_of_seqZ.
      split; [apply Z.div_le_lower_bound; lia|apply Z.div_lt_upper_bound; lia]. }
    rewrite Hmonths by lia. apply elem_of_app. right.
    apply list_elem_of_fmap. exists (age / 30)%Z. split; [done|].
    apply elem_of_seqZ.
    split; [apply Z.div_le_lower_bound; lia|apply Z.div_lt_upper_bound; lia].
  - intros v' date' Hv' Hdate' Hsame.
    pose proof (FormatterFacts.formatDate_labels host now v' date' Hv' Hdate')
      as Hlabels'.
    cbv zeta in Hlabels'. rewrite Hsame in Hlabels'. fold age in Hlabels'.
    destruct Hlabels' as (H0' & H1' & Hdays' & Hweeks' & Hmonths' & _).
    destruct (decide (age = 0)%Z) as [Hz|Hnz]; [by rewrite (H0 Hz), (H0' Hz)|].
    destruct (decide (age = 1)%Z) as [Ho|Hno]; [by rewrite (H1 Ho), (H1' Ho)|].
    destruct (decide (age < 7)%Z); [by rewrite Hdays, Hdays' by lia|].
    destruct (decide (age < 30)%Z); [by rewrite Hweeks, Hweeks' by lia|].
    by rewrite Hmonths, Hmonths' by lia.
Qed.

(** On 2025-01-20 the dates five days before and five days after
    are both labelled [5 days ago]. *)
Lemma formatDate_within_a_year_witness :
  formatDate Date.Utc.host Sample.now (VString (js "2025-01-15")) = js "5 days ago"
  ∧ formatDate Date.Utc.host Sample.now (VString (js "2025-01-25"))
    = formatDate Date.Utc.host Sample.now (VString (js "2025-01-15")).
Proof.
  split; [vm_compute; reflexivity|].
  destruct (formatDate_within_a_year Date.Utc.host Sample.now
              (VString (js "2025-01-15")) 1736899200000) as [_ Hsame].
  - reflexivity.
  - vm_compute. reflexivity.
  - vm_compute. reflexivity.
  - apply (Hsame (VString (js "2025-01-25")) 1737763200000%Z).
    + reflexivity.
    + vm_compute. reflexivity.
    + vm_compute. reflexivity.
Defined.

End TransformFacts.

(** ** The schema check and the validator *)

Module SchemaFacts.

Import Value Validator Described.
Local Open Scope Z_scope.



Lemma lookup_tool (name : jsstring) :
  name = js "match_resume" ∨ name = js "match_jobs_to_apply" →
  Tools.read Tools.tools name = Tools.Own Tools.inputSchema
  ∧ (bool_decide (name = js "match_resume")
     || bool_decide (name = js "match_jobs_to_apply")) = true.
Proof. intros [-> | ->]; split; vm_compute; reflexivity. Qed.





Section WithDate.

Variable host : Date.Host.
Variable now : Z.


(** A date that is truthy and not a string, a number for one, makes
    the schema check throw: [trim] is not a function of it.  The HTTP
    routes answer with the text of that error, and leave their state
    as it was. *)
Theorem schema_check_throws (name : jsstring) (params : object) :
  name = js "match_resume" ∨ name = js "match_jobs_to_apply" →
  truthyNonString (get params (js "start_date"))
  || truthyNonString (get params (js "end_date")) = true →
  Tools.validateToolParameters host name params = Tools.Throw
  ∧ (∀ limit backend time peer st,
       HttpServer.toolsCall host limit backend time peer name (Some params) st
       = (HttpServer.RpcError HttpServer.EngineTypeError, st)
       ∧ HttpServer.restToolsCall host limit backend time peer name (Some params) st
         = (HttpServer.Rest 500
              (HttpServer.ExecutionFailed HttpServer.EngineTypeError), st)).
Proof.
  intros Hname Hbad.
  assert (Hthrow : Tools.validateToolParameters host name params = Tools.Throw).
  { unfold Tools.validateToolParameters.
    destruct (lookup_tool name Hname) as [-> ->].
    unfold Tools.dateDependencies, Tools.hasDate.
    unfold truthyNonString in Hbad.
    destruct (get params (js "start_date")) as [| |[|]|n|s];
      destruct (get params (js "end_date")) as [| |[|]|m|e];
      cbn [truthy isString negb andb orb] in *; try done;
      try (destruct (n =? 0); cbn [negb andb orb] in *; try done);
      try (destruct (m =? 0); cbn [negb andb orb] in *; try done);
      try (destruct (JsString.eqb s []); cbn [negb andb orb] in *; try done);
      try (destruct (JsString.eqb e []); cbn [negb andb orb] in *; try done). }
  split; [done|]. intros limit backend time peer st.
  unfold HttpServer.toolsCall, HttpServer.restToolsCall.
  destruct (lookup_tool name Hname) as [-> _]. cbn [default from_option].
  unfold id. by rewrite Hthrow.
Qed.

End WithDate.


(** A start date given as the number 20250115. *)
Lemma schema_check_throws_witness :
  let params : object :=
    [(js "resume_text", VString (concat (replicate 50 (js "worked on it "))));
     (js "start_date", VNumber 20250115);
     (js "end_date", VString (js "2025-02-15"))] in
  Tools.validateToolParameters Date.Utc.host (js "match_resume") params = Tools.Throw
  ∧ errors (validateInputs Date.Utc.host Sample.now (Some params))
    = [js "start_date must be a string";
       js "Date range is too long (maximum 1 year)"].
Proof.
  intros params. split; [|vm_compute; reflexivity].
  apply (schema_check_throws Date.Utc.host (js "match_resume") params).
  - by left.
  - vm_compute. reflexivity.
Defined.

(** A range that ends a month before it starts, and one of two
    years. *)
Lemma date_order_and_span_witness :
  let resume := VString (concat (replicate 50 (js "worked on it "))) in
  let backwards : object :=
    [(js "resume_text", resume); (js "start_date", VString (js "2025-03-01"));
     (js "end_date", VString (js "2025-02-01"))] in
  let long : object :=
    [(js "resume_text", resume); (js "start_date", VString (js "2023-01-01"));
     (js "end_date", VString (js "2025-01-01"))] in
  js "Start date must be before end date"
  ∈ errors (validateInputs Date.Utc.host Sample.now (Some backwards))
  ∧ js "Date range is too long (maximum 1 year)"
    ∈ errors (validateInputs Date.Utc.host Sample.now (Some long)).
Proof.
  intros resume backwards long.
  destruct (DateRangeFacts.date_order_and_span Date.Utc.host Sample.now backwards
              (js "2025-03-01") (js "2025-02-01") 1740787200000 1738368000000)
    as [Horder _]; try (vm_compute; reflexivity); try (vm_compute; discriminate).
  destruct (DateRangeFacts.date_order_and_span Date.Utc.host Sample.now long
              (js "2023-01-01") (js "2025-01-01") 1672531200000 1735689600000)
    as [_ Hspan]; try (vm_compute; reflexivity); try (vm_compute; discriminate).
  split.
  - refine (proj2 (Horder _)). vm_compute. discriminate.
  - refine (proj2 (Hspan _)). vm_compute. reflexivity.
Defined.

(** A start date without an end date. *)
Lemma validateToolParameters_dates_witness :
  let params : object :=
    [(js "resume_text", VString (concat (replicate 50 (js "worked on it "))));
     (js "start_date", VString (js "2025-01-15"))] in
  ∃ validation,
    Tools.validateToolParameters Date.Utc.host (js "match_resume") params
    = Tools.Normal validation
    ∧ valid validation = false
    ∧ Tools.startRequiresEnd ∈ errors validation.
Proof.
  intros params.
  destruct (DateRangeFacts.validateToolParameters_dates Date.Utc.host
              (js "match_resume") params true false)
    as (validation & Hcheck & Hstart & _).
  - by left.
  - vm_compute. reflexivity.
  - vm_compute. reflexivity.
  - exists validation. split; [exact Hcheck|]. by apply Hstart.
Defined.

(** The marks of 87, 55 and 12 per cent. *)
Lemma matchColor_bands_witness :
  Formatter.matchColor (Number.ofZ 87) = js "🟢"
  ∧ Formatter.matchColor (Number.ofZ 55) = js "🟡"
  ∧ Formatter.matchColor (Number.ofZ 12) = js "🟠".
Proof.
  split; [|split].
  - apply (FormatterFacts.matchColor_bands 87). lia.
  - apply (FormatterFacts.matchColor_bands 55). lia.
  - apply (FormatterFacts.matchColor_bands 12). lia.
Defined.

End SchemaFacts.
